(** * Paper-cutting relay: a shallow embedding of [scripts/api_server.py]

    The server accepts an image, stages it on the generation engine
    (ComfyUI), submits a workflow document, polls the engine's history
    endpoint, downloads the produced image and republishes it on a remote
    storage service.

    Everything the handlers obtain from outside the process (HTTP replies
    and how long they take, the environment variables, the workflow file,
    PIL, base64, the random generator, uuid4, the interpreter's texts) is a
    field of one [World] record.  The handlers are functions in a small
    monad that threads the wall clock and the list of requests sent, and
    that carries Python exceptions. *)

From Stdlib Require Import ZArith NArith String Ascii List.
From stdpp Require Import base option gmap strings pretty.

Local Open Scope string_scope.

(** ** Strings, as the handlers use them *)

Module Str.

(** [c in s] for a one-character [c]. *)
Fixpoint contains (c : ascii) (s : string) : bool :=
  match s with
  | EmptyString => false
  | String a s' => if Ascii.eqb a c then true else contains c s'
  end.

(** [s.split(c, 1)]: [None] when [c] does not occur (Python returns the
    one-element list [[s]]), otherwise the text before the first [c] and
    the text after it. *)
Fixpoint split_once (c : ascii) (s : string) : option (string * string) :=
  match s with
  | EmptyString => None
  | String a s' =>
      if Ascii.eqb a c then Some (EmptyString, s')
      else match split_once c s' with
           | Some (pre, post) => Some (String a pre, post)
           | None => None
           end
  end.

(** [s.rsplit(c, 1)[0]]: the text before the last [c], or [s] itself when
    [c] does not occur. *)
Fixpoint rsplit_head (c : ascii) (s : string) : string :=
  match s with
  | EmptyString => EmptyString
  | String a s' =>
      if contains c s' then String a (rsplit_head c s')
      else if Ascii.eqb a c then EmptyString
      else String a s'
  end.

(** [s.endswith(suffix)]. *)
Definition endswith (s suffix : string) : bool :=
  String.prefix (String.rev suffix) (String.rev s).

(** Truth value of a string. *)
Definition nonempty (s : string) : bool :=
  match s with EmptyString => false | String _ _ => true end.

(** [needle in hay] for strings. *)
Definition substring_of (needle hay : string) : bool :=
  match String.index 0 needle hay with Some _ => true | None => false end.

End Str.

(** ** JSON documents, as [json.load] and [response.json()] give them

    Objects are dictionaries with string keys; numbers are integers. *)

#[warnings="-register-all"]
Inductive json : Type :=
| JNull
| JBool (b : bool)
| JNum (n : Z)
| JStr (s : string)
| JArr (l : list json)
| JObj (m : gmap string json).

(** ** Exceptions and results *)

(** Errors raised by the interpreter itself.  Their [str()] is the
    interpreter's business ([exc_str] of the world). *)
Inductive py_error :=
| TypeError
| AttributeError
| KeyError (key : string)
| IndexError
| JSONDecodeError.

Inductive exn :=
| HTTPException (status_code : Z) (detail : string)
| RequestsTimeout (msg : string)        (* requests.exceptions.Timeout *)
| Exception (msg : string)              (* any other exception; [msg] is its str() *)
| PyError (e : py_error).

(** What the model cannot decide: the polling loop ran out of fuel, or a
    field that [GenerateResponse] declares as a string received a truthy
    value of another type (what pydantic does then depends on its
    version). *)
Inductive stuck := OutOfFuel | NonStringField.

Inductive Res (A : Type) :=
| Ok (a : A)
| Raise (e : exn)
| Stuck (why : stuck).
Arguments Ok {A} a.
Arguments Raise {A} e.
Arguments Stuck {A} why.

Definition res_bind {A B} (r : Res A) (k : A -> Res B) : Res B :=
  match r with
  | Ok a => k a
  | Raise e => Raise e
  | Stuck s => Stuck s
  end.

(** ** Python's operations on decoded JSON *)

Definition truthy (j : json) : bool :=
  match j with
  | JNull => false
  | JBool b => b
  | JNum n => negb (Z.eqb n 0)
  | JStr s => Str.nonempty s
  | JArr l => match l with [] => false | _ :: _ => true end
  | JObj m => negb (bool_decide (m = ∅))
  end.

Definition is_str (key : string) (j : json) : bool :=
  match j with JStr s => String.eqb s key | _ => false end.

(** [key in j] for a string [key]. *)
Definition py_contains (key : string) (j : json) : Res bool :=
  match j with
  | JObj m => Ok (bool_decide (is_Some (m !! key)))
  | JArr l => Ok (existsb (is_str key) l)
  | JStr s => Ok (Str.substring_of key s)
  | JNull | JBool _ | JNum _ => Raise (PyError TypeError)
  end.

(** [j[key]] for a string [key]. *)
Definition py_getitem (j : json) (key : string) : Res json :=
  match j with
  | JObj m => match m !! key with
              | Some v => Ok v
              | None => Raise (PyError (KeyError key))
              end
  | _ => Raise (PyError TypeError)
  end.

(** [j.get(key, default)]. *)
Definition py_get (j : json) (key : string) (default : json) : Res json :=
  match j with
  | JObj m => Ok (match m !! key with Some v => v | None => default end)
  | _ => Raise (PyError AttributeError)
  end.

(** [j[0]]. *)
Definition py_first (j : json) : Res json :=
  match j with
  | JArr (x :: _) => Ok x
  | JArr [] => Raise (PyError IndexError)
  | JStr (String a _) => Ok (JStr (String a EmptyString))
  | JStr EmptyString => Raise (PyError IndexError)
  | JObj _ => Raise (PyError (KeyError "0"))
  | JNull | JBool _ | JNum _ => Raise (PyError TypeError)
  end.

(** [j[key] = v]. *)
Definition py_setitem (j : json) (key : string) (v : json) : Res json :=
  match j with
  | JObj m => Ok (JObj (<[key := v]> m))
  | _ => Raise (PyError TypeError)
  end.

(** [j[k1][k2][k3] = v].  Python mutates the innermost dictionary in place;
    here the updated child is stored back under the key it was read from.
    A document that comes out of [json.load] is a tree, so no other node
    shares the dictionaries on the path. *)
Definition py_setitem3 (j : json) (k1 k2 k3 : string) (v : json) : Res json :=
  res_bind (py_getitem j k1) (fun node =>
  res_bind (py_getitem node k2) (fun inputs =>
  res_bind (py_setitem inputs k3 v) (fun inputs' =>
  res_bind (py_setitem node k2 inputs') (fun node' =>
  py_setitem j k1 node')))).

(** ** The world outside the process *)

Abbreviation bytes := (list Byte.byte).

(** An outbound call of the [requests] library. *)
Inductive request :=
| GET (url : string) (timeout : N)
| POST_json (url : string) (prompt : json) (client_id : string) (timeout : N)
| POST_files (url : string) (field : string) (filename : json)
    (content : bytes) (data : list (string * string)) (timeout : N).

Record response := {
  status_code : Z;
  text : string;
  content : bytes;
  body_json : option json      (* [None]: the body is not JSON *)
}.

Inductive reply :=
| Replied (r : response)
| TimedOut (msg : string)      (* requests.exceptions.Timeout *)
| Failed (msg : string).       (* any other exception of [requests] *)

Record World := {
  (** [os.getenv], after [load_dotenv()]. *)
  getenv : string -> option string;
  (** The workflow file next to the script: [None] when the path does not
      exist, [Some None] when its content is not JSON. *)
  workflow_file : option (option json);
  (** [Image.open] followed by [image.save(..., format='PNG')]: the PNG
      bytes, or the text of the exception PIL raises. *)
  pil_png : bytes -> string + bytes;
  (** [base64.b64decode]: the bytes, or the text of the exception. *)
  b64decode : string -> string + bytes;
  (** [str()] of a decoded JSON value that is not a string. *)
  py_repr : json -> string;
  (** [str()] of an interpreter error. *)
  exc_str : py_error -> string;
  (** The entropy [random.randint] consumes for this request. *)
  random_bits : N;
  (** [str(uuid.uuid4())] for this request. *)
  uuid4 : string;
  (** The reply to a request, given the requests sent before it (newest
      first), and the time the call takes. *)
  http : list request -> request -> reply * N
}.

(** The state a handler threads: the wall clock, in whole time units, and
    the requests sent so far, newest first. *)
Record State := { clock : N; sent : list request }.

Definition M (A : Type) : Type := State -> Res A * State.

#[global] Instance M_ret : MRet M := fun A a st => (Ok a, st).
#[global] Instance M_bind : MBind M := fun A B k m st =>
  match m st with
  | (Ok a, st') => k a st'
  | (Raise e, st') => (Raise e, st')
  | (Stuck s, st') => (Stuck s, st')
  end.

Definition raise {A} (e : exn) : M A := fun st => (Raise e, st).
Definition stuck_at {A} (s : stuck) : M A := fun st => (Stuck s, st).
Definition lift {A} (r : Res A) : M A := fun st => (r, st).

(** [try: body except Exception as e: handler(e)].  Every exception of the
    model derives from [Exception]. *)
Definition try_except {A} (body : M A) (handler : exn -> M A) : M A :=
  fun st =>
    match body st with
    | (Raise e, st') => handler e st'
    | other => other
    end.

Definition time_time : M N := fun st => (Ok (clock st), st).

Definition time_sleep (d : N) : M unit :=
  fun st => (Ok tt, {| clock := clock st + d; sent := sent st |}).

(** One call of [requests.get] or [requests.post]. *)
Definition requests_send (w : World) (req : request) : M response :=
  fun st =>
    let '(rep, dt) := http w (sent st) req in
    let st' := {| clock := clock st + dt; sent := req :: sent st |} in
    match rep with
    | Replied r => (Ok r, st')
    | TimedOut msg => (Raise (RequestsTimeout msg), st')
    | Failed msg => (Raise (Exception msg), st')
    end.

(** [response.json()]. *)
Definition response_json (r : response) : Res json :=
  match body_json r with
  | Some j => Ok j
  | None => Raise (PyError JSONDecodeError)
  end.

(** [str(e)]. *)
Definition str_exn (w : World) (e : exn) : string :=
  match e with
  | HTTPException _ detail => detail
  | RequestsTimeout msg => msg
  | Exception msg => msg
  | PyError pe => exc_str w pe
  end.

(** A value inside an f-string. *)
Definition fmt (w : World) (j : json) : string :=
  match j with
  | JStr s => s
  | _ => py_repr w j
  end.

(** ** Configuration *)

Definition COMFYUI_URL (w : World) : string :=
  default "http://10.0.0.11:8188" (getenv w "COMFYUI_URL").

Definition UPLOAD_API_URL (w : World) : string :=
  default "https://threebody-test.vitoreality.com/yuangu-ar/api"
          (getenv w "UPLOAD_API_URL").

(** ** Data model *)

Record GenerateResponse := {
  success : bool;
  image_url : option string;
  prompt_id : option string;
  error : option string
}.

Record PaperCuttingRequest := {
  input_image_base64 : string;
  seed : option Z
}.

(** ** Helpers of the server *)

(** [load_paper_cutting_workflow]. *)
Definition load_paper_cutting_workflow (w : World) : M json :=
  match workflow_file w with
  | Some (Some j) => mret j
  | Some None => raise (PyError JSONDecodeError)
  | None => raise (Exception "未找到工作流文件 02_qwen_Image_edit_subgraphed.json")
  end.

(** [upload_binary_to_comfyui].  Both uploads of the file send the part as
    'image/png'; the request of the model leaves the constant out. *)
Definition upload_binary_to_comfyui (w : World) (image_data : bytes)
    (original_filename : option string) : M json :=
  match pil_png w image_data with
  | inl msg => raise (Exception msg)
  | inr png =>
      now ← time_time;
      let generated := "paper_cutting_" ++ pretty now ++ ".png" in
      let filename :=
        match original_filename with
        | Some f => if Str.nonempty f then f else generated
        | None => generated
        end in
      let filename :=
        if Str.endswith filename ".png" then filename
        else Str.rsplit_head "." filename ++ ".png" in
      response ← requests_send w
        (POST_files (COMFYUI_URL w ++ "/upload/image") "image" (JStr filename)
                    png [("overwrite", "true")] 30);
      if bool_decide (status_code response = 200%Z) then
        result ← lift (response_json response);
        lift (py_get result "name" (JStr filename))
      else
        raise (Exception ("上传失败: " ++ pretty (status_code response)
                          ++ " - " ++ text response))
  end.

(** The text [upload_base64_to_comfyui] hands to [base64.b64decode]. *)
Definition base64_payload (base64_str : string) : string :=
  if Str.contains "," base64_str then
    match Str.split_once "," base64_str with
    | Some (_, rest) => rest
    | None => base64_str
    end
  else base64_str.

(** The rest of [upload_base64_to_comfyui], from the decoding on. *)
Definition decode_and_upload (w : World) (payload : string) : M json :=
  match b64decode w payload with
  | inl msg => raise (Exception msg)
  | inr image_data => upload_binary_to_comfyui w image_data None
  end.

(** [upload_base64_to_comfyui]. *)
Definition upload_base64_to_comfyui (w : World) (base64_str : string) : M json :=
  decode_and_upload w (base64_payload base64_str).

(** The multipart POST of [upload_to_remote_server]. *)
Definition storage_request (w : World) (image_data : bytes) (filename : json) : request :=
  POST_files (UPLOAD_API_URL w ++ "/system/v1/upload") "file" filename
             image_data [("file_category", "2"); ("namespace", "camera")] 30.

(** [upload_to_remote_server]. *)
Definition upload_to_remote_server (w : World) (image_data : bytes)
    (filename : json) : M json :=
  response ← requests_send w (storage_request w image_data filename);
  if bool_decide (status_code response = 200%Z) then
    result ← lift (response_json response);
    online_url ← lift (py_get result "value" JNull);
    if truthy online_url then mret online_url
    else raise (Exception ("响应中未包含地址: " ++ fmt w result))
  else
    raise (Exception ("上传失败: " ++ pretty (status_code response)
                      ++ " - " ++ text response)).

(** [random.randint(a, b)]: an integer between [a] and [b], both included. *)
Definition randint (w : World) (a b : Z) : Z :=
  (a + Z.of_N (random_bits w) mod (b - a + 1))%Z.

(** ** The generate handlers

    The two handlers differ in how the image reaches the engine; from the
    line that sets node 78 on, their bodies are the same text, modelled
    once. *)

(** [if "78" in workflow: workflow["78"]["inputs"]["image"] = name]. *)
Definition set_input_image (workflow name : json) : Res json :=
  res_bind (py_contains "78" workflow) (fun present =>
  if present then py_setitem3 workflow "78" "inputs" "image" name
  else Ok workflow).

(** [seed if seed else random.randint(1, 2**32 - 1)]: [None] and [0] are
    both false. *)
Definition actual_seed (w : World) (seed : option Z) : Z :=
  match seed with
  | Some s => if negb (s =? 0)%Z then s else randint w 1 (2 ^ 32 - 1)
  | None => randint w 1 (2 ^ 32 - 1)
  end.

(** [if "115:3" in workflow: workflow["115:3"]["inputs"]["seed"] = seed]. *)
Definition set_seed (workflow : json) (seed : Z) : Res json :=
  res_bind (py_contains "115:3" workflow) (fun present =>
  if present then py_setitem3 workflow "115:3" "inputs" "seed" (JNum seed)
  else Ok workflow).

(** The two writes into the workflow document. *)
Definition configure_workflow (w : World) (workflow name : json)
    (seed : option Z) : Res json :=
  res_bind (set_input_image workflow name) (fun workflow =>
  set_seed workflow (actual_seed w seed)).

(** The POST to [/prompt]: the document and the correlation id. *)
Definition prompt_request (w : World) (workflow : json) : request :=
  POST_json (COMFYUI_URL w ++ "/prompt") workflow (uuid4 w) 10.

(** Submission: the POST and the extraction of the job id. *)
Definition submit_workflow (w : World) (workflow : json) : M string :=
  response ← requests_send w (prompt_request w workflow);
  if negb (bool_decide (status_code response = 200%Z)) then
    raise (HTTPException 500 ("ComfyUI 错误: " ++ text response))
  else
    body ← lift (response_json response);
    prompt_id ← lift (py_get body "prompt_id" JNull);
    if negb (truthy prompt_id) then
      raise (HTTPException 500 "未能获取 prompt_id")
    else
      match prompt_id with
      | JStr pid => mret pid
      | _ => stuck_at NonStringField
      end.

(** [GenerateResponse(success=True, image_url=url, prompt_id=prompt_id)]. *)
Definition success_response (url : json) (pid : string) : M GenerateResponse :=
  match url with
  | JStr u => mret {| success := true; image_url := Some u;
                      prompt_id := Some pid; error := None |}
  | _ => stuck_at NonStringField
  end.

Definition view_url (w : World) (filename subfolder folder_type : json) : string :=
  let image_url := COMFYUI_URL w ++ "/view?filename=" ++ fmt w filename
                   ++ "&type=" ++ fmt w folder_type in
  if truthy subfolder then image_url ++ "&subfolder=" ++ fmt w subfolder
  else image_url.

Definition proxy_url (w : World) (filename folder_type : json) : string :=
  "http://localhost:8080/api/image/" ++ fmt w filename
  ++ "?type=" ++ fmt w folder_type.

Definition view_request (w : World) (filename subfolder folder_type : json) : request :=
  GET (view_url w filename subfolder folder_type) 30.

Definition proxy_response (w : World) (pid : string) (filename folder_type : json)
    : GenerateResponse :=
  {| success := true; image_url := Some (proxy_url w filename folder_type);
     prompt_id := Some pid; error := None |}.

(** The inner [try]: publish the image, or fall back to the proxy
    address. *)
Definition publish_or_proxy (w : World) (pid : string) (image_data : bytes)
    (filename folder_type : json) : M GenerateResponse :=
  try_except
    (online_url ← upload_to_remote_server w image_data filename;
     success_response online_url pid)
    (fun upload_err => mret (proxy_response w pid filename folder_type)).

(** What an attempt does once it holds the first image entry: download the
    image, then publish it. *)
Definition retrieve_and_publish (w : World) (pid : string)
    (filename subfolder folder_type : json) : M GenerateResponse :=
  img_response ← requests_send w (view_request w filename subfolder folder_type);
  if bool_decide (status_code img_response = 200%Z) then
    publish_or_proxy w pid (content img_response) filename folder_type
  else
    raise (Exception "无法下载生成的图片").

Definition history_request (w : World) (pid : string) : request :=
  GET (COMFYUI_URL w ++ "/history/" ++ pid) 30.

(** The body of the [try] of one polling iteration: [Some r] when it
    executes [return r], [None] when it falls through. *)
Definition poll_attempt (w : World) (pid : string) : M (option GenerateResponse) :=
  history_response ← requests_send w (history_request w pid);
  if bool_decide (status_code history_response = 200%Z) then
    history_data ← lift (response_json history_response);
    present ← lift (py_contains pid history_data);
    if present : bool then
      entry ← lift (py_getitem history_data pid);
      outputs ← lift (py_get entry "outputs" (JObj ∅));
      has60 ← lift (py_contains "60" outputs);
      if has60 : bool then
        node60 ← lift (py_getitem outputs "60");
        images ← lift (py_get node60 "images" (JArr []));
        if truthy images then
          first ← lift (py_first images);
          filename ← lift (py_get first "filename" JNull);
          subfolder ← lift (py_get first "subfolder" (JStr ""));
          folder_type ← lift (py_get first "type" (JStr "output"));
          r ← retrieve_and_publish w pid filename subfolder folder_type;
          mret (Some r)
        else mret None
      else mret None
    else mret None
  else mret None.

Definition max_wait : N := 300.

(** The [while] loop.  Both [except] clauses of the iteration print and go
    on to the [time.sleep(3)]. *)
Fixpoint poll_loop (fuel : nat) (w : World) (pid : string) (start_time : N)
    : M GenerateResponse :=
  match fuel with
  | O => stuck_at OutOfFuel
  | S fuel' =>
      now ← time_time;
      if bool_decide (now - start_time < max_wait)%N then
        r ← try_except (poll_attempt w pid) (fun _ => mret None);
        match r with
        | Some resp => mret resp
        | None => time_sleep 3;; poll_loop fuel' w pid start_time
        end
      else raise (HTTPException 408 "生成超时")
  end.

(** From the line that sets node 78 to the end of the [try] body. *)
Definition generate_tail (fuel : nat) (w : World) (workflow name : json)
    (seed : option Z) : M GenerateResponse :=
  workflow ← lift (configure_workflow w workflow name seed);
  pid ← submit_workflow w workflow;
  start_time ← time_time;
  poll_loop fuel w pid start_time.

(** The two [except] clauses that close a handler. *)
Definition outer_except {A} (w : World) (body : M A) : M A :=
  try_except body (fun e =>
    match e with
    | HTTPException code detail => raise (HTTPException code detail)
    | _ => raise (HTTPException 500 ("生成失败: " ++ str_exn w e))
    end).

(** [generate_paper_cutting] up to the upload of the image. *)
Definition ingress_binary (w : World) (image_data : bytes)
    (image_filename : option string) : M (json * json) :=
  workflow ← load_paper_cutting_workflow w;
  if bool_decide (image_data = []) then
    raise (HTTPException 400 "缺少输入图片")
  else
    input_image_filename ← upload_binary_to_comfyui w image_data image_filename;
    mret (workflow, input_image_filename).

(** [generate_paper_cutting_base64] up to the upload of the image. *)
Definition ingress_base64 (w : World) (request : PaperCuttingRequest)
    : M (json * json) :=
  workflow ← load_paper_cutting_workflow w;
  if negb (Str.nonempty (input_image_base64 request)) then
    raise (HTTPException 400 "缺少输入图片")
  else
    input_image_filename ← upload_base64_to_comfyui w (input_image_base64 request);
    mret (workflow, input_image_filename).

(** A handler: the [try] around the ingress and the shared body. *)
Definition handle (fuel : nat) (w : World) (ingress : M (json * json))
    (seed : option Z) : M GenerateResponse :=
  outer_except w
    (p ← ingress;
     generate_tail fuel w p.1 p.2 seed).

(** POST /api/paper-cutting/generate *)
Definition generate_paper_cutting (fuel : nat) (w : World) (image_data : bytes)
    (image_filename : option string) (seed : option Z) : M GenerateResponse :=
  handle fuel w (ingress_binary w image_data image_filename) seed.

(** POST /api/paper-cutting/generate-base64 *)
Definition generate_paper_cutting_base64 (fuel : nat) (w : World)
    (request : PaperCuttingRequest) : M GenerateResponse :=
  handle fuel w (ingress_base64 w request) (seed request).

(** What the caller receives when the handler stands at the head of the
    polling loop. *)
Definition resume_polling (fuel : nat) (w : World) (pid : string)
    (start_time : N) : M GenerateResponse :=
  outer_except w (poll_loop fuel w pid start_time).

(** ** Scripted worlds, for running the handlers *)

Module Script.

Definition obj (kvs : list (string * json)) : json := JObj (list_to_map kvs).

Definition ok_json (j : json) : reply :=
  Replied {| status_code := 200; text := "{...}"; content := []; body_json := Some j |}.

Definition ok_bytes (b : bytes) : reply :=
  Replied {| status_code := 200; text := ""; content := b; body_json := None |}.

Definition status (code : Z) (body : string) : reply :=
  Replied {| status_code := code; text := body; content := []; body_json := None |}.

Definition is_history (r : request) : bool :=
  match r with
  | GET url _ => String.prefix "http://10.0.0.11:8188/history/" url
  | _ => false
  end.

(** A workflow document with the two nodes the handlers write to and a
    third one. *)
Definition workflow0 : json :=
  obj [("78", obj [("inputs", obj [("image", JStr "old.png")])]);
       ("115:3", obj [("inputs", obj [("seed", JNum 7); ("steps", JNum 4)])]);
       ("60", obj [("inputs", obj [("filename_prefix", JStr "out")])])].

(** The history document of a finished job with the given image entries. *)
Definition finished (pid : string) (images : list json) : json :=
  obj [(pid, obj [("outputs", obj [("60", obj [("images", JArr images)])])])].

Definition image_entry (filename subfolder folder_type : string) : json :=
  obj [("filename", JStr filename); ("subfolder", JStr subfolder);
       ("type", JStr folder_type)].

(** A world in which the upload is accepted as [in.png], the submission
    reply is [submission], the [n]-th poll is answered by [history n],
    the view endpoint by [view] and the storage service by [storage];
    every call takes [dt] time units. *)
Definition world (bits : N) (submission : reply) (history : nat -> reply)
    (view storage : reply) (dt : N) : World :=
  {| getenv := fun _ => None;
     workflow_file := Some (Some workflow0);
     pil_png := fun b => inr b;
     b64decode := fun _ => inr [Byte.x89; Byte.x50];
     py_repr := fun _ => "<repr>";
     exc_str := fun _ => "<error>";
     random_bits := bits;
     uuid4 := "123e4567-e89b-42d3-a456-426614174000";
     http := fun log req =>
       (match req with
        | GET _ _ =>
            if is_history req then history (length (filter is_history log))
            else view
        | POST_json _ _ _ _ => submission
        | POST_files url _ _ _ _ _ =>
            if String.eqb url "http://10.0.0.11:8188/upload/image"
            then ok_json (obj [("name", JStr "in.png")])
            else storage
        end, dt) |}.

Definition accepted (pid : string) : reply := ok_json (obj [("prompt_id", JStr pid)]).

Definition start : State := {| clock := 1000; sent := [] |}.

Definition two_images : list json :=
  [image_entry "out.png" "" "output"; image_entry "second.png" "sub" "temp"].

(** Two polls without the job, then the finished job. *)
Definition third_poll (n : nat) : reply :=
  if (n <? 2)%nat then ok_json (obj [])
  else ok_json (finished "abc" two_images).

(** Polls that time out and fail in turn. *)
Definition flaky (n : nat) : reply :=
  if Nat.even n then TimedOut "read timed out" else Failed "connection refused".

Definition image : reply := ok_bytes [Byte.x89; Byte.x50; Byte.x4e; Byte.x47].

Definition cdn : reply := ok_json (obj [("value", JStr "https://cdn/x.png")]).

Definition w_published : World :=
  world 41 (accepted "abc") third_poll image cdn 1.

Definition w_storage_down : World :=
  world 41 (accepted "abc") third_poll image (status 503 "unavailable") 1.

Definition w_empty_value : World :=
  world 41 (accepted "abc") third_poll image (ok_json (obj [("value", JStr "")])) 1.

Definition w_flaky : World :=
  world 41 (accepted "abc") flaky image cdn 1.

Definition w_download_fails : World :=
  world 41 (accepted "abc") (fun _ => ok_json (finished "abc" two_images))
        (status 404 "not found") cdn 1.

Definition w_rejected : World :=
  world 41 (status 500 "engine exploded") third_poll image cdn 1.

Definition w_no_id : World :=
  world 41 (ok_json (obj [("node_errors", obj [])])) third_poll image cdn 1.

Definition photo : bytes := [Byte.xff; Byte.xd8; Byte.xff].

Definition base64_request (seed : option Z) : PaperCuttingRequest :=
  {| input_image_base64 := "data:image/png;base64,iVBORw0KGgo="; seed := seed |}.

Definition w_first_poll : World :=
  world 41 (accepted "abc") (fun _ => ok_json (finished "abc" two_images))
        image cdn 1.

(** The state of a handler that has polled twice. *)
Definition after_two_polls : State :=
  {| clock := 1010;
     sent := [GET "http://10.0.0.11:8188/history/abc" 30;
              GET "http://10.0.0.11:8188/history/abc" 30] |}.

Definition first_entry : gmap string json :=
  list_to_map [("filename", JStr "out.png"); ("subfolder", JStr "");
               ("type", JStr "output")].

(** A workflow document without the two nodes. *)
Definition bare_workflow : gmap string json :=
  list_to_map [("60", obj [("inputs", obj [("filename_prefix", JStr "out")])])].

(** The world [w] with another workflow file. *)
Definition with_workflow (w : World) (doc : json) : World :=
  {| getenv := getenv w; workflow_file := Some (Some doc);
     pil_png := pil_png w; b64decode := b64decode w; py_repr := py_repr w;
     exc_str := exc_str w; random_bits := random_bits w; uuid4 := uuid4 w;
     http := http w |}.

Definition w_bare : World := with_workflow w_published (JObj bare_workflow).

Definition is_view (r : request) : bool :=
  match r with
  | GET url _ => String.prefix "http://10.0.0.11:8188/view?" url
  | _ => false
  end.

End Script.

(** ** Observations on a run *)

(** The state after one call of [requests]. *)
Definition after (w : World) (req : request) (st : State) : State :=
  {| clock := clock st + (http w (sent st) req).2; sent := req :: sent st |}.

Definition slept (d : N) (st : State) : State :=
  {| clock := clock st + d; sent := sent st |}.

(** The workflow documents submitted to the engine, newest first. *)
Definition submitted (st : State) : list json :=
  omap (fun r => match r with POST_json _ doc _ _ => Some doc | _ => None end)
       (sent st).

(** [doc[node]["inputs"][field]], when all three exist. *)
Definition node_input (doc : json) (node field : string) : option json :=
  match doc with
  | JObj m =>
      match m !! node with
      | Some (JObj n) =>
          match n !! "inputs" with
          | Some (JObj i) => i !! field
          | _ => None
          end
      | _ => None
      end
  | _ => None
  end.

(** The seed of the last document submitted. *)
Definition submitted_seed (st : State) : option json :=
  doc ← head (submitted st); node_input doc "115:3" "seed".

(** The engine's documents as the specification reads them: the parsed
    body of a reply with status 200. *)
Definition poll_document (rep : reply) : option json :=
  match rep with
  | Replied r => if bool_decide (status_code r = 200%Z) then body_json r else None
  | _ => None
  end.

(** The image list of job [pid] under output node 60, when the history
    document has one. *)
Definition image_list (pid : string) (history_data : json) : option (list json) :=
  match history_data with
  | JObj h =>
      match h !! pid with
      | Some (JObj e) =>
          match e !! "outputs" with
          | Some (JObj o) =>
              match o !! "60" with
              | Some (JObj n) =>
                  match n !! "images" with
                  | Some (JArr l) => Some l
                  | _ => None
                  end
              | _ => None
              end
          | _ => None
          end
      | _ => None
      end
  | _ => None
  end.

(** A poll response qualifies when the job id is present with a non-empty
    image list under output node 60. *)
Definition qualifies (pid : string) (rep : reply) : bool :=
  match poll_document rep with
  | Some j => match image_list pid j with
              | Some (_ :: _) => true
              | _ => false
              end
  | None => false
  end.

(** The fields of an image entry, with the defaults of the handler. *)
Definition entry_field (img : gmap string json) (key : string) (dflt : json) : json :=
  match img !! key with Some v => v | None => dflt end.

(** The "value" field of a storage reply with status 200 and a JSON object
    as body. *)
Definition published_value (rep : reply) : option json :=
  match rep with
  | Replied r =>
      if bool_decide (status_code r = 200%Z) then
        match body_json r with
        | Some (JObj m) => m !! "value"
        | _ => None
        end
      else None
  | _ => None
  end.

(** Publication fails when the call raises, the status is not 200, the body
    is not a JSON object, or its "value" is missing or false. *)
Definition publication_fails (rep : reply) : bool :=
  match published_value rep with
  | Some v => negb (truthy v)
  | None => true
  end.

(** The download succeeded: status 200. *)
Definition downloaded (rep : reply) : option bytes :=
  match rep with
  | Replied r => if bool_decide (status_code r = 200%Z) then Some (content r) else None
  | _ => None
  end.

(** [within R m]: [m] never runs out of fuel, and relates the state it
    starts from to the state it ends in by [R]. *)
Definition within {A} (R : relation State) (m : M A) : Prop :=
  forall st r st', m st = (r, st') -> r <> Stuck OutOfFuel /\ R st st'.

(** The clock does not go back and no document is submitted. *)
Definition quietly : relation State :=
  fun st st' => (clock st <= clock st')%N /\ submitted st' = submitted st.

(** The response of a handler that published the image at [url]. *)
Definition published_response (pid url : string) : GenerateResponse :=
  {| success := true; image_url := Some url; prompt_id := Some pid; error := None |}.

(** The job identifier of a submission reply: the truthy "prompt_id" of a
    JSON object. *)
Definition job_id (r : response) : option json :=
  match body_json r with
  | Some (JObj m) =>
      match m !! "prompt_id" with
      | Some v => if truthy v then Some v else None
      | None => None
      end
  | _ => None
  end.

(** ** The other endpoints and the status script *)

(** The name [upload_binary_to_comfyui] gives the uploaded file, at clock
    reading [now]. *)
Definition upload_filename (now : N) (original_filename : option string) : string :=
  let generated := "paper_cutting_" ++ pretty now ++ ".png" in
  let filename :=
    match original_filename with
    | Some f => if Str.nonempty f then f else generated
    | None => generated
    end in
  if Str.endswith filename ".png" then filename
  else Str.rsplit_head "." filename ++ ".png".

(** The multipart POST of [upload_binary_to_comfyui]. *)
Definition upload_request (w : World) (filename : string) (png : bytes) : request :=
  POST_files (COMFYUI_URL w ++ "/upload/image") "image" (JStr filename)
             png [("overwrite", "true")] 30.

(** The dictionary [health_check] returns; [health_error] is the optional
    "error" key. *)
Record HealthReport := {
  health_status : string;
  health_comfyui : string;
  health_error : option string
}.

(** GET /api/health *)
Definition health_check (w : World) : M HealthReport :=
  res ← try_except
    (response ← requests_send w (GET (COMFYUI_URL w ++ "/system_stats") 5);
     if bool_decide (status_code response = 200%Z) then
       mret (Some {| health_status := "healthy"; health_comfyui := "connected";
                     health_error := None |})
     else mret None)
    (fun e =>
       mret (Some {| health_status := "unhealthy";
                     health_comfyui := "disconnected";
                     health_error := Some (str_exn w e) |}));
  match res with
  | Some report => mret report
  | None => mret {| health_status := "unhealthy"; health_comfyui := "disconnected";
                    health_error := None |}
  end.

(** What [proxy_image] returns: the body it streams, the media type and the
    headers it adds. *)
Record StreamingResponse := {
  stream_body : bytes;
  media_type : string;
  stream_headers : list (string * string)
}.

(** [except requests.exceptions.RequestException as e].  In the [try] of
    [proxy_image] only [requests.get] raises anything but the
    [HTTPException], and what [requests] raises (a timeout or another of
    its exceptions) derives from [RequestException]. *)
Definition except_RequestException {A} (body : M A) (handler : exn -> M A) : M A :=
  fun st =>
    match body st with
    | (Raise (RequestsTimeout msg), st') => handler (RequestsTimeout msg) st'
    | (Raise (Exception msg), st') => handler (Exception msg) st'
    | other => other
    end.

(** The address [proxy_image] fetches. *)
Definition proxy_target (w : World) (filename type subfolder : string) : string :=
  let image_url := COMFYUI_URL w ++ "/view?filename=" ++ filename
                   ++ "&type=" ++ type in
  if Str.nonempty subfolder then image_url ++ "&subfolder=" ++ subfolder
  else image_url.

(** GET /api/image/{filename}.  [content_type] gives the content-type
    header of a reply, which [response] does not carry; the body is
    streamed in chunks of 8192 bytes, modelled by the whole content. *)
Definition proxy_image (w : World) (content_type : response -> option string)
    (filename type subfolder : string) : M StreamingResponse :=
  except_RequestException
    (response ← requests_send w (GET (proxy_target w filename type subfolder) 30);
     if negb (bool_decide (status_code response = 200%Z)) then
       raise (HTTPException (status_code response) "无法获取图片")
     else
       mret {| stream_body := content response;
               media_type := default "image/png" (content_type response);
               stream_headers := [("Cache-Control", "public, max-age=3600");
                                  ("Access-Control-Allow-Origin", "*")] |})
    (fun e => raise (HTTPException 503 ("无法连接到 ComfyUI: " ++ str_exn w e))).

(** [scripts/check_comfyui.py]: the exit code of the script.  [exit] raises
    [SystemExit], which no [except Exception] catches; the three [except]
    clauses all end in [exit(1)]. *)
Definition check_comfyui (w : World) : M Z :=
  let url := default "http://10.0.0.95:8188" (getenv w "COMFYUI_URL") in
  try_except
    (response ← requests_send w (GET (url ++ "/system_stats") 3);
     if bool_decide (status_code response = 200%Z) then
       stats ← lift (response_json response);
       has_system ← lift (py_contains "system" stats);
       if has_system : bool then
         _ ← lift (py_getitem stats "system");
         mret 0%Z
       else mret 0%Z
     else mret 1%Z)
    (fun _ => mret 1%Z).

(** ** More observations *)

(** The input image of the last document submitted. *)
Definition submitted_image (st : State) : option json :=
  doc ← head (submitted st); node_input doc "78" "image".

(** [doc[k1][k2]...] along a path of keys, when every step is a dictionary
    that has the key. *)
Fixpoint lookup_path (doc : json) (path : list string) : option json :=
  match path with
  | [] => Some doc
  | k :: rest =>
      match doc with
      | JObj m => match m !! k with
                  | Some v => lookup_path v rest
                  | None => None
                  end
      | _ => None
      end
  end.

(** Two paths part ways: at some position both have a key and the keys
    differ. *)
Fixpoint diverges (p q : list string) : bool :=
  match p, q with
  | a :: p', b :: q' => if String.eqb a b then diverges p' q' else true
  | _, _ => false
  end.

(** What [requests] raised, if it raised. *)
Definition raised (rep : reply) : option string :=
  match rep with
  | Replied _ => None
  | TimedOut msg | Failed msg => Some msg
  end.

(** ** What a handler may answer *)

(** [ensures C V m]: a value [m] returns satisfies [V], and an
    [HTTPException] it raises has a status in [C]. *)
Definition ensures {A} (C : Z -> Prop) (V : A -> Prop) (m : M A) : Prop :=
  forall st r st',
    m st = (r, st') ->
    match r with
    | Ok a => V a
    | Raise (HTTPException code _) => C code
    | _ => True
    end.

(** A response as the handlers build it for job [pid]. *)
Definition success_for (pid : string) (resp : GenerateResponse) : Prop :=
  success resp = true /\ is_Some (image_url resp)
  /\ prompt_id resp = Some pid /\ error resp = None.

(** A response for some job with a non-empty id. *)
Definition success_response_shape (resp : GenerateResponse) : Prop :=
  exists pid, pid <> "" /\ success_for pid resp.

(** The answers of a handler: a success for a job, or an [HTTPException]
    with status 400, 408 or 500. *)
Definition handler_answer (r : Res GenerateResponse) : Prop :=
  match r with
  | Ok resp => success_response_shape resp
  | Raise e =>
      exists code detail,
        e = HTTPException code detail
        /\ (code = 400%Z \/ code = 408%Z \/ code = 500%Z)
  | Stuck _ => False
  end.

(** A string, or a value that is false. *)
Definition str_or_falsy (j : json) : bool :=
  match j with
  | JStr _ => true
  | _ => negb (truthy j)
  end.

(** The engine issues strings as job ids: a reply to the submission with
    status 200 and a JSON object as body has a string under "prompt_id",
    or nothing that is true. *)
Definition string_job_ids (w : World) : Prop :=
  forall log doc r (m : gmap string json),
    (http w log (prompt_request w doc)).1 = Replied r ->
    status_code r = 200%Z ->
    body_json r = Some (JObj m) ->
    str_or_falsy (default JNull (m !! "prompt_id")) = true.

(** The storage service publishes under strings: a reply to the upload
    with status 200 and a JSON object as body has a string under "value",
    or nothing that is true. *)
Definition string_addresses (w : World) : Prop :=
  forall log image_data filename r (m : gmap string json),
    (http w log (storage_request w image_data filename)).1 = Replied r ->
    status_code r = 200%Z ->
    body_json r = Some (JObj m) ->
    str_or_falsy (default JNull (m !! "value")) = true.

(** [sends n m]: [m] sends at most [n] requests, and the clock does not go
    back. *)
Definition sends {A} (n : nat) (m : M A) : Prop :=
  forall st r st',
    m st = (r, st') ->
    (clock st <= clock st')%N /\ (length (sent st') <= length (sent st) + n)%nat.

(** ** More scripted worlds *)

Module Cases.

(** The world [w] without its workflow file. *)
Definition without_workflow (w : World) : World :=
  {| getenv := getenv w; workflow_file := None;
     pil_png := pil_png w; b64decode := b64decode w; py_repr := py_repr w;
     exc_str := exc_str w; random_bits := random_bits w; uuid4 := uuid4 w;
     http := http w |}.

(** The world [w] with a PIL that reads no image. *)
Definition with_blind_pil (w : World) : World :=
  {| getenv := getenv w; workflow_file := workflow_file w;
     pil_png := fun _ => inl "cannot identify image file";
     b64decode := b64decode w; py_repr := py_repr w;
     exc_str := exc_str w; random_bits := random_bits w; uuid4 := uuid4 w;
     http := http w |}.

(** The world [w] with another reply to the upload of the image. *)
Definition with_upload_reply (w : World) (rep : reply) : World :=
  {| getenv := getenv w; workflow_file := workflow_file w;
     pil_png := pil_png w; b64decode := b64decode w; py_repr := py_repr w;
     exc_str := exc_str w; random_bits := random_bits w; uuid4 := uuid4 w;
     http := fun log req =>
       match req with
       | POST_files url _ _ _ _ _ =>
           if String.eqb url (COMFYUI_URL w ++ "/upload/image") then (rep, 1%N)
           else http w log req
       | _ => http w log req
       end |}.

Definition w_no_workflow : World := without_workflow Script.w_published.

Definition w_blind : World := with_blind_pil Script.w_published.

Definition w_upload_rejected : World :=
  with_upload_reply Script.w_published (Script.status 507 "disk full").

Definition w_upload_timeout : World :=
  with_upload_reply Script.w_published (TimedOut "read timed out").

Definition w_submit_timeout : World :=
  Script.world 41 (TimedOut "read timed out") Script.third_poll Script.image
               Script.cdn 1.

(** An engine whose [/system_stats] answers 200 with a JSON object. *)
Definition w_stats : World :=
  Script.world 41 (Script.accepted "abc") Script.third_poll
    (Script.ok_json (Script.obj [("system", Script.obj [("os", JStr "posix")])]))
    Script.cdn 1.

(** The nodes of [Script.workflow0]. *)
Definition nodes0 : gmap string json :=
  match Script.workflow0 with JObj m => m | _ => ∅ end.

Definition upload_body : gmap string json := list_to_map [("name", JStr "in.png")].

Definition png_header : bytes := [Byte.x89; Byte.x50].

End Cases.

(** ** Unfolding the monad *)

Lemma bind_Ok {A B} (m : M A) (k : A -> M B) st a st' :
  m st = (Ok a, st') -> (x ← m; k x) st = k a st'.
Proof. intros H. unfold mbind, M_bind. by rewrite H. Qed.

Lemma bind_Raise {A B} (m : M A) (k : A -> M B) st e st' :
  m st = (Raise e, st') -> (x ← m; k x) st = (Raise e, st').
Proof. intros H. unfold mbind, M_bind. by rewrite H. Qed.

Lemma requests_send_eq w req st :
  requests_send w req st =
  (match (http w (sent st) req).1 with
   | Replied r => Ok r
   | TimedOut msg => Raise (RequestsTimeout msg)
   | Failed msg => Raise (Exception msg)
   end, after w req st).
Proof.
  unfold requests_send, after.
  destruct (http w (sent st) req) as [[r|msg|msg] dt]; reflexivity.
Qed.

(** One iteration of the polling loop. *)
Lemma poll_loop_step fuel w pid start_time st :
  poll_loop (S fuel) w pid start_time st =
  if bool_decide (clock st - start_time < max_wait)%N then
    match poll_attempt w pid st with
    | (Ok (Some resp), st') => (Ok resp, st')
    | (Ok None, st') | (Raise _, st') =>
        poll_loop fuel w pid start_time (slept 3 st')
    | (Stuck s, st') => (Stuck s, st')
    end
  else (Raise (HTTPException 408 "生成超时"), st).
Proof.
  simpl. unfold mbind at 1, M_bind at 1, time_time at 1.
  case_bool_decide; [|reflexivity].
  unfold mbind, M_bind, try_except.
  destruct (poll_attempt w pid st) as [[[r|]|e|s] st']; reflexivity.
Qed.

(** ** One polling attempt *)

(** An attempt whose reply does not qualify sends the history request and
    nothing else, and ends by falling through or by an exception. *)
Lemma poll_attempt_skip w pid st :
  qualifies pid (http w (sent st) (history_request w pid)).1 = false ->
  exists r, poll_attempt w pid st = (r, after w (history_request w pid) st)
            /\ (r = Ok None \/ exists e, r = Raise e).
Proof.
  intros Hq. unfold poll_attempt, mbind, M_bind.
  rewrite requests_send_eq.
  unfold qualifies, poll_document, image_list in Hq.
  destruct ((http w (sent st) (history_request w pid)).1) as [r|msg|msg];
    [|eauto..].
  case_bool_decide; [|eauto].
  unfold lift, response_json.
  destruct (body_json r) as [j|]; [|eauto].
  destruct j as [| | | s | l | h]; simpl; eauto.
  - destruct (Str.substring_of pid s); simpl; eauto.
  - destruct (existsb (is_str pid) l); simpl; eauto.
  - case_bool_decide as Hin; [|eauto].
    destruct (h !! pid) as [entry|]; [|by destruct Hin].
    destruct entry as [| | | | | e]; simpl; eauto.
    destruct (e !! "outputs") as [outputs|].
    + destruct outputs as [| | | s | l | o]; simpl; eauto.
      * destruct (Str.substring_of "60" s); simpl; eauto.
      * destruct (existsb (is_str "60") l); simpl; eauto.
      * case_bool_decide as Hin60; [|eauto].
        destruct (o !! "60") as [n60|]; [|by destruct Hin60].
        destruct n60 as [| | | | | n]; simpl; eauto.
        destruct (n !! "images") as [images|]; simpl; eauto.
        destruct images as [| b | z | s | l | m]; simpl; eauto.
        -- destruct b; simpl; eauto.
        -- destruct (negb (z =? 0)%Z); simpl; eauto.
        -- destruct s; simpl; eauto.
        -- destruct l; [eauto | discriminate].
        -- destruct (negb (bool_decide (m = ∅))); simpl; eauto.
    + simpl. rewrite bool_decide_eq_false_2; [eauto|].
      rewrite lookup_empty. by intros [? ?].
Qed.

(** An attempt whose reply carries an image list that starts with an object
    goes on with the fields of that object and with nothing else of the
    list. *)
Lemma poll_attempt_first w pid st j img rest :
  poll_document (http w (sent st) (history_request w pid)).1 = Some j ->
  image_list pid j = Some (JObj img :: rest) ->
  poll_attempt w pid st =
  (r ← retrieve_and_publish w pid
         (entry_field img "filename" JNull)
         (entry_field img "subfolder" (JStr ""))
         (entry_field img "type" (JStr "output"));
   mret (Some r)) (after w (history_request w pid) st).
Proof.
  intros Hdoc Himg. unfold poll_attempt.
  unfold mbind at 1, M_bind at 1. rewrite requests_send_eq.
  unfold poll_document in Hdoc.
  destruct ((http w (sent st) (history_request w pid)).1) as [r|msg|msg];
    try discriminate.
  case_bool_decide; [|discriminate].
  unfold response_json. rewrite Hdoc.
  unfold image_list in Himg.
  destruct j as [| | | | | h]; try discriminate.
  destruct (h !! pid) as [[| | | | | e]|] eqn:Hpid; try discriminate.
  destruct (e !! "outputs") as [[| | | | | o]|] eqn:Hout; try discriminate.
  destruct (o !! "60") as [[| | | | | n]|] eqn:H60; try discriminate.
  destruct (n !! "images") as [[| | | | l |]|] eqn:Him; try discriminate.
  injection Himg as ->.
  unfold mbind, M_bind, lift; simpl.
  rewrite bool_decide_eq_true_2 by (rewrite Hpid; eauto).
  rewrite Hpid; simpl. rewrite Hout; simpl.
  rewrite bool_decide_eq_true_2 by (rewrite H60; eauto).
  rewrite H60; simpl. rewrite Him; simpl.
  reflexivity.
Qed.

(** ** Download and publication *)

Lemma upload_to_remote_server_ok w image_data filename st v :
  published_value (http w (sent st) (storage_request w image_data filename)).1 = Some v ->
  truthy v = true ->
  upload_to_remote_server w image_data filename st =
  (Ok v, after w (storage_request w image_data filename) st).
Proof.
  intros Hv Ht. unfold upload_to_remote_server.
  unfold mbind, M_bind. rewrite requests_send_eq.
  unfold published_value in Hv.
  destruct ((http w (sent st) (storage_request w image_data filename)).1)
    as [r|msg|msg]; try discriminate.
  case_bool_decide; [|discriminate].
  unfold lift, response_json.
  destruct (body_json r) as [[| | | | | m]|]; try discriminate.
  simpl. rewrite Hv, Ht. reflexivity.
Qed.

Lemma upload_to_remote_server_fails w image_data filename st :
  publication_fails (http w (sent st) (storage_request w image_data filename)).1 = true ->
  exists e, upload_to_remote_server w image_data filename st =
            (Raise e, after w (storage_request w image_data filename) st).
Proof.
  intros Hf. unfold upload_to_remote_server.
  unfold mbind, M_bind. rewrite requests_send_eq.
  unfold publication_fails, published_value in Hf.
  destruct ((http w (sent st) (storage_request w image_data filename)).1)
    as [r|msg|msg]; [|eauto..].
  case_bool_decide; [|eauto].
  unfold lift, response_json.
  destruct (body_json r) as [[| | | | | m]|]; simpl; eauto.
  destruct (m !! "value") as [v|]; simpl.
  - apply negb_true_iff in Hf. rewrite Hf. unfold raise. eauto.
  - unfold raise. eauto.
Qed.

Lemma retrieve_then_publish w pid filename subfolder folder_type st image_data :
  downloaded (http w (sent st) (view_request w filename subfolder folder_type)).1
    = Some image_data ->
  retrieve_and_publish w pid filename subfolder folder_type st =
  publish_or_proxy w pid image_data filename folder_type
    (after w (view_request w filename subfolder folder_type) st).
Proof.
  intros Hd. unfold retrieve_and_publish.
  unfold mbind at 1, M_bind at 1. rewrite requests_send_eq.
  unfold downloaded in Hd.
  destruct ((http w (sent st) (view_request w filename subfolder folder_type)).1)
    as [r|msg|msg]; try discriminate.
  case_bool_decide; [|discriminate].
  by injection Hd as <-.
Qed.

Lemma retrieve_failed w pid filename subfolder folder_type st :
  downloaded (http w (sent st) (view_request w filename subfolder folder_type)).1
    = None ->
  exists e, retrieve_and_publish w pid filename subfolder folder_type st =
            (Raise e, after w (view_request w filename subfolder folder_type) st).
Proof.
  intros Hd. unfold retrieve_and_publish.
  unfold mbind at 1, M_bind at 1. rewrite requests_send_eq.
  unfold downloaded in Hd.
  destruct ((http w (sent st) (view_request w filename subfolder folder_type)).1)
    as [r|msg|msg]; [|eauto..].
  case_bool_decide; [discriminate|]. unfold raise. eauto.
Qed.

(** ** The closing [except] clauses *)

Lemma outer_except_Ok {A} w (body : M A) st a st' :
  body st = (Ok a, st') -> outer_except w body st = (Ok a, st').
Proof. intros H. unfold outer_except, try_except. by rewrite H. Qed.

Lemma outer_except_Stuck {A} w (body : M A) st s st' :
  body st = (Stuck s, st') -> outer_except w body st = (Stuck s, st').
Proof. intros H. unfold outer_except, try_except. by rewrite H. Qed.

Lemma outer_except_HTTP {A} w (body : M A) st code detail st' :
  body st = (Raise (HTTPException code detail), st') ->
  outer_except w body st = (Raise (HTTPException code detail), st').
Proof. intros H. unfold outer_except, try_except. by rewrite H. Qed.

Lemma outer_except_other {A} w (body : M A) st e st' :
  body st = (Raise e, st') ->
  (forall code detail, e <> HTTPException code detail) ->
  outer_except w body st =
  (Raise (HTTPException 500 ("生成失败: " ++ str_exn w e)), st').
Proof.
  intros H Hne. unfold outer_except, try_except. rewrite H.
  destruct e as [code detail| | |]; try reflexivity.
  by destruct (Hne code detail).
Qed.

(** ** From the handler to the polling loop *)

Lemma handle_submits fuel w ingress seed st workflow name st0 workflow' :
  ingress st = (Ok (workflow, name), st0) ->
  configure_workflow w workflow name seed = Ok workflow' ->
  handle fuel w ingress seed st =
  outer_except w
    (pid ← submit_workflow w workflow';
     start_time ← time_time;
     poll_loop fuel w pid start_time) st0.
Proof.
  intros Hin Hconf. unfold handle, outer_except, try_except.
  rewrite (bind_Ok _ _ _ _ _ Hin). simpl.
  unfold generate_tail.
  unfold mbind at 1, M_bind at 1, lift at 1. rewrite Hconf. reflexivity.
Qed.


(** ** The polling loop *)



(** ** What a computation leaves behind *)

Section Within.
Context (R : relation State) `{!PreOrder R}.

Lemma within_ret {A} (a : A) : within R (mret a).
Proof. intros st r st' [= <- <-]. split; [discriminate | reflexivity]. Qed.

Lemma within_raise {A} e : within R (@raise A e).
Proof. intros st r st' [= <- <-]. split; [discriminate | reflexivity]. Qed.

Lemma within_stuck {A} : within R (@stuck_at A NonStringField).
Proof. intros st r st' [= <- <-]. split; [discriminate | reflexivity]. Qed.

Lemma within_lift {A} (r : Res A) : r <> Stuck OutOfFuel -> within R (lift r).
Proof. intros Hr st r' st' [= <- <-]. split; [done | reflexivity]. Qed.

Lemma within_time : within R time_time.
Proof. intros st r st' [= <- <-]. split; [discriminate | reflexivity]. Qed.

Lemma within_bind {A B} (m : M A) (k : A -> M B) :
  within R m -> (forall a, within R (k a)) -> within R (x ← m; k x).
Proof.
  intros Hm Hk st r st'. unfold mbind, M_bind.
  destruct (m st) as [[a|e|s] st1] eqn:E; destruct (Hm _ _ _ E) as [Hne HR].
  - intros Hka. destruct (Hk _ _ _ _ Hka) as [? ?].
    split; [done | by transitivity st1].
  - intros [= <- <-]. split; [discriminate | assumption].
  - intros [= <- <-]. split; [|assumption].
    intros [= ->]. by apply Hne.
Qed.

Lemma within_try {A} (body : M A) (handler : exn -> M A) :
  within R body -> (forall e, within R (handler e)) ->
  within R (try_except body handler).
Proof.
  intros Hb Hh st r st'. unfold try_except.
  destruct (body st) as [[a|e|s] st1] eqn:E; destruct (Hb _ _ _ E) as [Hne HR].
  - by intros [= <- <-].
  - intros He. destruct (Hh _ _ _ _ He) as [? ?].
    split; [done | by transitivity st1].
  - by intros [= <- <-].
Qed.

Lemma within_sleep d :
  (forall st, R st (slept d st)) -> within R (time_sleep d).
Proof. intros HR st r st' [= <- <-]. split; [discriminate | apply HR]. Qed.

Lemma within_send w req :
  (forall st, R st (after w req st)) -> within R (requests_send w req).
Proof.
  intros HR st r st'. rewrite requests_send_eq. intros [= <- <-].
  split; [|apply HR]. by destruct ((http w (sent st) req).1).
Qed.

End Within.

(** Pure steps never get stuck. *)
Lemma py_contains_total key j s : py_contains key j <> Stuck s.
Proof. by destruct j. Qed.

Lemma py_getitem_total j key s : py_getitem j key <> Stuck s.
Proof. destruct j; simpl; try done. by case_match. Qed.

Lemma py_get_total j key d s : py_get j key d <> Stuck s.
Proof. by destruct j. Qed.

Lemma py_first_total j s : py_first j <> Stuck s.
Proof. destruct j as [| | | [|]|[|]|]; by simpl. Qed.

Lemma py_setitem_total j key v s : py_setitem j key v <> Stuck s.
Proof. by destruct j. Qed.

Lemma response_json_total r s : response_json r <> Stuck s.
Proof. unfold response_json. by case_match. Qed.

#[global] Instance quietly_preorder : PreOrder quietly.
Proof.
  split; unfold quietly.
  - intros ?; split; [lia | done].
  - intros ? ? ? [? ?] [? ?]; split; [lia | congruence].
Qed.

Lemma quietly_slept d st : quietly st (slept d st).
Proof. unfold quietly, slept; simpl. split; [lia | done]. Qed.

Lemma quietly_GET w url t st : quietly st (after w (GET url t) st).
Proof. unfold quietly, after; simpl. split; [lia | done]. Qed.

Lemma quietly_POST_files w url field filename c data t st :
  quietly st (after w (POST_files url field filename c data t) st).
Proof. unfold quietly, after; simpl. split; [lia | done]. Qed.

Create HintDb within discriminated.
#[global] Hint Resolve within_ret within_raise within_stuck within_time : within.
#[global] Hint Resolve py_contains_total py_getitem_total py_get_total
  py_first_total py_setitem_total response_json_total : within.
#[global] Hint Resolve quietly_slept quietly_GET quietly_POST_files : within.

Ltac within_step :=
  first
    [ apply within_bind; [typeclasses eauto | | intros ?]
    | apply within_try; [typeclasses eauto | | intros ?]
    | apply within_lift; [typeclasses eauto |]
    | apply within_send; intros ?
    | apply within_sleep; intros ?
    | case_match
    | case_bool_decide ].

Ltac within_solve := repeat (try (solve [eauto with within typeclass_instances]); within_step).

Lemma upload_to_remote_server_quiet w image_data filename :
  within quietly (upload_to_remote_server w image_data filename).
Proof. unfold upload_to_remote_server. within_solve. Qed.

Lemma retrieve_and_publish_quiet w pid filename subfolder folder_type :
  within quietly (retrieve_and_publish w pid filename subfolder folder_type).
Proof.
  unfold retrieve_and_publish, publish_or_proxy, success_response.
  pose proof upload_to_remote_server_quiet.
  within_solve.
Qed.

Lemma poll_attempt_quiet w pid : within quietly (poll_attempt w pid).
Proof.
  unfold poll_attempt.
  pose proof retrieve_and_publish_quiet.
  within_solve.
Qed.

(** With enough fuel the loop gives an answer, and it submits nothing. *)
Lemma poll_loop_quiet w pid start_time fuel :
  forall st r st',
    (start_time <= clock st)%N ->
    (max_wait <= clock st - start_time + 3 * N.of_nat fuel)%N ->
    poll_loop (S fuel) w pid start_time st = (r, st') ->
    r <> Stuck OutOfFuel /\ quietly st st'.
Proof.
  induction fuel as [|fuel IH]; intros st r st' Hstart Hfuel;
    rewrite poll_loop_step; case_bool_decide as Hbudget; try lia.
  - intros [= <- <-]. split; [discriminate | reflexivity].
  - destruct (poll_attempt w pid st) as [res st1] eqn:E.
    destruct (poll_attempt_quiet w pid _ _ _ E) as [Hne [Hclock Hsub]].
    assert (forall r st', poll_loop (S fuel) w pid start_time (slept 3 st1) = (r, st') ->
                          r <> Stuck OutOfFuel /\ quietly st st') as Hnext.
    { intros r0 st0 Hloop.
      destruct (IH (slept 3 st1) r0 st0) as [? [? ?]]; try done.
      - unfold slept; simpl; lia.
      - unfold slept; simpl; lia.
      - split; [done|]. unfold quietly, slept, submitted in *; simpl in *.
        split; [lia | congruence]. }
    destruct res as [[resp|]|e|s]; try apply Hnext.
    + intros [= <- <-]. split; [discriminate | by split].
    + intros [= <- <-]. split; [|by split].
      intros [= ->]. by apply Hne.
  - intros [= <- <-]. split; [discriminate | reflexivity].
Qed.

Lemma upload_binary_to_comfyui_quiet w image_data original_filename :
  within quietly (upload_binary_to_comfyui w image_data original_filename).
Proof. unfold upload_binary_to_comfyui. within_solve. Qed.

Lemma load_paper_cutting_workflow_quiet w :
  within quietly (load_paper_cutting_workflow w).
Proof. unfold load_paper_cutting_workflow. within_solve. Qed.

Lemma ingress_binary_quiet w image_data image_filename :
  within quietly (ingress_binary w image_data image_filename).
Proof.
  unfold ingress_binary.
  pose proof upload_binary_to_comfyui_quiet.
  pose proof load_paper_cutting_workflow_quiet.
  within_solve.
Qed.

Lemma ingress_base64_quiet w request :
  within quietly (ingress_base64 w request).
Proof.
  unfold ingress_base64, upload_base64_to_comfyui, decode_and_upload.
  pose proof upload_binary_to_comfyui_quiet.
  pose proof load_paper_cutting_workflow_quiet.
  within_solve.
Qed.

(** Submission sends the one POST, whatever comes back. *)
Lemma submit_workflow_sends w workflow st r st' :
  submit_workflow w workflow st = (r, st') ->
  st' = after w (prompt_request w workflow) st /\ r <> Stuck OutOfFuel.
Proof.
  unfold submit_workflow.
  unfold mbind, M_bind. rewrite requests_send_eq.
  destruct ((http w (sent st) (prompt_request w workflow)).1) as [resp|msg|msg];
    try (by intros [= <- <-]).
  case_bool_decide; simpl; [|by intros [= <- <-]].
  unfold lift, response_json.
  destruct (body_json resp) as [body|]; [|by intros [= <- <-]].
  destruct body as [| | | | | m]; simpl; try (by intros [= <- <-]).
  destruct (truthy _); simpl; [|by intros [= <- <-]].
  case_match; by intros [= <- <-].
Qed.

Lemma submitted_after_prompt w workflow st :
  submitted (after w (prompt_request w workflow) st) = workflow :: submitted st.
Proof. reflexivity. Qed.

Lemma res_bind_total {A B} (r : Res A) (k : A -> Res B) s :
  (forall s', r <> Stuck s') -> (forall a, k a <> Stuck s) -> res_bind r k <> Stuck s.
Proof.
  intros Hr Hk. destruct r as [a|e|s']; simpl; [apply Hk | done |].
  by destruct (Hr s').
Qed.

Lemma py_setitem3_total j k1 k2 k3 v s : py_setitem3 j k1 k2 k3 v <> Stuck s.
Proof.
  unfold py_setitem3.
  repeat (apply res_bind_total; [eauto with within | intros ?]).
  apply py_setitem_total.
Qed.

Lemma configure_workflow_total w workflow name seed s :
  configure_workflow w workflow name seed <> Stuck s.
Proof.
  unfold configure_workflow, set_input_image, set_seed.
  repeat (apply res_bind_total; [intros ? | intros ?]);
    eauto using py_contains_total.
  all: case_match; try done; apply py_setitem3_total.
Qed.

(** From the head of the loop, with fuel for the whole budget. *)
Lemma enter_loop_quiet fuel w pid st r st' :
  (100 <= fuel)%nat ->
  (start_time ← time_time; poll_loop (S fuel) w pid start_time) st = (r, st') ->
  r <> Stuck OutOfFuel /\ quietly st st'.
Proof.
  intros Hfuel. unfold mbind, M_bind, time_time.
  apply poll_loop_quiet; unfold max_wait; lia.
Qed.

(** The handler submits the configured document, once. *)
Lemma handle_submitted fuel w ingress seed st workflow name st0 workflow' r st' :
  (100 <= fuel)%nat ->
  ingress st = (Ok (workflow, name), st0) ->
  configure_workflow w workflow name seed = Ok workflow' ->
  handle (S fuel) w ingress seed st = (r, st') ->
  r <> Stuck OutOfFuel /\ submitted st' = workflow' :: submitted st0.
Proof.
  intros Hfuel Hin Hconf.
  rewrite (handle_submits _ _ _ _ _ _ _ _ _ Hin Hconf).
  unfold outer_except, try_except. unfold mbind at 1, M_bind at 1.
  destruct (submit_workflow w workflow' st0) as [res st1] eqn:Hsub.
  destruct (submit_workflow_sends _ _ _ _ _ Hsub) as [-> Hne].
  destruct res as [pid|e|s].
  - destruct ((start_time ← time_time; poll_loop (S fuel) w pid start_time)
                (after w (prompt_request w workflow') st0))
      as [res st2] eqn:Hloop.
    destruct (enter_loop_quiet _ _ _ _ _ _ Hfuel Hloop) as [Hne2 [_ Hsubm]].
    rewrite submitted_after_prompt in Hsubm.
    destruct res as [resp|e|s].
    + by intros [= <- <-].
    + destruct e; by intros [= <- <-].
    + intros [= <- <-]. split; [|done]. intros [= ->]. by apply Hne2.
  - destruct e; by intros [= <- <-].
  - intros [= <- <-]. split; [|done]. intros [= ->]. by apply Hne.
Qed.

(** With fuel for the whole budget a handler gives an answer: the loop
    ends within 100 iterations, since each one sleeps 3 units of the 300. *)
Lemma handle_answers fuel w ingress seed st r st' :
  (100 < fuel)%nat ->
  within quietly ingress ->
  handle fuel w ingress seed st = (r, st') ->
  r <> Stuck OutOfFuel.
Proof.
  intros Hfuel Hin. destruct fuel as [|fuel]; [lia|].
  destruct (ingress st) as [[[workflow name]|e|s] st0] eqn:Hrun;
    destruct (Hin _ _ _ Hrun) as [Hne _].
  - destruct (configure_workflow w workflow name seed) as [doc|e|s] eqn:Hconf.
    + intros Hh.
      by destruct (handle_submitted fuel w ingress seed st _ _ _ _ _ _
                     ltac:(lia) Hrun Hconf Hh).
    + unfold handle, outer_except, try_except.
      rewrite (bind_Ok _ _ _ _ _ Hrun). simpl.
      unfold generate_tail, mbind, M_bind, lift. rewrite Hconf.
      destruct e; by intros [= <- <-].
    + by destruct (configure_workflow_total w workflow name seed s).
  - unfold handle, outer_except, try_except.
    rewrite (bind_Raise _ _ _ _ _ Hrun).
    destruct e; by intros [= <- <-].
  - unfold handle, outer_except, try_except, mbind, M_bind. rewrite Hrun.
    intros [= <- <-]. intros [= ->]. by apply Hne.
Qed.

Lemma generate_paper_cutting_answers fuel w image_data image_filename seed st r st' :
  (100 < fuel)%nat ->
  generate_paper_cutting fuel w image_data image_filename seed st = (r, st') ->
  r <> Stuck OutOfFuel.
Proof.
  intros Hfuel. apply handle_answers; [done|]. apply ingress_binary_quiet.
Qed.

Lemma generate_paper_cutting_base64_answers fuel w request st r st' :
  (100 < fuel)%nat ->
  generate_paper_cutting_base64 fuel w request st = (r, st') ->
  r <> Stuck OutOfFuel.
Proof.
  intros Hfuel. apply handle_answers; [done|]. apply ingress_base64_quiet.
Qed.


(** ** C2: the polling budget *)


(** ** Publication and its fallback *)

Lemma publish_or_proxy_published w pid image_data filename folder_type st url :
  published_value (http w (sent st) (storage_request w image_data filename)).1
    = Some (JStr url) ->
  url <> "" ->
  publish_or_proxy w pid image_data filename folder_type st =
  (Ok (published_response pid url), after w (storage_request w image_data filename) st).
Proof.
  intros Hv Hne. unfold publish_or_proxy, try_except.
  rewrite (bind_Ok _ _ _ _ _ (upload_to_remote_server_ok _ _ _ _ _ Hv ltac:(by destruct url))).
  reflexivity.
Qed.

Lemma publish_or_proxy_fallback w pid image_data filename folder_type st :
  publication_fails (http w (sent st) (storage_request w image_data filename)).1 = true ->
  publish_or_proxy w pid image_data filename folder_type st =
  (Ok (proxy_response w pid filename folder_type),
   after w (storage_request w image_data filename) st).
Proof.
  intros Hf. unfold publish_or_proxy, try_except.
  destruct (upload_to_remote_server_fails _ _ _ _ Hf) as [e He].
  rewrite (bind_Raise _ _ _ _ _ He). reflexivity.
Qed.

(** The inner [try] never lets an exception out, and what it returns is a
    success for the job at hand. *)
Lemma publish_or_proxy_answers w pid image_data filename folder_type st :
  exists st',
    (exists resp, publish_or_proxy w pid image_data filename folder_type st = (Ok resp, st')
                  /\ success resp = true /\ prompt_id resp = Some pid)
    \/ publish_or_proxy w pid image_data filename folder_type st
       = (Stuck NonStringField, st').
Proof.
  unfold publish_or_proxy, try_except, mbind, M_bind.
  destruct (upload_to_remote_server w image_data filename st) as [[url|e|s] st1] eqn:E.
  - exists st1. destruct url; simpl; eauto.
  - exists st1. left. eexists. split; [reflexivity | done].
  - exists st1. right.
    destruct (upload_to_remote_server_quiet _ _ _ _ _ _ E) as [Hs _].
    destruct s; [done | reflexivity].
Qed.

(** An iteration that finds an image entry and downloads the image ends
    the loop with what the inner [try] returns. *)
Lemma attempt_completes w pid start_time fuel st j img rest image_data :
  let filename := entry_field img "filename" JNull in
  let subfolder := entry_field img "subfolder" (JStr "") in
  let folder_type := entry_field img "type" (JStr "output") in
  let st1 := after w (history_request w pid) st in
  let st2 := after w (view_request w filename subfolder folder_type) st1 in
  (clock st - start_time < max_wait)%N ->
  poll_document (http w (sent st) (history_request w pid)).1 = Some j ->
  image_list pid j = Some (JObj img :: rest) ->
  downloaded (http w (sent st1) (view_request w filename subfolder folder_type)).1
    = Some image_data ->
  poll_loop (S fuel) w pid start_time st =
  publish_or_proxy w pid image_data filename folder_type st2.
Proof.
  intros filename subfolder folder_type st1 st2.
  subst filename subfolder folder_type st1 st2.
  intros Hbudget Hdoc Himg Hdl.
  rewrite poll_loop_step, bool_decide_eq_true_2 by done.
  rewrite (poll_attempt_first _ _ _ _ _ _ Hdoc Himg).
  unfold mbind, M_bind.
  rewrite (retrieve_then_publish _ _ _ _ _ _ _ Hdl).
  match goal with
  | |- context [publish_or_proxy ?w ?pid ?d ?f ?t ?s] =>
      destruct (publish_or_proxy_answers w pid d f t s)
        as [st' [(resp & -> & _) | ->]]; reflexivity
  end.
Qed.

(** An iteration that finds an image entry and cannot download the image
    sleeps and polls again. *)
Lemma download_failure_absorbed w pid start_time fuel st j img rest :
  let filename := entry_field img "filename" JNull in
  let subfolder := entry_field img "subfolder" (JStr "") in
  let folder_type := entry_field img "type" (JStr "output") in
  let st1 := after w (history_request w pid) st in
  let st2 := after w (view_request w filename subfolder folder_type) st1 in
  (clock st - start_time < max_wait)%N ->
  poll_document (http w (sent st) (history_request w pid)).1 = Some j ->
  image_list pid j = Some (JObj img :: rest) ->
  downloaded (http w (sent st1) (view_request w filename subfolder folder_type)).1
    = None ->
  poll_loop (S fuel) w pid start_time st =
  poll_loop fuel w pid start_time (slept 3 st2).
Proof.
  intros filename subfolder folder_type st1 st2.
  subst filename subfolder folder_type st1 st2.
  intros Hbudget Hdoc Himg Hdl.
  rewrite poll_loop_step, bool_decide_eq_true_2 by done.
  rewrite (poll_attempt_first _ _ _ _ _ _ Hdoc Himg).
  unfold mbind, M_bind.
  destruct (retrieve_failed w pid _ _ _ _ Hdl) as [e ->].
  reflexivity.
Qed.

Lemma resume_completes w pid start_time fuel st j img rest image_data :
  let filename := entry_field img "filename" JNull in
  let subfolder := entry_field img "subfolder" (JStr "") in
  let folder_type := entry_field img "type" (JStr "output") in
  let st1 := after w (history_request w pid) st in
  let st2 := after w (view_request w filename subfolder folder_type) st1 in
  (clock st - start_time < max_wait)%N ->
  poll_document (http w (sent st) (history_request w pid)).1 = Some j ->
  image_list pid j = Some (JObj img :: rest) ->
  downloaded (http w (sent st1) (view_request w filename subfolder folder_type)).1
    = Some image_data ->
  resume_polling (S fuel) w pid start_time st =
  publish_or_proxy w pid image_data filename folder_type st2.
Proof.
  intros filename subfolder folder_type st1 st2 Hbudget Hdoc Himg Hdl.
  pose proof (attempt_completes w pid start_time fuel st j img rest image_data
                Hbudget Hdoc Himg Hdl) as Hloop.
  fold filename subfolder folder_type st1 st2 in Hloop.
  destruct (publish_or_proxy_answers w pid image_data filename folder_type st2)
    as [st' [(resp & Hp & _) | Hp]]; rewrite Hp in Hloop |- *.
  - by apply outer_except_Ok.
  - by apply outer_except_Stuck.
Qed.

(** ** The first image entry *)

(** In any iteration, an attempt that finds an image list whose first
    entry is an object goes on to the download with the filename,
    subfolder and type of that entry and with nothing of the entries after
    it; when the image is downloaded, the loop ends in that iteration with
    what the publication step answers. *)
Lemma first_image_entry_completes w pid start_time fuel st j img rest :
  let filename := entry_field img "filename" JNull in
  let subfolder := entry_field img "subfolder" (JStr "") in
  let folder_type := entry_field img "type" (JStr "output") in
  let st1 := after w (history_request w pid) st in
  let st2 := after w (view_request w filename subfolder folder_type) st1 in
  (clock st - start_time < max_wait)%N ->
  poll_document (http w (sent st) (history_request w pid)).1 = Some j ->
  image_list pid j = Some (JObj img :: rest) ->
  poll_attempt w pid st =
    (r ← retrieve_and_publish w pid filename subfolder folder_type;
     mret (Some r)) st1
  /\ forall image_data,
      downloaded (http w (sent st1) (view_request w filename subfolder folder_type)).1
        = Some image_data ->
      resume_polling (S fuel) w pid start_time st =
        publish_or_proxy w pid image_data filename folder_type st2
      /\ exists st',
          (exists resp,
              resume_polling (S fuel) w pid start_time st = (Ok resp, st')
              /\ success resp = true /\ prompt_id resp = Some pid)
          \/ resume_polling (S fuel) w pid start_time st = (Stuck NonStringField, st').
Proof.
  intros filename subfolder folder_type st1 st2 Hbudget Hdoc Himg. split.
  - by apply poll_attempt_first with (j := j) (rest := rest).
  - intros image_data Hdl.
    pose proof (resume_completes w pid start_time fuel st j img rest image_data
                  Hbudget Hdoc Himg Hdl) as Hres.
    fold filename subfolder folder_type st1 st2 in Hres.
    split; [exact Hres|]. rewrite Hres.
    apply publish_or_proxy_answers.
Qed.

(** ** C3: a qualifying poll and the end of polling *)

(** C3, at the input that contradicts it.  The engine answers every poll,
    the first included, with the finished job and a non-empty image list
    under node "60", and answers 404 to every download.  The handler does
    not leave the loop at the first qualifying poll: the exception raised
    for the download is caught by the [except] of the iteration, and the
    handler polls 60 times, each poll qualifying, until the budget is
    spent and the caller receives the 408. *)
Theorem qualifying_poll_keeps_polling :
  let w := Script.w_download_fails in
  let run := generate_paper_cutting 101 w Script.photo
               (Some "photo.jpg") (Some 42%Z) Script.start in
  let run64 := generate_paper_cutting_base64 101 w
                 (Script.base64_request (Some 42%Z)) Script.start in
  (forall log, qualifies "abc" (http w log (history_request w "abc")).1 = true)
  /\ run.1 = Raise (HTTPException 408 "生成超时")
  /\ length (filter Script.is_history (sent run.2)) = 60%nat
  /\ run64.1 = Raise (HTTPException 408 "生成超时")
  /\ length (filter Script.is_history (sent run64.2)) = 60%nat.
Proof.
  split; [intros log; vm_compute; reflexivity|].
  vm_compute. by split_and!.
Qed.

(** ** C6: publication failure degrades to the proxy address *)

(** C6.  After a successful download, when publication fails (the storage
    call raises, answers with a status other than 200, or answers 200
    without a usable "value"), the caller receives success = true with the
    proxy address built from the entry's filename and type; no exception
    reaches the caller. *)
Theorem publication_failure_falls_back w pid start_time fuel st j img rest image_data :
  let filename := entry_field img "filename" JNull in
  let subfolder := entry_field img "subfolder" (JStr "") in
  let folder_type := entry_field img "type" (JStr "output") in
  let st1 := after w (history_request w pid) st in
  let st2 := after w (view_request w filename subfolder folder_type) st1 in
  (clock st - start_time < max_wait)%N ->
  poll_document (http w (sent st) (history_request w pid)).1 = Some j ->
  image_list pid j = Some (JObj img :: rest) ->
  downloaded (http w (sent st1) (view_request w filename subfolder folder_type)).1
    = Some image_data ->
  publication_fails (http w (sent st2) (storage_request w image_data filename)).1 = true ->
  resume_polling (S fuel) w pid start_time st =
  (Ok {| success := true;
         image_url := Some ("http://localhost:8080/api/image/" ++ fmt w filename
                            ++ "?type=" ++ fmt w folder_type);
         prompt_id := Some pid;
         error := None |},
   after w (storage_request w image_data filename) st2).
Proof.
  intros filename subfolder folder_type st1 st2 Hbudget Hdoc Himg Hdl Hfail.
  pose proof (resume_completes w pid start_time fuel st j img rest image_data
                Hbudget Hdoc Himg Hdl) as Hres.
  fold filename subfolder folder_type st1 st2 in Hres.
  rewrite Hres. by apply publish_or_proxy_fallback.
Qed.

(** ** C7: the published address is returned as it is *)

(** C7.  When the storage service answers 200 with a JSON object whose
    "value" is a non-empty string, the [image_url] the caller receives is
    that string. *)
Theorem published_url_is_returned w pid start_time fuel st j img rest image_data url :
  let filename := entry_field img "filename" JNull in
  let subfolder := entry_field img "subfolder" (JStr "") in
  let folder_type := entry_field img "type" (JStr "output") in
  let st1 := after w (history_request w pid) st in
  let st2 := after w (view_request w filename subfolder folder_type) st1 in
  (clock st - start_time < max_wait)%N ->
  poll_document (http w (sent st) (history_request w pid)).1 = Some j ->
  image_list pid j = Some (JObj img :: rest) ->
  downloaded (http w (sent st1) (view_request w filename subfolder folder_type)).1
    = Some image_data ->
  published_value (http w (sent st2) (storage_request w image_data filename)).1
    = Some (JStr url) ->
  url <> "" ->
  resume_polling (S fuel) w pid start_time st =
  (Ok {| success := true; image_url := Some url; prompt_id := Some pid; error := None |},
   after w (storage_request w image_data filename) st2).
Proof.
  intros filename subfolder folder_type st1 st2 Hbudget Hdoc Himg Hdl Hval Hne.
  pose proof (resume_completes w pid start_time fuel st j img rest image_data
                Hbudget Hdoc Himg Hdl) as Hres.
  fold filename subfolder folder_type st1 st2 in Hres.
  rewrite Hres. by apply publish_or_proxy_published.
Qed.

(** ** C9: an empty "value" counts as a missing one *)

(** C9.  When the storage service answers 200 with a JSON object whose
    "value" is the empty string, [upload_to_remote_server] raises the same
    exception as when the field is absent, and the handler falls back to
    the proxy address. *)
Theorem empty_value_is_publication_error w pid image_data filename folder_type st r m :
  (http w (sent st) (storage_request w image_data filename)).1 = Replied r ->
  status_code r = 200%Z ->
  body_json r = Some (JObj m) ->
  m !! "value" = Some (JStr "") \/ m !! "value" = None ->
  upload_to_remote_server w image_data filename st =
    (Raise (Exception ("响应中未包含地址: " ++ py_repr w (JObj m))),
     after w (storage_request w image_data filename) st)
  /\ publish_or_proxy w pid image_data filename folder_type st =
    (Ok (proxy_response w pid filename folder_type),
     after w (storage_request w image_data filename) st).
Proof.
  intros Hrep Hstatus Hbody Hvalue.
  assert (upload_to_remote_server w image_data filename st =
          (Raise (Exception ("响应中未包含地址: " ++ py_repr w (JObj m))),
           after w (storage_request w image_data filename) st)) as Hup.
  { unfold upload_to_remote_server, mbind, M_bind.
    rewrite requests_send_eq, Hrep, bool_decide_eq_true_2 by done.
    unfold lift, response_json. rewrite Hbody. simpl.
    by destruct Hvalue as [-> | ->]. }
  split; [exact Hup|].
  unfold publish_or_proxy, try_except.
  by rewrite (bind_Raise _ _ _ _ _ Hup).
Qed.

(** ** C5: a failed submission *)

(** C5.  When the reply to the submission has a status other than 200, or
    carries no job identifier, the handler raises a 500 right after the
    POST, without polling; for a status other than 200 the detail ends with
    the text of the engine's reply. *)
Theorem submission_failure_is_500 fuel w ingress seed st workflow name st0 workflow' r :
  ingress st = (Ok (workflow, name), st0) ->
  configure_workflow w workflow name seed = Ok workflow' ->
  (http w (sent st0) (prompt_request w workflow')).1 = Replied r ->
  status_code r <> 200%Z \/ job_id r = None ->
  (status_code r <> 200%Z ->
   handle fuel w ingress seed st =
   (Raise (HTTPException 500 ("ComfyUI 错误: " ++ text r)),
    after w (prompt_request w workflow') st0))
  /\ exists detail,
      handle fuel w ingress seed st =
      (Raise (HTTPException 500 detail), after w (prompt_request w workflow') st0).
Proof.
  intros Hin Hconf Hrep Hbad.
  rewrite (handle_submits _ _ _ _ _ _ _ _ _ Hin Hconf).
  assert (status_code r <> 200%Z ->
          submit_workflow w workflow' st0 =
          (Raise (HTTPException 500 ("ComfyUI 错误: " ++ text r)),
           after w (prompt_request w workflow') st0)) as Hstatus.
  { intros Hne. unfold submit_workflow, mbind, M_bind.
    rewrite requests_send_eq, Hrep, bool_decide_eq_false_2 by done.
    reflexivity. }
  split.
  - intros Hne. apply outer_except_HTTP.
    by rewrite (bind_Raise _ _ _ _ _ (Hstatus Hne)).
  - destruct (decide (status_code r = 200%Z)) as [Hok | Hne].
    + destruct Hbad as [? | Hid]; [done|].
      assert (exists e, submit_workflow w workflow' st0 =
                        (Raise e, after w (prompt_request w workflow') st0)) as [e He].
      { unfold submit_workflow, mbind, M_bind.
        rewrite requests_send_eq, Hrep, bool_decide_eq_true_2 by done.
        unfold job_id in Hid. unfold lift, response_json. simpl.
        destruct (body_json r) as [[| | | | | m]|]; simpl; eauto.
        destruct (m !! "prompt_id") as [v|]; simpl.
        - destruct (truthy v); [discriminate | simpl; unfold raise; eauto].
        - unfold raise; eauto. }
      pose proof (bind_Raise _ (fun pid => start_time ← time_time;
                                 poll_loop fuel w pid start_time) _ _ _ He) as Hb.
      destruct e as [code detail|msg|msg|pe].
      * assert (code = 500%Z) as ->.
        { revert He. unfold submit_workflow, mbind, M_bind.
          rewrite requests_send_eq, Hrep, bool_decide_eq_true_2 by done.
          unfold lift, response_json. simpl.
          destruct (body_json r) as [[| | | | | m]|]; simpl; try discriminate.
          destruct (truthy _); simpl.
          - case_match; discriminate.
          - by intros [= <- <-]. }
        eexists. by apply outer_except_HTTP.
      * eexists. by apply outer_except_other.
      * eexists. by apply outer_except_other.
      * eexists. by apply outer_except_other.
    + eexists. apply outer_except_HTTP.
      by rewrite (bind_Raise _ _ _ _ _ (Hstatus Hne)).
Qed.

(** ** Writes into the workflow document *)

(** A write along [k1], when it succeeds, replaces the node under [k1] and
    leaves every other node as it was; in the node, the field [k3] of
    [k2] holds the new value. *)
Lemma py_setitem3_spec (m : gmap string json) k1 k2 k3 v doc :
  py_setitem3 (JObj m) k1 k2 k3 v = Ok doc ->
  exists m', doc = JObj m'
    /\ (forall k, k <> k1 -> m' !! k = m !! k)
    /\ (k2 = "inputs" -> node_input doc k1 k3 = Some v).
Proof.
  unfold py_setitem3, res_bind. simpl.
  destruct (m !! k1) as [node|] eqn:Hnode; [|discriminate].
  destruct node as [| | | | | n]; simpl; try discriminate.
  destruct (n !! k2) as [inputs|] eqn:Hinputs; [|discriminate].
  destruct inputs as [| | | | | i]; simpl; try discriminate.
  intros [= <-]. eexists. split; [reflexivity|]. split.
  - intros k Hk. by rewrite lookup_insert_ne.
  - intros ->. unfold node_input.
    by rewrite !lookup_insert_eq.
Qed.

Lemma py_contains_obj (m : gmap string json) key :
  py_contains key (JObj m) = Ok (bool_decide (is_Some (m !! key))).
Proof. reflexivity. Qed.

Lemma set_input_image_absent (m : gmap string json) name :
  m !! "78" = None -> set_input_image (JObj m) name = Ok (JObj m).
Proof.
  intros H. unfold set_input_image. rewrite py_contains_obj. simpl.
  rewrite bool_decide_eq_false_2; [done|]. rewrite H. by intros [? ?].
Qed.

Lemma set_seed_absent (m : gmap string json) s :
  m !! "115:3" = None -> set_seed (JObj m) s = Ok (JObj m).
Proof.
  intros H. unfold set_seed. rewrite py_contains_obj. simpl.
  rewrite bool_decide_eq_false_2; [done|]. rewrite H. by intros [? ?].
Qed.

Lemma set_input_image_frame (m : gmap string json) name doc :
  set_input_image (JObj m) name = Ok doc ->
  exists m', doc = JObj m' /\ forall k, k <> "78" -> m' !! k = m !! k.
Proof.
  unfold set_input_image. rewrite py_contains_obj. simpl.
  case_bool_decide.
  - intros H3. destruct (py_setitem3_spec _ _ _ _ _ _ H3) as (m' & -> & Hm' & _).
    eauto.
  - intros [= <-]. eauto.
Qed.

Lemma set_seed_frame (m : gmap string json) s doc :
  set_seed (JObj m) s = Ok doc ->
  exists m', doc = JObj m' /\ (forall k, k <> "115:3" -> m' !! k = m !! k)
    /\ (is_Some (m !! "115:3") -> node_input doc "115:3" "seed" = Some (JNum s)).
Proof.
  unfold set_seed. rewrite py_contains_obj. simpl.
  case_bool_decide.
  - intros H3. destruct (py_setitem3_spec _ _ _ _ _ _ H3) as (m' & -> & Hm' & Hv).
    eauto.
  - intros [= <-]. exists m. by split_and!.
Qed.

(** The seed node of the configured document holds [actual_seed]. *)
Lemma configure_workflow_seed w (m : gmap string json) name seed doc :
  is_Some (m !! "115:3") ->
  configure_workflow w (JObj m) name seed = Ok doc ->
  node_input doc "115:3" "seed" = Some (JNum (actual_seed w seed)).
Proof.
  intros Hnode. unfold configure_workflow, res_bind.
  destruct (set_input_image (JObj m) name) as [doc1| |] eqn:H1; try discriminate.
  destruct (set_input_image_frame _ _ _ H1) as (m1 & -> & Hm1).
  intros H2. destruct (set_seed_frame _ _ _ H2) as (m2 & -> & _ & Hseed).
  apply Hseed. by rewrite Hm1.
Qed.

Lemma randint_range w a b : (a <= b)%Z -> (a <= randint w a b <= b)%Z.
Proof.
  intros Hab. unfold randint.
  pose proof (Z.mod_pos_bound (Z.of_N (random_bits w)) (b - a + 1)). lia.
Qed.

Lemma actual_seed_supplied w s : s <> 0%Z -> actual_seed w (Some s) = s.
Proof. intros Hs. unfold actual_seed. by destruct (Z.eqb_spec s 0). Qed.

Lemma actual_seed_drawn w seed :
  seed = None \/ seed = Some 0%Z ->
  actual_seed w seed = randint w 1 (2 ^ 32 - 1)
  /\ (1 <= actual_seed w seed <= 2 ^ 32 - 1)%Z.
Proof.
  intros [-> | ->]; simpl; (split; [reflexivity | by apply randint_range]).
Qed.

(** The seed node of the document a handler submits holds [actual_seed]:
    the caller's seed when it is not 0, a draw between 1 and 2^32-1 when
    the caller gave none (or gave 0). *)
Lemma handle_submitted_seed fuel w ingress seed st (m : gmap string json) name st0 doc :
  (100 < fuel)%nat ->
  ingress st = (Ok (JObj m, name), st0) ->
  is_Some (m !! "115:3") ->
  configure_workflow w (JObj m) name seed = Ok doc ->
  submitted_seed (handle fuel w ingress seed st).2 = Some (JNum (actual_seed w seed)).
Proof.
  intros Hfuel Hin Hnode Hconf. destruct fuel as [|fuel]; [lia|].
  destruct (handle (S fuel) w ingress seed st) as [res st'] eqn:Hrun.
  destruct (handle_submitted fuel w ingress seed st _ _ _ _ _ _
              ltac:(lia) Hin Hconf Hrun) as [_ Hsub].
  unfold submitted_seed. simpl. rewrite Hsub. simpl.
  by apply configure_workflow_seed with (m := m) (name := name).
Qed.

(** ** C8: absent nodes, and the frame of the two writes *)

(** C8.  A workflow document that lacks node "78" (or node "115:3") is
    configured without that write and without an error of its own: the
    result is that of the other write alone, and with both nodes absent the
    document is submitted as it was loaded.  Whenever the configuration
    succeeds, every node other than "78" and "115:3" is the one of the
    loaded document, and the configured document is the one the handler
    submits. *)
Theorem absent_nodes_and_frame fuel w ingress seed st (m : gmap string json) name st0 :
  (100 < fuel)%nat ->
  ingress st = (Ok (JObj m, name), st0) ->
  (m !! "78" = None ->
   configure_workflow w (JObj m) name seed = set_seed (JObj m) (actual_seed w seed))
  /\ (m !! "115:3" = None ->
      configure_workflow w (JObj m) name seed = set_input_image (JObj m) name)
  /\ (m !! "78" = None -> m !! "115:3" = None ->
      configure_workflow w (JObj m) name seed = Ok (JObj m))
  /\ (forall doc,
        configure_workflow w (JObj m) name seed = Ok doc ->
        (exists m', doc = JObj m'
           /\ forall k, k <> "78" -> k <> "115:3" -> m' !! k = m !! k)
        /\ submitted (handle fuel w ingress seed st).2 = doc :: submitted st0).
Proof.
  intros Hfuel Hin. split_and!.
  - intros H78. unfold configure_workflow.
    by rewrite set_input_image_absent.
  - intros H115. unfold configure_workflow, res_bind.
    destruct (set_input_image (JObj m) name) as [doc1| |] eqn:H1; try done.
    destruct (set_input_image_frame _ _ _ H1) as (m1 & -> & Hm1).
    apply set_seed_absent. by rewrite Hm1.
  - intros H78 H115. unfold configure_workflow.
    rewrite set_input_image_absent by done. simpl.
    by apply set_seed_absent.
  - intros doc Hconf. split.
    + revert Hconf. unfold configure_workflow, res_bind.
      destruct (set_input_image (JObj m) name) as [doc1| |] eqn:H1; try done.
      destruct (set_input_image_frame _ _ _ H1) as (m1 & -> & Hm1).
      intros H2. destruct (set_seed_frame _ _ _ H2) as (m2 & -> & Hm2 & _).
      exists m2. split; [done|]. intros k Hk1 Hk2.
      by rewrite Hm2, Hm1.
    + destruct fuel as [|fuel]; [lia|].
      destruct (handle (S fuel) w ingress seed st) as [res st'] eqn:Hrun.
      by destruct (handle_submitted fuel w ingress seed st _ _ _ _ _ _
                     ltac:(lia) Hin Hconf Hrun).
Qed.

(** ** C10: the data-URI header *)

Lemma contains_app_sep c pre post :
  Str.contains c (pre ++ String c post) = true.
Proof.
  induction pre as [|a pre IH]; simpl.
  - by rewrite Ascii.eqb_refl.
  - rewrite IH. by destruct (Ascii.eqb a c).
Qed.

Lemma split_once_first c pre post :
  Str.contains c pre = false ->
  Str.split_once c (pre ++ String c post) = Some (pre, post).
Proof.
  induction pre as [|a pre IH]; simpl.
  - by rewrite Ascii.eqb_refl.
  - destruct (Ascii.eqb a c); [discriminate|].
    intros H. by rewrite (IH H).
Qed.

Lemma base64_payload_comma pre post :
  Str.contains "," pre = false ->
  base64_payload (pre ++ String "," post) = post.
Proof.
  intros H. unfold base64_payload.
  by rewrite contains_app_sep, split_once_first.
Qed.

Lemma base64_payload_whole s :
  Str.contains "," s = false -> base64_payload s = s.
Proof. intros H. unfold base64_payload. by rewrite H. Qed.

(** C10.  [upload_base64_to_comfyui] decodes what follows the first comma
    of its argument, whatever stands before that comma, and decodes the
    whole argument when it has no comma. *)
Theorem base64_header_is_dropped w :
  (forall pre post,
      Str.contains "," pre = false ->
      base64_payload (pre ++ String "," post) = post
      /\ upload_base64_to_comfyui w (pre ++ String "," post) = decode_and_upload w post)
  /\ (forall s,
        Str.contains "," s = false ->
        base64_payload s = s
        /\ upload_base64_to_comfyui w s = decode_and_upload w s).
Proof.
  split.
  - intros pre post H. unfold upload_base64_to_comfyui.
    by rewrite base64_payload_comma.
  - intros s H. unfold upload_base64_to_comfyui.
    by rewrite base64_payload_whole.
Qed.


(** ** C1: the seed *)

(** C1, at the input that contradicts it.  A caller-supplied seed of 0 is
    false for [seed if seed else ...], so the handler draws a seed between
    1 and 2^32-1 instead, in every world; in the scripted world, where the
    draw is 42, both handlers submit 42 in the seed node for the request
    seed 0. *)
Theorem seed_zero_is_replaced :
  (forall w, actual_seed w (Some 0%Z) = randint w 1 (2 ^ 32 - 1)
             /\ actual_seed w (Some 0%Z) <> 0%Z)
  /\ submitted_seed
       (generate_paper_cutting 101 Script.w_published Script.photo
          (Some "photo.jpg") (Some 0%Z) Script.start).2 = Some (JNum 42)
  /\ submitted_seed
       (generate_paper_cutting_base64 101 Script.w_published
          (Script.base64_request (Some 0%Z)) Script.start).2 = Some (JNum 42).
Proof.
  split_and!.
  - intros w. destruct (actual_seed_drawn w (Some 0%Z)) as [Heq Hrange]; [by right|].
    split; [done | lia].
  - vm_compute. reflexivity.
  - vm_compute. reflexivity.
Qed.

(** ** C4: a failed download *)

(** C4, at the input that contradicts it.  The engine reports the finished
    job at every poll and answers 404 to every download: the exception
    raised for the download is caught by the [except] of the polling
    iteration, the handler downloads again at each of the 60 iterations the
    budget allows, and the caller receives the 408 of the timeout, not a
    500. *)
Theorem download_failure_is_absorbed :
  let run := generate_paper_cutting 101 Script.w_download_fails Script.photo
               (Some "photo.jpg") (Some 42%Z) Script.start in
  let run64 := generate_paper_cutting_base64 101 Script.w_download_fails
                 (Script.base64_request (Some 42%Z)) Script.start in
  run.1 = Raise (HTTPException 408 "生成超时")
  /\ length (filter Script.is_view (sent run.2)) = 60%nat
  /\ run64.1 = Raise (HTTPException 408 "生成超时")
  /\ length (filter Script.is_view (sent run64.2)) = 60%nat.
Proof. vm_compute. by split_and!. Qed.

(** ** The theorems at work on the scripted worlds *)


Lemma submission_failure_is_500_witness :
  generate_paper_cutting 101 Script.w_rejected Script.photo (Some "photo.jpg")
    (Some 42%Z) Script.start
  = (Raise (HTTPException 500 "ComfyUI 错误: engine exploded"),
     (generate_paper_cutting 101 Script.w_rejected Script.photo (Some "photo.jpg")
        (Some 42%Z) Script.start).2).
Proof.
  unfold generate_paper_cutting.
  edestruct (submission_failure_is_500 101 Script.w_rejected
               (ingress_binary Script.w_rejected Script.photo (Some "photo.jpg"))
               (Some 42%Z) Script.start) as [Hstatus _].
  - vm_compute. reflexivity.
  - vm_compute. reflexivity.
  - vm_compute. reflexivity.
  - left. vm_compute. discriminate.
  - rewrite Hstatus; [reflexivity|]. vm_compute. discriminate.
Defined.

Lemma publication_failure_falls_back_witness :
  (resume_polling 1 Script.w_storage_down "abc" 1000 Script.after_two_polls).1 =
  Ok {| success := true;
        image_url := Some "http://localhost:8080/api/image/out.png?type=output";
        prompt_id := Some "abc";
        error := None |}.
Proof.
  rewrite (publication_failure_falls_back Script.w_storage_down "abc" 1000 0
             Script.after_two_polls (Script.finished "abc" Script.two_images)
             Script.first_entry [Script.image_entry "second.png" "sub" "temp"]
             [Byte.x89; Byte.x50; Byte.x4e; Byte.x47]).
  - reflexivity.
  - vm_compute. reflexivity.
  - vm_compute. reflexivity.
  - vm_compute. reflexivity.
  - vm_compute. reflexivity.
  - vm_compute. reflexivity.
Defined.

Lemma published_url_is_returned_witness :
  (resume_polling 1 Script.w_published "abc" 1000 Script.after_two_polls).1 =
  Ok {| success := true; image_url := Some "https://cdn/x.png";
        prompt_id := Some "abc"; error := None |}.
Proof.
  rewrite (published_url_is_returned Script.w_published "abc" 1000 0
             Script.after_two_polls (Script.finished "abc" Script.two_images)
             Script.first_entry [Script.image_entry "second.png" "sub" "temp"]
             [Byte.x89; Byte.x50; Byte.x4e; Byte.x47] "https://cdn/x.png").
  - reflexivity.
  - vm_compute. reflexivity.
  - vm_compute. reflexivity.
  - vm_compute. reflexivity.
  - vm_compute. reflexivity.
  - vm_compute. reflexivity.
  - discriminate.
Defined.

Lemma absent_nodes_and_frame_witness :
  configure_workflow Script.w_bare (JObj Script.bare_workflow) (JStr "in.png")
    (Some 42%Z) = Ok (JObj Script.bare_workflow)
  /\ submitted (generate_paper_cutting 101 Script.w_bare Script.photo
                  (Some "photo.jpg") (Some 42%Z) Script.start).2
     = [JObj Script.bare_workflow].
Proof.
  edestruct (absent_nodes_and_frame 101 Script.w_bare
               (ingress_binary Script.w_bare Script.photo (Some "photo.jpg"))
               (Some 42%Z) Script.start Script.bare_workflow)
    as (_ & _ & Hboth & Hframe).
  - lia.
  - vm_compute. reflexivity.
  - assert (configure_workflow Script.w_bare (JObj Script.bare_workflow)
              (JStr "in.png") (Some 42%Z) = Ok (JObj Script.bare_workflow)) as Hconf.
    { apply Hboth; vm_compute; reflexivity. }
    split; [exact Hconf|].
    exact (proj2 (Hframe _ Hconf)).
Defined.

Lemma empty_value_is_publication_error_witness :
  publish_or_proxy Script.w_empty_value "abc" [Byte.x89] (JStr "out.png")
    (JStr "output") Script.start =
  (Ok (proxy_response Script.w_empty_value "abc" (JStr "out.png") (JStr "output")),
   after Script.w_empty_value
     (storage_request Script.w_empty_value [Byte.x89] (JStr "out.png")) Script.start).
Proof.
  refine (proj2 (empty_value_is_publication_error Script.w_empty_value "abc"
                   [Byte.x89] (JStr "out.png") (JStr "output") Script.start
                   {| status_code := 200; text := "{...}"; content := [];
                      body_json := Some (Script.obj [("value", JStr "")]) |}
                   (list_to_map [("value", JStr "")]) _ _ _ _)).
  - vm_compute. reflexivity.
  - reflexivity.
  - vm_compute. reflexivity.
  - left. vm_compute. reflexivity.
Defined.

Lemma base64_header_is_dropped_witness :
  base64_payload "data:image/png;base64,iVBORw0KGgo=" = "iVBORw0KGgo="
  /\ base64_payload "not a header at all,iVBORw0KGgo=" = "iVBORw0KGgo="
  /\ base64_payload "iVBORw0KGgo=" = "iVBORw0KGgo=".
Proof.
  split_and!.
  - exact (proj1 (proj1 (base64_header_is_dropped Script.w_published)
                    "data:image/png;base64" "iVBORw0KGgo=" eq_refl)).
  - exact (proj1 (proj1 (base64_header_is_dropped Script.w_published)
                    "not a header at all" "iVBORw0KGgo=" eq_refl)).
  - exact (proj1 (proj2 (base64_header_is_dropped Script.w_published)
                    "iVBORw0KGgo=" eq_refl)).
Defined.

(** ** Strings: suffixes and the last dot *)

Lemma str_app_cons a (s t : string) : String a s ++ t = String a (s ++ t).
Proof. reflexivity. Qed.

Lemma str_app_assoc (s t u : string) : (s ++ t) ++ u = s ++ (t ++ u).
Proof. induction s as [|a s IH]; [reflexivity|]. by rewrite !str_app_cons, IH. Qed.

Lemma str_app_nil_r (s : string) : s ++ "" = s.
Proof. induction s as [|a s IH]; [reflexivity|]. by rewrite str_app_cons, IH. Qed.

Lemma rev_app_eq s1 s2 : String.rev_app s1 s2 = String.rev s1 ++ s2.
Proof.
  revert s2. induction s1 as [|a s1 IH]; intros s2; [reflexivity|].
  unfold String.rev. simpl. rewrite (IH (String a s2)), (IH (String a "")).
  by rewrite str_app_assoc.
Qed.

Lemma rev_app_distr s t : String.rev (s ++ t) = String.rev t ++ String.rev s.
Proof.
  induction s as [|a s IH].
  - by rewrite str_app_nil_r.
  - rewrite str_app_cons. unfold String.rev at 1 3. simpl.
    rewrite !rev_app_eq, IH. by rewrite str_app_assoc.
Qed.

Lemma rev_involutive s : String.rev (String.rev s) = s.
Proof.
  induction s as [|a s IH]; [reflexivity|].
  unfold String.rev at 2. simpl. rewrite rev_app_eq, rev_app_distr, IH.
  reflexivity.
Qed.

Lemma prefix_iff p s : String.prefix p s = true <-> exists x, s = p ++ x.
Proof.
  revert s. induction p as [|a p IH]; intros [|b s]; simpl.
  - split; [intros _; by exists "" | done].
  - split; [intros _; by exists (String b s) | done].
  - split; [discriminate | by intros [? ?]].
  - destruct (ascii_dec a b) as [-> | Hne].
    + rewrite IH. split; intros [x Hx]; exists x.
      * by rewrite str_app_cons, Hx.
      * rewrite str_app_cons in Hx. congruence.
    + split; [discriminate|]. intros [x Hx].
      rewrite str_app_cons in Hx. congruence.
Qed.

(** [Str.endswith] is Python's [endswith]. *)
Lemma endswith_iff s suffix :
  Str.endswith s suffix = true <-> exists pre, s = pre ++ suffix.
Proof.
  unfold Str.endswith. rewrite prefix_iff. split.
  - intros [x Hx]. exists (String.rev x).
    rewrite <- (rev_involutive s), Hx, rev_app_distr.
    by rewrite rev_involutive.
  - intros [pre ->]. exists (String.rev pre). apply rev_app_distr.
Qed.

Lemma contains_app c s t :
  Str.contains c (s ++ t) = Str.contains c s || Str.contains c t.
Proof.
  induction s as [|a s IH]; [reflexivity|].
  rewrite str_app_cons. simpl. by destruct (Ascii.eqb a c).
Qed.

(** [Str.rsplit_head] cuts at the last separator. *)
Lemma rsplit_head_last c base ext :
  Str.contains c ext = false ->
  Str.rsplit_head c (base ++ String c ext) = base.
Proof.
  intros Hext. induction base as [|a base IH].
  - simpl. by rewrite Hext, Ascii.eqb_refl.
  - rewrite str_app_cons. simpl. rewrite contains_app. simpl.
    rewrite Ascii.eqb_refl, orb_true_r. by rewrite IH.
Qed.

Lemma rsplit_head_none c s :
  Str.contains c s = false -> Str.rsplit_head c s = s.
Proof.
  induction s as [|a s IH]; simpl; [reflexivity|].
  destruct (Ascii.eqb a c); [discriminate|].
  intros H. by rewrite H.
Qed.

(** ** The upload of the input image *)

(** What [upload_binary_to_comfyui] does once PIL has produced the PNG. *)
Lemma upload_binary_eq w image_data original_filename png st :
  pil_png w image_data = inr png ->
  let filename := upload_filename (clock st) original_filename in
  let req := upload_request w filename png in
  upload_binary_to_comfyui w image_data original_filename st =
  (match (http w (sent st) req).1 with
   | Replied r =>
       if bool_decide (status_code r = 200%Z) then
         res_bind (response_json r) (fun result => py_get result "name" (JStr filename))
       else Raise (Exception ("上传失败: " ++ pretty (status_code r)
                              ++ " - " ++ text r))
   | TimedOut msg => Raise (RequestsTimeout msg)
   | Failed msg => Raise (Exception msg)
   end, after w req st).
Proof.
  intros Hpil filename req. unfold upload_binary_to_comfyui. rewrite Hpil.
  unfold mbind at 1, M_bind at 1, time_time.
  fold (upload_filename (clock st) original_filename). fold filename.
  fold (upload_request w filename png). fold req.
  unfold mbind at 1, M_bind at 1. rewrite requests_send_eq.
  destruct ((http w (sent st) req).1) as [r|msg|msg]; try reflexivity.
  case_bool_decide; [|reflexivity].
  unfold mbind, M_bind, lift.
  destruct (response_json r) as [result|e|s]; reflexivity.
Qed.

Lemma upload_binary_unreadable w image_data original_filename msg st :
  pil_png w image_data = inl msg ->
  upload_binary_to_comfyui w image_data original_filename st =
  (Raise (Exception msg), st).
Proof. intros Hpil. unfold upload_binary_to_comfyui. by rewrite Hpil. Qed.

Lemma upload_filename_png now original_filename :
  Str.endswith (upload_filename now original_filename) ".png" = true.
Proof.
  unfold upload_filename.
  match goal with |- context [if ?b then _ else _] => destruct b eqn:E end;
    [exact E|].
  apply endswith_iff. eauto.
Qed.

(** X1.  [upload_binary_to_comfyui] sends nothing when PIL cannot read the
    image (it re-raises PIL's exception); otherwise it sends one multipart
    POST to [/upload/image] with PIL's PNG bytes, under a name that ends in
    ".png", whatever name the caller gave. *)
Theorem upload_sends_one_png w image_data original_filename st :
  match pil_png w image_data with
  | inl msg =>
      upload_binary_to_comfyui w image_data original_filename st
      = (Raise (Exception msg), st)
  | inr png =>
      let filename := upload_filename (clock st) original_filename in
      sent (upload_binary_to_comfyui w image_data original_filename st).2
      = upload_request w filename png :: sent st
      /\ Str.endswith filename ".png" = true
  end.
Proof.
  destruct (pil_png w image_data) as [msg|png] eqn:Hpil.
  - by apply upload_binary_unreadable.
  - intros filename. split; [|apply upload_filename_png].
    by rewrite (upload_binary_eq _ _ _ _ _ Hpil).
Qed.

Lemma last_separator_unique c base ext base' ext' :
  Str.contains c ext = false -> Str.contains c ext' = false ->
  base ++ String c ext = base' ++ String c ext' ->
  base = base' /\ ext = ext'.
Proof.
  intros Hext Hext' Heq.
  assert (base = base') as <-.
  { rewrite <- (rsplit_head_last c base ext Hext), Heq.
    by apply rsplit_head_last. }
  split; [done|]. apply (inj (String.append base)) in Heq. congruence.
Qed.

Lemma endswith_app s suffix : Str.endswith (s ++ suffix) suffix = true.
Proof. apply endswith_iff. eauto. Qed.

Lemma endswith_nonempty s : Str.endswith s ".png" = true -> Str.nonempty s = true.
Proof.
  intros [pre ->]%endswith_iff. by destruct pre.
Qed.

Lemma contains_false_not_endswith_png s :
  Str.contains "." s = false -> Str.endswith s ".png" = false.
Proof.
  intros Hs. destruct (Str.endswith s ".png") eqn:E; [|done].
  apply endswith_iff in E as [pre ->].
  rewrite contains_app in Hs. simpl in Hs.
  by rewrite orb_true_r in Hs.
Qed.

(** X2.  The name under which the image is uploaded: a name that ends in
    ".png" is kept; in any other name the text after the last dot is
    replaced by "png"; a name without a dot gets ".png" appended; without a
    name (none, or the empty one) the name is "paper_cutting_" followed by
    the clock reading in whole units and ".png". *)
Theorem upload_filename_cases now :
  (forall f, Str.endswith f ".png" = true -> upload_filename now (Some f) = f)
  /\ (forall base ext,
        Str.contains "." ext = false -> ext <> "png" ->
        upload_filename now (Some (base ++ "." ++ ext)) = base ++ ".png")
  /\ (forall f,
        f <> "" -> Str.contains "." f = false ->
        upload_filename now (Some f) = f ++ ".png")
  /\ upload_filename now None = "paper_cutting_" ++ pretty now ++ ".png"
  /\ upload_filename now (Some "") = "paper_cutting_" ++ pretty now ++ ".png".
Proof.
  assert (Str.endswith ("paper_cutting_" ++ pretty now ++ ".png") ".png" = true)
    as Hgen.
  { rewrite <- str_app_assoc. apply endswith_app. }
  split_and!.
  - intros f Hf. unfold upload_filename.
    by rewrite (endswith_nonempty f Hf), Hf.
  - intros base ext Hext Hne. unfold upload_filename.
    change (base ++ "." ++ ext) with (base ++ String "." ext).
    assert (Str.nonempty (base ++ String "." ext) = true) as -> by by destruct base.
    assert (Str.endswith (base ++ String "." ext) ".png" = false) as ->.
    { destruct (Str.endswith (base ++ String "." ext) ".png") eqn:E; [|done].
      apply endswith_iff in E as [pre Hpre].
      destruct (last_separator_unique "." base ext pre "png" Hext eq_refl Hpre)
        as [_ ?]. done. }
    by rewrite (rsplit_head_last "." base ext Hext).
  - intros f Hne Hdot. unfold upload_filename.
    assert (Str.nonempty f = true) as -> by by destruct f.
    by rewrite (contains_false_not_endswith_png f Hdot), (rsplit_head_none "." f Hdot).
  - unfold upload_filename. by rewrite Hgen.
  - unfold upload_filename. simpl. by rewrite Hgen.
Qed.

(** ** Failures before the submission *)

Lemma handle_ingress_raises fuel w ingress seed st e st0 :
  ingress st = (Raise e, st0) ->
  handle fuel w ingress seed st =
  (Raise match e with
         | HTTPException code detail => HTTPException code detail
         | _ => HTTPException 500 ("生成失败: " ++ str_exn w e)
         end, st0).
Proof.
  intros Hin. unfold handle, outer_except, try_except.
  rewrite (bind_Raise _ _ _ _ _ Hin). by destruct e.
Qed.

Lemma load_workflow_eq w st :
  load_paper_cutting_workflow w st =
  (match workflow_file w with
   | Some (Some j) => Ok j
   | Some None => Raise (PyError JSONDecodeError)
   | None => Raise (Exception "未找到工作流文件 02_qwen_Image_edit_subgraphed.json")
   end, st).
Proof.
  unfold load_paper_cutting_workflow.
  by destruct (workflow_file w) as [[j|]|].
Qed.

(** X3.  Without the workflow file both handlers answer 500 "生成失败:
    未找到工作流文件 ..." before they look at the request: nothing is sent,
    and an empty image gets this 500, not the 400. *)
Theorem missing_workflow_is_500 fuel w st :
  workflow_file w = None ->
  let failure := Raise (HTTPException 500
    "生成失败: 未找到工作流文件 02_qwen_Image_edit_subgraphed.json") in
  (forall image_data image_filename seed,
      generate_paper_cutting fuel w image_data image_filename seed st = (failure, st))
  /\ (forall request,
        generate_paper_cutting_base64 fuel w request st = (failure, st)).
Proof.
  intros Hfile failure. split.
  - intros image_data image_filename seed. unfold generate_paper_cutting.
    rewrite (handle_ingress_raises _ _ _ _ st
               (Exception "未找到工作流文件 02_qwen_Image_edit_subgraphed.json") st);
      [reflexivity|].
    unfold ingress_binary, mbind, M_bind. by rewrite load_workflow_eq, Hfile.
  - intros request. unfold generate_paper_cutting_base64.
    rewrite (handle_ingress_raises _ _ _ _ st
               (Exception "未找到工作流文件 02_qwen_Image_edit_subgraphed.json") st);
      [reflexivity|].
    unfold ingress_base64, mbind, M_bind. by rewrite load_workflow_eq, Hfile.
Qed.

(** X4.  With the workflow file in place, an empty upload and an empty
    base64 string are answered by 400 "缺少输入图片", and nothing is sent to
    the engine. *)
Theorem empty_input_is_400 fuel w workflow st :
  workflow_file w = Some (Some workflow) ->
  (forall image_filename seed,
      generate_paper_cutting fuel w [] image_filename seed st
      = (Raise (HTTPException 400 "缺少输入图片"), st))
  /\ (forall seed,
        generate_paper_cutting_base64 fuel w
          {| input_image_base64 := ""; seed := seed |} st
        = (Raise (HTTPException 400 "缺少输入图片"), st)).
Proof.
  intros Hfile. split.
  - intros image_filename seed. unfold generate_paper_cutting.
    rewrite (handle_ingress_raises _ _ _ _ st (HTTPException 400 "缺少输入图片") st);
      [reflexivity|].
    unfold ingress_binary, mbind, M_bind. by rewrite load_workflow_eq, Hfile.
  - intros seed. unfold generate_paper_cutting_base64.
    rewrite (handle_ingress_raises _ _ _ _ st (HTTPException 400 "缺少输入图片") st);
      [reflexivity|].
    unfold ingress_base64, mbind, M_bind. by rewrite load_workflow_eq, Hfile.
Qed.

Lemma ingress_binary_upload w workflow image_data image_filename st :
  workflow_file w = Some (Some workflow) ->
  image_data <> [] ->
  ingress_binary w image_data image_filename st =
  (input_image_filename ← upload_binary_to_comfyui w image_data image_filename;
   mret (workflow, input_image_filename)) st.
Proof.
  intros Hfile Hne. unfold ingress_binary.
  unfold mbind at 1, M_bind at 1. rewrite load_workflow_eq, Hfile.
  by rewrite bool_decide_eq_false_2.
Qed.

Lemma ingress_base64_upload w workflow request st :
  workflow_file w = Some (Some workflow) ->
  input_image_base64 request <> "" ->
  ingress_base64 w request st =
  (input_image_filename ←
     decode_and_upload w (base64_payload (input_image_base64 request));
   mret (workflow, input_image_filename)) st.
Proof.
  intros Hfile Hne. unfold ingress_base64.
  unfold mbind at 1, M_bind at 1. rewrite load_workflow_eq, Hfile.
  by destruct (input_image_base64 request).
Qed.

(** X5.  An image that cannot be decoded is answered by 500 "生成失败: ..."
    with the decoder's message, not by a 400, and nothing is sent: for the
    upload handler when PIL rejects the bytes, for the base64 handler when
    [b64decode] rejects the text after the header or PIL rejects what it
    decodes to. *)
Theorem undecodable_image_is_500 fuel w workflow st msg :
  workflow_file w = Some (Some workflow) ->
  (forall image_data image_filename seed,
      image_data <> [] ->
      pil_png w image_data = inl msg ->
      generate_paper_cutting fuel w image_data image_filename seed st
      = (Raise (HTTPException 500 ("生成失败: " ++ msg)), st))
  /\ (forall request,
        input_image_base64 request <> "" ->
        match b64decode w (base64_payload (input_image_base64 request)) with
        | inl msg' => msg' = msg
        | inr image_data => pil_png w image_data = inl msg
        end ->
        generate_paper_cutting_base64 fuel w request st
        = (Raise (HTTPException 500 ("生成失败: " ++ msg)), st)).
Proof.
  intros Hfile. split.
  - intros image_data image_filename seed Hne Hpil. unfold generate_paper_cutting.
    rewrite (handle_ingress_raises _ _ _ _ st (Exception msg) st); [reflexivity|].
    rewrite (ingress_binary_upload _ _ _ _ _ Hfile Hne).
    apply bind_Raise. by apply upload_binary_unreadable.
  - intros request Hne Hdec. unfold generate_paper_cutting_base64.
    rewrite (handle_ingress_raises _ _ _ _ st (Exception msg) st); [reflexivity|].
    rewrite (ingress_base64_upload _ _ _ _ Hfile Hne).
    apply bind_Raise. unfold decode_and_upload.
    destruct (b64decode w _) as [msg'|image_data].
    + by subst.
    + by apply upload_binary_unreadable.
Qed.

(** X6.  When the engine answers the upload with a status other than 200,
    the upload handler answers 500 with the detail "生成失败: 上传失败:
    <status> - <body>", and the upload is the only request sent. *)
Theorem rejected_upload_is_500 fuel w workflow image_data image_filename seed st png r :
  workflow_file w = Some (Some workflow) ->
  image_data <> [] ->
  pil_png w image_data = inr png ->
  let req := upload_request w (upload_filename (clock st) image_filename) png in
  (http w (sent st) req).1 = Replied r ->
  status_code r <> 200%Z ->
  generate_paper_cutting fuel w image_data image_filename seed st =
  (Raise (HTTPException 500 ("生成失败: 上传失败: " ++ pretty (status_code r)
                             ++ " - " ++ text r)),
   after w req st).
Proof.
  intros Hfile Hne Hpil req Hrep Hstatus. unfold generate_paper_cutting.
  rewrite (handle_ingress_raises _ _ _ _ st
             (Exception ("上传失败: " ++ pretty (status_code r) ++ " - " ++ text r))
             (after w req st)); [reflexivity|].
  rewrite (ingress_binary_upload _ _ _ _ _ Hfile Hne).
  apply bind_Raise. rewrite (upload_binary_eq _ _ _ _ _ Hpil).
  fold req. rewrite Hrep. by rewrite bool_decide_eq_false_2.
Qed.

(** ** What the two writes change, and what they keep *)

Lemma py_setitem3_keeps j k1 k2 k3 v doc :
  py_setitem3 j k1 k2 k3 v = Ok doc ->
  forall path, diverges path [k1; k2; k3] = true ->
               lookup_path doc path = lookup_path j path.
Proof.
  unfold py_setitem3, res_bind.
  destruct j as [| | | | | m]; try discriminate. simpl.
  destruct (m !! k1) as [node|] eqn:Hnode; [|discriminate].
  destruct node as [| | | | | n]; simpl; try discriminate.
  destruct (n !! k2) as [inputs|] eqn:Hinputs; [|discriminate].
  destruct inputs as [| | | | | i]; simpl; try discriminate.
  intros [= <-] path Hdiv.
  destruct path as [|a path]; [discriminate|]. simpl in Hdiv |- *.
  destruct (String.eqb_spec a k1) as [-> | Ha];
    [|by rewrite lookup_insert_ne].
  rewrite lookup_insert_eq, Hnode.
  destruct path as [|b path]; [discriminate|]. simpl in Hdiv |- *.
  destruct (String.eqb_spec b k2) as [-> | Hb];
    [|by rewrite lookup_insert_ne].
  rewrite lookup_insert_eq, Hinputs.
  destruct path as [|c path]; [discriminate|]. simpl in Hdiv |- *.
  destruct (String.eqb_spec c k3) as [-> | Hc];
    [by destruct path | by rewrite lookup_insert_ne].
Qed.

Lemma py_setitem3_written j k1 k2 k3 v doc :
  py_setitem3 j k1 k2 k3 v = Ok doc -> lookup_path doc [k1; k2; k3] = Some v.
Proof.
  unfold py_setitem3, res_bind.
  destruct j as [| | | | | m]; try discriminate. simpl.
  destruct (m !! k1) as [node|] eqn:Hnode; [|discriminate].
  destruct node as [| | | | | n]; simpl; try discriminate.
  destruct (n !! k2) as [inputs|] eqn:Hinputs; [|discriminate].
  destruct inputs as [| | | | | i]; simpl; try discriminate.
  intros [= <-]. simpl. by rewrite !lookup_insert_eq.
Qed.

(** X7.  When the configuration of a workflow document succeeds, every
    value that is not on the path to ["78"]["inputs"]["image"] or to
    ["115:3"]["inputs"]["seed"] is the one of the loaded document: the
    other nodes, the other keys of the two nodes, and the other inputs of
    the two nodes.  The two fields themselves hold the staged name and the
    seed when their node is in the document. *)
Theorem configuration_changes_two_fields w (m : gmap string json) name seed doc :
  configure_workflow w (JObj m) name seed = Ok doc ->
  (forall path,
      diverges path ["78"; "inputs"; "image"] = true ->
      diverges path ["115:3"; "inputs"; "seed"] = true ->
      lookup_path doc path = lookup_path (JObj m) path)
  /\ (is_Some (m !! "78") ->
      lookup_path doc ["78"; "inputs"; "image"] = Some name)
  /\ (is_Some (m !! "115:3") ->
      lookup_path doc ["115:3"; "inputs"; "seed"] = Some (JNum (actual_seed w seed))).
Proof.
  unfold configure_workflow, res_bind.
  destruct (set_input_image (JObj m) name) as [doc1| |] eqn:H1; try discriminate.
  intros H2.
  assert (forall path, diverges path ["78"; "inputs"; "image"] = true ->
                       lookup_path doc1 path = lookup_path (JObj m) path) as Hk1.
  { revert H1. unfold set_input_image. rewrite py_contains_obj. simpl.
    case_bool_decide; [apply py_setitem3_keeps | by intros [= <-]]. }
  destruct (set_input_image_frame _ _ _ H1) as (m1 & -> & Hm1).
  assert (forall path, diverges path ["115:3"; "inputs"; "seed"] = true ->
                       lookup_path doc path = lookup_path (JObj m1) path) as Hk2.
  { revert H2. unfold set_seed. rewrite py_contains_obj. simpl.
    case_bool_decide; [apply py_setitem3_keeps | by intros [= <-]]. }
  split_and!.
  - intros path Hp1 Hp2. by rewrite Hk2, Hk1.
  - intros H78. rewrite Hk2 by reflexivity.
    revert H1. unfold set_input_image. rewrite py_contains_obj. simpl.
    rewrite bool_decide_eq_true_2 by done. apply py_setitem3_written.
  - intros H115. revert H2. unfold set_seed. rewrite py_contains_obj. simpl.
    rewrite bool_decide_eq_true_2 by (by rewrite Hm1).
    apply py_setitem3_written.
Qed.

Lemma node_input_path doc node field :
  node_input doc node field = lookup_path doc [node; "inputs"; field].
Proof.
  unfold node_input. simpl.
  destruct doc as [| | | | | m]; try reflexivity.
  destruct (m !! node) as [[| | | | | n]|]; try reflexivity.
  destruct (n !! "inputs") as [[| | | | | i]|]; try reflexivity.
  by destruct (i !! field).
Qed.

(** The upload handler's ingress when the engine accepts the image. *)
Lemma ingress_binary_accepted w workflow image_data image_filename st png r
    (body : gmap string json) :
  workflow_file w = Some (Some workflow) ->
  image_data <> [] ->
  pil_png w image_data = inr png ->
  let filename := upload_filename (clock st) image_filename in
  let req := upload_request w filename png in
  (http w (sent st) req).1 = Replied r ->
  status_code r = 200%Z ->
  body_json r = Some (JObj body) ->
  ingress_binary w image_data image_filename st =
  (Ok (workflow, default (JStr filename) (body !! "name")), after w req st).
Proof.
  intros Hfile Hne Hpil filename req Hrep Hstatus Hbody.
  rewrite (ingress_binary_upload _ _ _ _ _ Hfile Hne).
  unfold mbind, M_bind. rewrite (upload_binary_eq _ _ _ _ _ Hpil).
  fold filename req. rewrite Hrep, bool_decide_eq_true_2 by done.
  unfold response_json. rewrite Hbody. simpl.
  by destruct (body !! "name").
Qed.

(** X8.  When the engine accepts the uploaded image, the document the
    upload handler submits is the configured workflow file: its node 78
    names the image as the engine's reply does (the "name" of the reply,
    or the name sent when the reply has none), and its node 115:3 holds
    the caller's seed when that is not 0, a value between 1 and 2^32-1
    when the caller gave no seed. *)
Theorem staged_name_and_seed_are_submitted fuel w (m : gmap string json)
    image_data image_filename seed st png r (body : gmap string json) doc :
  (100 < fuel)%nat ->
  workflow_file w = Some (Some (JObj m)) ->
  image_data <> [] ->
  pil_png w image_data = inr png ->
  let filename := upload_filename (clock st) image_filename in
  let req := upload_request w filename png in
  let name := default (JStr filename) (body !! "name") in
  (http w (sent st) req).1 = Replied r ->
  status_code r = 200%Z ->
  body_json r = Some (JObj body) ->
  configure_workflow w (JObj m) name seed = Ok doc ->
  let final := (generate_paper_cutting fuel w image_data image_filename seed st).2 in
  submitted final = doc :: submitted st
  /\ (is_Some (m !! "78") -> submitted_image final = Some name)
  /\ (is_Some (m !! "115:3") ->
      exists z, submitted_seed final = Some (JNum z)
                /\ match seed with
                   | Some s => s <> 0%Z -> z = s
                   | None => (1 <= z <= 2 ^ 32 - 1)%Z
                   end).
Proof.
  intros Hfuel Hfile Hne Hpil filename req name Hrep Hstatus Hbody Hconf final.
  pose proof (ingress_binary_accepted w (JObj m) image_data image_filename st png r
                body Hfile Hne Hpil Hrep Hstatus Hbody) as Hin.
  fold filename req name in Hin.
  assert (submitted final = doc :: submitted st) as Hsub.
  { subst final. unfold generate_paper_cutting.
    destruct fuel as [|fuel]; [lia|].
    destruct (handle (S fuel) w _ seed st) as [res st'] eqn:Hrun.
    by destruct (handle_submitted fuel w _ seed st _ _ _ _ _ _
                   ltac:(lia) Hin Hconf Hrun). }
  destruct (configuration_changes_two_fields w m name seed doc Hconf)
    as (_ & Himage & Hseed).
  split_and!; [done |..].
  - intros H78. unfold submitted_image. rewrite Hsub. simpl.
    rewrite node_input_path. by apply Himage.
  - intros H115. exists (actual_seed w seed). split.
    + unfold submitted_seed. rewrite Hsub. simpl.
      rewrite node_input_path. by apply Hseed.
    + destruct seed as [s|].
      * apply actual_seed_supplied.
      * by destruct (actual_seed_drawn w None) as [_ ?]; [left|].
Qed.

(** ** What a handler may answer *)

Section Ensures.
Context {A : Type} (C : Z -> Prop).

Lemma ensures_ret (V : A -> Prop) a : V a -> ensures C V (mret a).
Proof. by intros HV st r st' [= <- <-]. Qed.

Lemma ensures_raise_http (V : A -> Prop) code detail :
  C code -> ensures C V (raise (HTTPException code detail)).
Proof. by intros HC st r st' [= <- <-]. Qed.

Lemma ensures_raise_other (V : A -> Prop) e :
  (forall code detail, e <> HTTPException code detail) -> ensures C V (raise e).
Proof.
  intros He st r st' [= <- <-]. destruct e as [code detail| | |]; try done.
  by destruct (He code detail).
Qed.

Lemma ensures_stuck (V : A -> Prop) s : ensures C V (stuck_at s).
Proof. by intros st r st' [= <- <-]. Qed.

Lemma ensures_lift (V : A -> Prop) (r : Res A) :
  match r with
  | Ok a => V a
  | Raise (HTTPException code _) => C code
  | _ => True
  end ->
  ensures C V (lift r).
Proof. by intros Hr st r' st' [= <- <-]. Qed.

Lemma ensures_try (V : A -> Prop) (body : M A) (handler : exn -> M A) :
  ensures C V body -> (forall e, ensures C V (handler e)) ->
  ensures C V (try_except body handler).
Proof.
  intros Hb Hh st r st'. unfold try_except.
  destruct (body st) as [[a|e|s] st1] eqn:E.
  - intros [= <- <-]. exact (Hb _ _ _ E).
  - apply Hh.
  - by intros [= <- <-].
Qed.

Lemma ensures_weaken (C' : Z -> Prop) (V V' : A -> Prop) (m : M A) :
  (forall code, C' code -> C code) -> (forall a, V a -> V' a) ->
  ensures C' V m -> ensures C V' m.
Proof.
  intros HC HV Hm st r st' E. specialize (Hm _ _ _ E).
  destruct r as [a|[code detail| | |]|s]; auto.
Qed.

End Ensures.

Lemma ensures_bind {A B} (C : Z -> Prop) (V : A -> Prop) (W : B -> Prop)
    (m : M A) (k : A -> M B) :
  ensures C V m -> (forall a, V a -> ensures C W (k a)) ->
  ensures C W (x ← m; k x).
Proof.
  intros Hm Hk st r st'. unfold mbind, M_bind.
  destruct (m st) as [[a|e|s] st1] eqn:E; specialize (Hm _ _ _ E).
  - by apply Hk.
  - intros [= <- <-]. by destruct e.
  - by intros [= <- <-].
Qed.

Lemma ensures_send C w req : ensures C (fun _ => True) (requests_send w req).
Proof.
  intros st r st'. rewrite requests_send_eq. intros [= <- <-].
  by destruct ((http w (sent st) req).1).
Qed.

Lemma ensures_time C : ensures C (fun _ => True) time_time.
Proof. by intros st r st' [= <- <-]. Qed.

Lemma ensures_sleep C d : ensures C (fun _ => True) (time_sleep d).
Proof. by intros st r st' [= <- <-]. Qed.

(** A pure step raises interpreter errors only. *)
Ltac pure_step :=
  apply ensures_lift;
  unfold response_json, py_contains, py_getitem, py_get, py_first;
  repeat case_match; simplify_eq/=; done.

Lemma upload_to_remote_server_ensures w image_data filename :
  ensures (fun _ => False) (fun _ => True)
          (upload_to_remote_server w image_data filename).
Proof.
  unfold upload_to_remote_server.
  eapply ensures_bind; [apply ensures_send | intros response _].
  case_bool_decide; [|by apply ensures_raise_other].
  eapply ensures_bind with (V := fun _ => True); [pure_step | intros result _].
  eapply ensures_bind with (V := fun _ => True); [pure_step | intros url _].
  case_match; [by apply ensures_ret | by apply ensures_raise_other].
Qed.

Lemma publish_or_proxy_ensures w pid image_data filename folder_type :
  ensures (fun _ => False) (success_for pid)
          (publish_or_proxy w pid image_data filename folder_type).
Proof.
  unfold publish_or_proxy. apply ensures_try.
  - eapply ensures_bind; [apply upload_to_remote_server_ensures | intros url _].
    unfold success_response. destruct url; try apply ensures_stuck.
    apply ensures_ret. by split_and!; eauto.
  - intros e. apply ensures_ret. by split_and!; eauto.
Qed.

Lemma retrieve_and_publish_ensures w pid filename subfolder folder_type :
  ensures (fun _ => False) (success_for pid)
          (retrieve_and_publish w pid filename subfolder folder_type).
Proof.
  unfold retrieve_and_publish.
  eapply ensures_bind; [apply ensures_send | intros response _].
  case_bool_decide; [apply publish_or_proxy_ensures | by apply ensures_raise_other].
Qed.

Lemma poll_attempt_ensures w pid :
  ensures (fun _ => False)
          (fun o => forall resp, o = Some resp -> success_for pid resp)
          (poll_attempt w pid).
Proof.
  unfold poll_attempt.
  eapply ensures_bind; [apply ensures_send | intros response _].
  case_bool_decide; [|by apply ensures_ret].
  eapply ensures_bind with (V := fun _ => True); [pure_step | intros history_data _].
  eapply ensures_bind with (V := fun _ => True); [pure_step | intros [] _];
    [|by apply ensures_ret].
  eapply ensures_bind with (V := fun _ => True); [pure_step | intros entry _].
  eapply ensures_bind with (V := fun _ => True); [pure_step | intros outputs _].
  eapply ensures_bind with (V := fun _ => True); [pure_step | intros [] _];
    [|by apply ensures_ret].
  eapply ensures_bind with (V := fun _ => True); [pure_step | intros node60 _].
  eapply ensures_bind with (V := fun _ => True); [pure_step | intros images _].
  case_match; [|by apply ensures_ret].
  eapply ensures_bind with (V := fun _ => True); [pure_step | intros first _].
  eapply ensures_bind with (V := fun _ => True); [pure_step | intros filename _].
  eapply ensures_bind with (V := fun _ => True); [pure_step | intros subfolder _].
  eapply ensures_bind with (V := fun _ => True); [pure_step | intros folder_type _].
  eapply ensures_bind; [apply retrieve_and_publish_ensures | intros resp Hresp].
  apply ensures_ret. by intros ? [= <-].
Qed.

Lemma poll_loop_ensures fuel w pid start_time :
  ensures (fun code => code = 408%Z) (success_for pid)
          (poll_loop fuel w pid start_time).
Proof.
  induction fuel as [|fuel IH]; [apply ensures_stuck|].
  intros st r st'. rewrite poll_loop_step.
  case_bool_decide; [|by intros [= <- <-]].
  destruct (poll_attempt w pid st) as [res st1] eqn:E.
  pose proof (poll_attempt_ensures w pid _ _ _ E) as Hres.
  destruct res as [[resp|]|e|s]; try apply IH.
  - intros [= <- <-]. by apply Hres.
  - by intros [= <- <-].
Qed.

Lemma submit_workflow_ensures w workflow :
  ensures (fun code => code = 500%Z) (fun pid => pid <> "")
          (submit_workflow w workflow).
Proof.
  unfold submit_workflow.
  eapply ensures_bind; [apply ensures_send | intros response _].
  case_match; [by apply ensures_raise_http|].
  eapply ensures_bind with (V := fun _ => True); [pure_step | intros body _].
  eapply ensures_bind with (V := fun _ => True); [pure_step | intros prompt_id _].
  destruct (truthy prompt_id) eqn:Ht; simpl; [|by apply ensures_raise_http].
  destruct prompt_id as [| | | pid | |]; try apply ensures_stuck.
  apply ensures_ret. by destruct pid.
Qed.

Lemma upload_binary_to_comfyui_ensures w image_data original_filename :
  ensures (fun _ => False) (fun _ => True)
          (upload_binary_to_comfyui w image_data original_filename).
Proof.
  unfold upload_binary_to_comfyui.
  case_match; [by apply ensures_raise_other|].
  eapply ensures_bind; [apply ensures_time | intros now _].
  eapply ensures_bind; [apply ensures_send | intros response _].
  case_bool_decide; [|by apply ensures_raise_other].
  eapply ensures_bind with (V := fun _ => True); [pure_step | intros result _].
  pure_step.
Qed.

Lemma load_paper_cutting_workflow_ensures w :
  ensures (fun _ => False) (fun _ => True) (load_paper_cutting_workflow w).
Proof.
  unfold load_paper_cutting_workflow.
  repeat case_match; [by apply ensures_ret | by apply ensures_raise_other..].
Qed.

Lemma ingress_binary_ensures w image_data image_filename :
  ensures (fun code => code = 400%Z) (fun _ => True)
          (ingress_binary w image_data image_filename).
Proof.
  unfold ingress_binary.
  eapply ensures_bind with (V := fun _ => True).
  { eapply ensures_weaken; [| |apply load_paper_cutting_workflow_ensures]; done. }
  intros workflow _. case_bool_decide; [by apply ensures_raise_http|].
  eapply ensures_bind with (V := fun _ => True).
  { eapply ensures_weaken; [| |apply upload_binary_to_comfyui_ensures]; done. }
  intros name _. by apply ensures_ret.
Qed.

Lemma ingress_base64_ensures w request :
  ensures (fun code => code = 400%Z) (fun _ => True) (ingress_base64 w request).
Proof.
  unfold ingress_base64.
  eapply ensures_bind with (V := fun _ => True).
  { eapply ensures_weaken; [| |apply load_paper_cutting_workflow_ensures]; done. }
  intros workflow _. case_match; [by apply ensures_raise_http|].
  eapply ensures_bind with (V := fun _ => True).
  { unfold upload_base64_to_comfyui, decode_and_upload.
    case_match; [by apply ensures_raise_other|].
    eapply ensures_weaken; [| |apply upload_binary_to_comfyui_ensures]; done. }
  intros name _. by apply ensures_ret.
Qed.

Lemma res_bind_pure {A B} (r : Res A) (k : A -> Res B) code detail :
  r <> Raise (HTTPException code detail) ->
  (forall a, k a <> Raise (HTTPException code detail)) ->
  res_bind r k <> Raise (HTTPException code detail).
Proof. intros Hr Hk. destruct r as [a|e|s]; simpl; [apply Hk | congruence | done]. Qed.

Lemma py_setitem3_pure j k1 k2 k3 v code detail :
  py_setitem3 j k1 k2 k3 v <> Raise (HTTPException code detail).
Proof.
  unfold py_setitem3.
  repeat (apply res_bind_pure; [|intros ?]);
    unfold py_getitem, py_setitem; repeat case_match; done.
Qed.

Lemma configure_workflow_pure w workflow name seed code detail :
  configure_workflow w workflow name seed <> Raise (HTTPException code detail).
Proof.
  unfold configure_workflow, set_input_image, set_seed.
  repeat (apply res_bind_pure; [|intros ?]);
    try (unfold py_contains; repeat case_match; done).
  all: case_match; [apply py_setitem3_pure | done].
Qed.

Lemma generate_tail_ensures fuel w workflow name seed :
  ensures (fun code => code = 500%Z \/ code = 408%Z) success_response_shape
          (generate_tail fuel w workflow name seed).
Proof.
  unfold generate_tail.
  eapply ensures_bind with (V := fun _ => True).
  { apply ensures_lift.
    pose proof (configure_workflow_pure w workflow name seed) as Hp.
    destruct (configure_workflow w workflow name seed) as [doc|[code detail| | |]|s];
      try done. by destruct (Hp code detail). }
  intros doc _.
  eapply ensures_bind.
  { eapply ensures_weaken; [| |apply submit_workflow_ensures]; [by left | done]. }
  intros pid Hpid.
  eapply ensures_bind; [apply ensures_time | intros start_time _].
  eapply ensures_weaken; [| |apply poll_loop_ensures].
  - by right.
  - intros resp Hresp. by exists pid.
Qed.

Lemma outer_except_ensures {A} w (C : Z -> Prop) (V : A -> Prop) (body : M A) :
  ensures C V body ->
  forall st r st',
    outer_except w body st = (r, st') ->
    match r with
    | Ok a => V a
    | Raise e => exists code detail,
                   e = HTTPException code detail /\ (C code \/ code = 500%Z)
    | Stuck _ => True
    end.
Proof.
  intros Hb st r st'. unfold outer_except, try_except.
  destruct (body st) as [[a|e|s] st1] eqn:E; specialize (Hb _ _ _ E).
  - by intros [= <- <-].
  - destruct e as [code detail|msg|msg|pe]; intros [= <- <-]; eauto.
  - by intros [= <- <-].
Qed.

Lemma handle_answer_shape fuel w ingress seed st :
  ensures (fun code => code = 400%Z) (fun _ => True) ingress ->
  match (handle fuel w ingress seed st).1 with
  | Ok resp => success_response_shape resp
  | Raise e =>
      exists code detail,
        e = HTTPException code detail
        /\ (code = 400%Z \/ code = 408%Z \/ code = 500%Z)
  | Stuck _ => True
  end.
Proof.
  intros Hin.
  destruct (handle fuel w ingress seed st) as [r st'] eqn:Hrun. simpl.
  assert (ensures (fun code => code = 400%Z \/ code = 500%Z \/ code = 408%Z)
                  success_response_shape
                  (p ← ingress; generate_tail fuel w p.1 p.2 seed)) as Hbody.
  { eapply ensures_bind.
    - eapply ensures_weaken; [| |exact Hin]; [|done]. intros code ->. by left.
    - intros p _. eapply ensures_weaken; [| |apply generate_tail_ensures]; [|done].
      intros code [-> | ->]; [right; by left | right; by right]. }
  pose proof (outer_except_ensures w _ _ _ Hbody _ _ _ Hrun) as Hout.
  destruct r as [resp|e|s]; simpl; [exact Hout | | done].
  destruct Hout as (code & detail & -> & Hcode).
  exists code, detail. split; [done|].
  destruct Hcode as [[-> | [-> | ->]] | ->]; auto.
Qed.

(** ** Worlds whose job ids and addresses are strings *)

Lemma str_or_falsy_truthy j :
  str_or_falsy j = true -> truthy j = true -> exists s, j = JStr s.
Proof.
  intros Hs Ht. destruct j as [| b | n | s | l | m]; eauto;
    unfold str_or_falsy in Hs; rewrite Ht in Hs; discriminate.
Qed.

Lemma upload_to_remote_server_unstuck w image_data filename st s st' :
  upload_to_remote_server w image_data filename st <> (Stuck s, st').
Proof.
  unfold upload_to_remote_server, mbind, M_bind. rewrite requests_send_eq.
  destruct ((http w (sent st) (storage_request w image_data filename)).1)
    as [resp|msg|msg]; try discriminate.
  case_bool_decide; [|discriminate].
  unfold lift, response_json.
  destruct (body_json resp) as [[| | | | | m]|]; simpl; try discriminate.
  destruct (truthy _); discriminate.
Qed.

Lemma submit_workflow_unstuck w doc st r st' :
  string_job_ids w ->
  submit_workflow w doc st = (r, st') ->
  forall s, r <> Stuck s.
Proof.
  intros Hids. unfold submit_workflow, mbind, M_bind. rewrite requests_send_eq.
  destruct ((http w (sent st) (prompt_request w doc)).1) as [resp|msg|msg] eqn:Hrep;
    try (by intros [= <- <-]).
  case_bool_decide as Hstatus; simpl; [|by intros [= <- <-]].
  unfold lift, response_json.
  destruct (body_json resp) as [[| | | | | m]|] eqn:Hbody; simpl;
    try (by intros [= <- <-]).
  specialize (Hids _ _ _ _ Hrep Hstatus Hbody).
  destruct (m !! "prompt_id") as [v|]; simpl in *; [|by intros [= <- <-]].
  destruct (truthy v) eqn:Hv; simpl; [|by intros [= <- <-]].
  destruct (str_or_falsy_truthy v Hids Hv) as [pid ->].
  by intros [= <- <-].
Qed.

Lemma upload_to_remote_server_returns_string w image_data filename st url st' :
  string_addresses w ->
  upload_to_remote_server w image_data filename st = (Ok url, st') ->
  exists u, url = JStr u.
Proof.
  intros Haddr. unfold upload_to_remote_server, mbind, M_bind.
  rewrite requests_send_eq.
  destruct ((http w (sent st) (storage_request w image_data filename)).1)
    as [resp|msg|msg] eqn:Hrep; try discriminate.
  case_bool_decide as Hstatus; [|discriminate].
  unfold lift, response_json.
  destruct (body_json resp) as [[| | | | | m]|] eqn:Hbody; simpl; try discriminate.
  specialize (Haddr _ _ _ _ _ Hrep Hstatus Hbody). simpl in Haddr.
  destruct (truthy _) eqn:Hv; [|discriminate].
  intros [= <- <-]. by apply str_or_falsy_truthy.
Qed.

Lemma publish_or_proxy_unstuck w pid image_data filename folder_type st r st' :
  string_addresses w ->
  publish_or_proxy w pid image_data filename folder_type st = (r, st') ->
  exists resp, r = Ok resp.
Proof.
  intros Haddr. unfold publish_or_proxy, try_except, mbind, M_bind.
  destruct (upload_to_remote_server w image_data filename st) as [[url|e|s] st1] eqn:E.
  - destruct (upload_to_remote_server_returns_string _ _ _ _ _ _ Haddr E) as [u ->].
    intros [= <- <-]. eauto.
  - intros [= <- <-]. eauto.
  - by destruct (upload_to_remote_server_unstuck w image_data filename st s st1).
Qed.

(** ** The three ways a polling attempt can go *)

Lemma poll_attempt_bad_entry w pid st j x rest :
  poll_document (http w (sent st) (history_request w pid)).1 = Some j ->
  image_list pid j = Some (x :: rest) ->
  (forall img, x <> JObj img) ->
  exists e, poll_attempt w pid st = (Raise e, after w (history_request w pid) st).
Proof.
  intros Hdoc Himg Hx. unfold poll_attempt.
  unfold mbind at 1, M_bind at 1. rewrite requests_send_eq.
  unfold poll_document in Hdoc.
  destruct ((http w (sent st) (history_request w pid)).1) as [r|msg|msg];
    try discriminate.
  case_bool_decide; [|discriminate].
  unfold response_json. rewrite Hdoc.
  unfold image_list in Himg.
  destruct j as [| | | | | h]; try discriminate.
  destruct (h !! pid) as [[| | | | | e]|] eqn:Hpid; try discriminate.
  destruct (e !! "outputs") as [[| | | | | o]|] eqn:Hout; try discriminate.
  destruct (o !! "60") as [[| | | | | n]|] eqn:H60; try discriminate.
  destruct (n !! "images") as [[| | | | l |]|] eqn:Him; try discriminate.
  injection Himg as ->.
  unfold mbind, M_bind, lift; simpl.
  rewrite bool_decide_eq_true_2 by (rewrite Hpid; eauto).
  rewrite Hpid; simpl. rewrite Hout; simpl.
  rewrite bool_decide_eq_true_2 by (rewrite H60; eauto).
  rewrite H60; simpl. rewrite Him; simpl.
  destruct x as [| | | | | img]; simpl; eauto.
  by destruct (Hx img).
Qed.

Lemma upload_to_remote_server_state w image_data filename st r st' :
  upload_to_remote_server w image_data filename st = (r, st') ->
  st' = after w (storage_request w image_data filename) st.
Proof.
  unfold upload_to_remote_server, mbind, M_bind. rewrite requests_send_eq.
  destruct ((http w (sent st) (storage_request w image_data filename)).1)
    as [resp|msg|msg]; try (by intros [= <- <-]).
  case_bool_decide; [|by intros [= <- <-]].
  unfold lift, response_json.
  destruct (body_json resp) as [[| | | | | m]|]; simpl; try (by intros [= <- <-]).
  destruct (truthy _); by intros [= <- <-].
Qed.

Lemma publish_or_proxy_state w pid image_data filename folder_type st r st' :
  publish_or_proxy w pid image_data filename folder_type st = (r, st') ->
  st' = after w (storage_request w image_data filename) st
  /\ ((exists resp, r = Ok resp) \/ r = Stuck NonStringField).
Proof.
  intros Hrun.
  assert (st' = after w (storage_request w image_data filename) st) as ->.
  { revert Hrun. unfold publish_or_proxy, try_except, mbind, M_bind.
    destruct (upload_to_remote_server w image_data filename st) as [res st1] eqn:E.
    apply upload_to_remote_server_state in E as ->.
    destruct res as [url|e|s]; try (by intros [= <- <-]).
    unfold success_response. destruct url; by intros [= <- <-]. }
  split; [done|].
  destruct (publish_or_proxy_answers w pid image_data filename folder_type st)
    as [st1 [(resp & Hp & _) | Hp]]; rewrite Hp in Hrun; inversion Hrun; eauto.
Qed.

(** An attempt ends after the poll (falling through, or with an
    exception), after a download that failed (with an exception), or after
    the publication of a download that succeeded (with what the
    publication step answers). *)
Lemma poll_attempt_cases w pid st r st' :
  poll_attempt w pid st = (r, st') ->
  let st1 := after w (history_request w pid) st in
  (st' = st1 /\ (r = Ok None \/ exists e, r = Raise e))
  \/ exists img,
      let filename := entry_field img "filename" JNull in
      let subfolder := entry_field img "subfolder" (JStr "") in
      let folder_type := entry_field img "type" (JStr "output") in
      let view := view_request w filename subfolder folder_type in
      let st2 := after w view st1 in
      (downloaded (http w (sent st1) view).1 = None
       /\ st' = st2 /\ exists e, r = Raise e)
      \/ exists image_data res,
          downloaded (http w (sent st1) view).1 = Some image_data
          /\ publish_or_proxy w pid image_data filename folder_type st2 = (res, st')
          /\ st' = after w (storage_request w image_data filename) st2
          /\ ((exists resp, res = Ok resp /\ r = Ok (Some resp))
              \/ (res = Stuck NonStringField /\ r = Stuck NonStringField)).
Proof.
  intros Hrun st1.
  destruct (qualifies pid (http w (sent st) (history_request w pid)).1) eqn:Hq.
  - unfold qualifies in Hq.
    destruct (poll_document _) as [j|] eqn:Hdoc; [|discriminate].
    destruct (image_list pid j) as [[|x rest]|] eqn:Himg; try discriminate.
    destruct x as [| | | | | img].
    1-5: left;
      edestruct (poll_attempt_bad_entry w pid st j _ rest Hdoc Himg) as [e He];
      [done | rewrite He in Hrun; injection Hrun as <- <-; eauto].
    right. exists img. intros filename subfolder folder_type view st2.
    rewrite (poll_attempt_first _ _ _ _ _ _ Hdoc Himg) in Hrun.
    fold filename subfolder folder_type st1 in Hrun.
    unfold mbind, M_bind in Hrun.
    destruct (downloaded (http w (sent st1) view).1) as [image_data|] eqn:Hdl.
    + right. rewrite (retrieve_then_publish _ _ _ _ _ _ _ Hdl) in Hrun.
      fold view st2 in Hrun.
      destruct (publish_or_proxy w pid image_data filename folder_type st2)
        as [res st3] eqn:Hp.
      exists image_data, res.
      destruct (publish_or_proxy_state _ _ _ _ _ _ _ _ Hp) as [Hst [[resp ->] | ->]];
        injection Hrun as <- <-; split_and!; eauto.
    + left. split; [done|].
      destruct (retrieve_failed w pid _ _ _ _ Hdl) as [e He].
      fold view st2 in He. rewrite He in Hrun. injection Hrun as <- <-. eauto.
  - left. destruct (poll_attempt_skip w pid st Hq) as (r0 & Hr0 & Hcase).
    rewrite Hr0 in Hrun. injection Hrun as <- <-. eauto.
Qed.

(** ** Runs that end with a response *)

(** A handler that returns a response went through every stage. *)
Lemma handle_ok_inv fuel w ingress seed st resp st' :
  handle fuel w ingress seed st = (Ok resp, st') ->
  exists workflow name st0 doc pid st1,
    ingress st = (Ok (workflow, name), st0)
    /\ configure_workflow w workflow name seed = Ok doc
    /\ submit_workflow w doc st0 = (Ok pid, st1)
    /\ poll_loop fuel w pid (clock st1) st1 = (Ok resp, st').
Proof.
  unfold handle, outer_except, try_except, generate_tail, mbind, M_bind, lift.
  destruct (ingress st) as [[[workflow name]|e|s] st0] eqn:Hin; simpl;
    [| by destruct e | done].
  destruct (configure_workflow w workflow name seed) as [doc|e|s] eqn:Hconf;
    [| by destruct e | done].
  destruct (submit_workflow w doc st0) as [[pid|e|s] st1] eqn:Hsub;
    [| by destruct e | done].
  unfold time_time.
  destruct (poll_loop fuel w pid (clock st1) st1) as [[resp'|e|s] st2] eqn:Hloop;
    [| by destruct e | done].
  intros [= <- <-]. by exists workflow, name, st0, doc, pid, st1.
Qed.

Lemma submit_workflow_ok_inv w doc st pid st1 :
  submit_workflow w doc st = (Ok pid, st1) ->
  exists r, (http w (sent st) (prompt_request w doc)).1 = Replied r
            /\ status_code r = 200%Z
            /\ job_id r = Some (JStr pid)
            /\ pid <> ""
            /\ st1 = after w (prompt_request w doc) st.
Proof.
  unfold submit_workflow, mbind, M_bind. rewrite requests_send_eq.
  destruct ((http w (sent st) (prompt_request w doc)).1) as [r|msg|msg];
    try discriminate.
  case_bool_decide as Hstatus; simpl; [|discriminate].
  unfold lift, response_json.
  destruct (body_json r) as [[| | | | | m]|] eqn:Hbody; simpl; try discriminate.
  destruct (m !! "prompt_id") as [v|] eqn:Hid; simpl; [|discriminate].
  destruct (truthy v) eqn:Hv; simpl; [|discriminate].
  destruct v as [| | | p | |]; try discriminate.
  intros [= <- <-]. exists r. split_and!; try done.
  - unfold job_id. by rewrite Hbody, Hid, Hv.
  - by destruct p.
Qed.

(** X10.  In a world whose job ids and published addresses are strings,
    the [prompt_id] of a response is the job id the engine issued: a
    handler returns a response only after a submission that was answered
    with status 200 and a non-empty string under "prompt_id", and the
    response carries that string. *)
Theorem response_carries_engine_job_id fuel w ingress seed st resp st' :
  string_job_ids w ->
  string_addresses w ->
  handle fuel w ingress seed st = (Ok resp, st') ->
  exists workflow name st0 doc r pid,
    ingress st = (Ok (workflow, name), st0)
    /\ configure_workflow w workflow name seed = Ok doc
    /\ (http w (sent st0) (prompt_request w doc)).1 = Replied r
    /\ status_code r = 200%Z
    /\ job_id r = Some (JStr pid)
    /\ pid <> ""
    /\ prompt_id resp = Some pid.
Proof.
  intros _ _ Hrun.
  destruct (handle_ok_inv _ _ _ _ _ _ _ Hrun)
    as (workflow & name & st0 & doc & pid & st1 & Hin & Hconf & Hsub & Hloop).
  destruct (submit_workflow_ok_inv _ _ _ _ _ Hsub) as (r & Hrep & Hst & Hid & Hne & _).
  exists workflow, name, st0, doc, r, pid. split_and!; try done.
  by destruct (poll_loop_ensures fuel w pid (clock st1) _ _ _ Hloop) as (_ & _ & ? & _).
Qed.

(** The iteration in which the loop returns. *)
Lemma poll_loop_ok_inv fuel w pid start_time st resp st' :
  poll_loop fuel w pid start_time st = (Ok resp, st') ->
  exists st0, poll_attempt w pid st0 = (Ok (Some resp), st')
              /\ (length (sent st) <= length (sent st0))%nat.
Proof.
  revert st. induction fuel as [|fuel IH]; intros st; [discriminate|].
  rewrite poll_loop_step. case_bool_decide; [|discriminate].
  destruct (poll_attempt w pid st) as [res st1] eqn:E.
  assert (length (sent st) <= length (sent (slept 3 st1)))%nat as Hlen.
  { destruct (poll_attempt_cases _ _ _ _ _ E) as [[-> _] | [img [(_ & -> & _) |
      (data & res0 & _ & _ & -> & _)]]]; unfold slept, after; simpl; lia. }
  destruct res as [[resp'|]|e|s]; try discriminate.
  - intros [= <- <-]. exists st. split; [done | lia].
  - intros Hloop. destruct (IH _ Hloop) as (st0 & ? & ?). exists st0.
    split; [done | lia].
  - intros Hloop. destruct (IH _ Hloop) as (st0 & ? & ?). exists st0.
    split; [done | lia].
Qed.

Lemma publish_or_proxy_ok_inv w pid image_data filename folder_type st resp st' :
  publish_or_proxy w pid image_data filename folder_type st = (Ok resp, st') ->
  let rep := (http w (sent st) (storage_request w image_data filename)).1 in
  (publication_fails rep = true /\ resp = proxy_response w pid filename folder_type)
  \/ exists url, published_value rep = Some (JStr url) /\ url <> ""
                 /\ resp = published_response pid url.
Proof.
  intros Hrun rep.
  destruct (publication_fails rep) eqn:Hf.
  - left. split; [done|].
    rewrite (publish_or_proxy_fallback _ _ _ _ _ _ Hf) in Hrun. congruence.
  - right. unfold publication_fails in Hf.
    destruct (published_value rep) as [v|] eqn:Hv; [|discriminate].
    apply negb_false_iff in Hf.
    destruct v as [| | | url | |];
      try (exfalso; revert Hrun; unfold publish_or_proxy, try_except;
           rewrite (bind_Ok _ _ _ _ _ (upload_to_remote_server_ok _ _ _ _ _ Hv Hf));
           discriminate).
    exists url. assert (url <> "") as Hne by by destruct url.
    split_and!; try done.
    rewrite (publish_or_proxy_published _ _ _ _ _ _ _ Hv Hne) in Hrun. congruence.
Qed.

(** X11.  In a world whose job ids and published addresses are strings, a
    response is always the outcome of one download followed by one
    publication: the last three requests of the run are the poll that
    found the image entry, the download of that entry and the upload to
    the storage service of exactly the bytes downloaded, under the
    entry's filename.  The [image_url] is the string the storage service
    returned under "value", or, when publication failed, the proxy address
    of that same entry. *)
Theorem response_is_published_download fuel w ingress seed st resp st' :
  string_job_ids w ->
  string_addresses w ->
  handle fuel w ingress seed st = (Ok resp, st') ->
  exists pid log img image_data,
    let filename := entry_field img "filename" JNull in
    let subfolder := entry_field img "subfolder" (JStr "") in
    let folder_type := entry_field img "type" (JStr "output") in
    let history := history_request w pid in
    let view := view_request w filename subfolder folder_type in
    let storage := storage_request w image_data filename in
    sent st' = storage :: view :: history :: log
    /\ downloaded (http w (history :: log) view).1 = Some image_data
    /\ ((publication_fails (http w (view :: history :: log) storage).1 = true
         /\ image_url resp = Some (proxy_url w filename folder_type))
        \/ exists url,
            published_value (http w (view :: history :: log) storage).1
              = Some (JStr url)
            /\ image_url resp = Some url).
Proof.
  intros _ _ Hrun.
  destruct (handle_ok_inv _ _ _ _ _ _ _ Hrun)
    as (workflow & name & st0 & doc & pid & st1 & _ & _ & _ & Hloop).
  destruct (poll_loop_ok_inv _ _ _ _ _ _ _ Hloop) as (st2 & Hattempt & _).
  destruct (poll_attempt_cases _ _ _ _ _ Hattempt)
    as [[_ [? | [e ?]]] | [img [(_ & _ & e & ?) | (image_data & res & Hdl & Hpub & -> & Hres)]]];
    try discriminate.
  destruct Hres as [(resp' & -> & [= <-]) | [_ ?]]; [|discriminate].
  exists pid, (sent st2), img, image_data. simpl.
  split_and!; [reflexivity | exact Hdl |].
  destruct (publish_or_proxy_ok_inv _ _ _ _ _ _ _ _ Hpub) as [[Hf ->] | (url & Hv & _ & ->)].
  - left. by split.
  - right. by exists url.
Qed.

(** ** How many requests a handler sends *)

Lemma poll_loop_requests w pid start_time fuel :
  forall k st r st',
    (start_time <= clock st)%N ->
    (max_wait <= clock st - start_time + 3 * N.of_nat k)%N ->
    poll_loop fuel w pid start_time st = (r, st') ->
    (length (sent st') <= length (sent st) + (2 * k + 1))%nat.
Proof.
  induction fuel as [|fuel IH]; intros k st r st' Hstart Hk.
  - intros [= <- <-]. lia.
  - rewrite poll_loop_step. case_bool_decide as Hbudget; [|intros [= <- <-]; lia].
    destruct k as [|k]; [lia|].
    destruct (poll_attempt w pid st) as [res st1] eqn:E.
    assert (forall st2, (clock st <= clock st2)%N ->
              (length (sent st2) <= length (sent st) + 2)%nat ->
              poll_loop fuel w pid start_time (slept 3 st2) = (r, st') ->
              (length (sent st') <= length (sent st) + (2 * S k + 1))%nat) as Hnext.
    { intros st2 Hclock Hlen Hloop.
      pose proof (IH k (slept 3 st2) r st') as Hrec.
      unfold slept in Hrec; simpl in Hrec.
      specialize (Hrec ltac:(lia) ltac:(lia) Hloop). lia. }
    destruct (poll_attempt_cases _ _ _ _ _ E)
      as [[-> Hr] | [img [(_ & -> & e & ->) | (data & res0 & _ & _ & -> & Hr)]]].
    + destruct Hr as [-> | [e ->]]; apply Hnext; unfold after; simpl; lia.
    + apply Hnext; unfold after; simpl; lia.
    + destruct Hr as [(resp & _ & ->) | [_ ->]]; intros [= <- <-];
        unfold after; simpl; lia.
Qed.

Lemma upload_binary_to_comfyui_state w image_data original_filename st r st' :
  upload_binary_to_comfyui w image_data original_filename st = (r, st') ->
  (length (sent st') <= length (sent st) + 1)%nat.
Proof.
  destruct (pil_png w image_data) as [msg|png] eqn:Hpil.
  - rewrite (upload_binary_unreadable _ _ _ _ _ Hpil). intros [= <- <-]. lia.
  - rewrite (upload_binary_eq _ _ _ _ _ Hpil). intros [= <- <-].
    unfold after; simpl; lia.
Qed.

Lemma ingress_binary_state w image_data image_filename st r st' :
  ingress_binary w image_data image_filename st = (r, st') ->
  (length (sent st') <= length (sent st) + 1)%nat.
Proof.
  unfold ingress_binary, mbind, M_bind. rewrite load_workflow_eq.
  destruct (workflow_file w) as [[j|]|]; try (intros [= <- <-]; lia).
  case_bool_decide; [intros [= <- <-]; lia|].
  destruct (upload_binary_to_comfyui w image_data image_filename st)
    as [res st1] eqn:E.
  apply upload_binary_to_comfyui_state in E.
  destruct res; intros [= <- <-]; lia.
Qed.

Lemma ingress_base64_state w request st r st' :
  ingress_base64 w request st = (r, st') ->
  (length (sent st') <= length (sent st) + 1)%nat.
Proof.
  unfold ingress_base64, mbind, M_bind. rewrite load_workflow_eq.
  destruct (workflow_file w) as [[j|]|]; try (intros [= <- <-]; lia).
  case_match; [intros [= <- <-]; lia|].
  unfold upload_base64_to_comfyui, decode_and_upload.
  destruct (b64decode w _) as [msg|image_data]; [intros [= <- <-]; lia|].
  destruct (upload_binary_to_comfyui w image_data None st) as [res st1] eqn:E.
  apply upload_binary_to_comfyui_state in E.
  destruct res; intros [= <- <-]; lia.
Qed.

Lemma handle_requests fuel w ingress seed st :
  (forall r st', ingress st = (r, st') ->
                 (length (sent st') <= length (sent st) + 1)%nat) ->
  (length (sent (handle fuel w ingress seed st).2) <= length (sent st) + 203)%nat.
Proof.
  intros Hin. unfold handle, outer_except, try_except, generate_tail, mbind, M_bind, lift.
  destruct (ingress st) as [[[workflow name]|e|s] st0] eqn:Ein;
    specialize (Hin _ _ eq_refl); simpl;
    [| destruct e; simpl; lia | lia].
  destruct (configure_workflow w workflow name seed) as [doc|e|s];
    [| destruct e; simpl; lia | simpl; lia].
  destruct (submit_workflow w doc st0) as [res st1] eqn:Esub.
  destruct (submit_workflow_sends _ _ _ _ _ Esub) as [-> _].
  destruct res as [pid|e|s]; [| destruct e; simpl; lia | simpl; lia].
  unfold time_time.
  set (st1 := after w (prompt_request w doc) st0).
  assert (length (sent st1) <= length (sent st) + 2)%nat as Hlen1
    by (unfold st1, after; simpl; lia).
  destruct (poll_loop fuel w pid (clock st1) st1) as [res st2] eqn:Eloop.
  assert (length (sent st2) <= length (sent st1) + (2 * 100 + 1))%nat as Hlen.
  { apply (poll_loop_requests w pid (clock st1) fuel 100 st1 res st2);
      [lia | unfold max_wait; lia | exact Eloop]. }
  destruct res as [resp|e|s]; [| destruct e |]; simpl; lia.
Qed.

(** X12.  In a world whose job ids and published addresses are strings, a
    generate request costs at most 203 outbound requests: the
    upload, the submission, and for each of the at most 100 polling
    iterations that fit in the budget a poll and a download, plus one
    publication. *)
Theorem handlers_send_at_most_203 fuel w st :
  string_job_ids w ->
  string_addresses w ->
  (forall image_data image_filename seed,
      (length (sent (generate_paper_cutting fuel w image_data image_filename seed st).2)
       <= length (sent st) + 203)%nat)
  /\ (forall request,
        (length (sent (generate_paper_cutting_base64 fuel w request st).2)
         <= length (sent st) + 203)%nat).
Proof.
  intros _ _. split.
  - intros image_data image_filename seed. apply handle_requests.
    apply ingress_binary_state.
  - intros request. apply handle_requests. apply ingress_base64_state.
Qed.

(** ** The two handlers side by side *)

(** X13.  The base64 handler is the upload handler applied to the decoded
    bytes, without a file name: when the text after the data-URI header
    decodes to at least one byte, both handlers do the same, request for
    request, in every world. *)
Theorem base64_handler_is_upload_handler fuel w request image_data st :
  input_image_base64 request <> "" ->
  b64decode w (base64_payload (input_image_base64 request)) = inr image_data ->
  image_data <> [] ->
  generate_paper_cutting_base64 fuel w request st =
  generate_paper_cutting fuel w image_data None (seed request) st.
Proof.
  intros Hne Hdec Hdata.
  assert (ingress_base64 w request st = ingress_binary w image_data None st) as Hin.
  { unfold ingress_base64, ingress_binary, mbind, M_bind.
    rewrite load_workflow_eq.
    destruct (workflow_file w) as [[j|]|]; try reflexivity.
    rewrite bool_decide_eq_false_2 by done.
    assert (Str.nonempty (input_image_base64 request) = true) as ->
      by by destruct (input_image_base64 request).
    simpl. unfold upload_base64_to_comfyui, decode_and_upload.
    by rewrite Hdec. }
  unfold generate_paper_cutting_base64, generate_paper_cutting, handle,
    outer_except, try_except, mbind, M_bind.
  by rewrite Hin.
Qed.

(** ** The health endpoint, the proxy and the status script *)

Lemma health_check_eq w st :
  let req := GET (COMFYUI_URL w ++ "/system_stats") 5 in
  health_check w st =
  (Ok match (http w (sent st) req).1 with
      | Replied r =>
          if bool_decide (status_code r = 200%Z) then
            {| health_status := "healthy"; health_comfyui := "connected";
               health_error := None |}
          else
            {| health_status := "unhealthy"; health_comfyui := "disconnected";
               health_error := None |}
      | TimedOut msg | Failed msg =>
          {| health_status := "unhealthy"; health_comfyui := "disconnected";
             health_error := Some msg |}
      end,
   after w req st).
Proof.
  intros req. unfold health_check, try_except.
  unfold mbind at 1, M_bind at 1. unfold mbind at 1, M_bind at 1.
  rewrite requests_send_eq. fold req.
  destruct ((http w (sent st) req).1) as [r|msg|msg]; try reflexivity.
  by case_bool_decide.
Qed.

Lemma proxy_image_eq w content_type filename type subfolder st :
  let req := GET (proxy_target w filename type subfolder) 30 in
  proxy_image w content_type filename type subfolder st =
  (match (http w (sent st) req).1 with
   | Replied r =>
       if bool_decide (status_code r = 200%Z) then
         Ok {| stream_body := content r;
               media_type := default "image/png" (content_type r);
               stream_headers := [("Cache-Control", "public, max-age=3600");
                                  ("Access-Control-Allow-Origin", "*")] |}
       else Raise (HTTPException (status_code r) "无法获取图片")
   | TimedOut msg | Failed msg =>
       Raise (HTTPException 503 ("无法连接到 ComfyUI: " ++ msg))
   end,
   after w req st).
Proof.
  intros req. unfold proxy_image, except_RequestException, mbind, M_bind.
  rewrite requests_send_eq. fold req.
  destruct ((http w (sent st) req).1) as [r|msg|msg]; try reflexivity.
  by case_bool_decide.
Qed.

Lemma str_app_same (s x : string) : s ++ x = s -> x = "".
Proof.
  induction s as [|a s IH]; [done|].
  rewrite str_app_cons. intros [= H]. by apply IH.
Qed.

(** X16.  The proxy address a handler falls back to carries the filename
    and the type of the image entry, not its subfolder.  [proxy_image],
    called with that filename and type and with no subfolder, fetches the
    address the handler downloaded from exactly when the entry has no
    (or an empty) subfolder; for an entry in a subfolder it fetches
    another address. *)
Theorem proxy_link_drops_subfolder w filename folder_type subfolder :
  proxy_url w (JStr filename) (JStr folder_type)
  = "http://localhost:8080/api/image/" ++ filename ++ "?type=" ++ folder_type
  /\ (truthy subfolder = false ->
      proxy_target w filename folder_type ""
      = view_url w (JStr filename) subfolder (JStr folder_type))
  /\ (truthy subfolder = true ->
      proxy_target w filename folder_type ""
      <> view_url w (JStr filename) subfolder (JStr folder_type)).
Proof.
  split_and!; [reflexivity |..].
  - intros Hs. unfold proxy_target, view_url. simpl. by rewrite Hs.
  - intros Hs. unfold proxy_target, view_url. simpl. rewrite Hs.
    intros Heq. symmetry in Heq. by apply str_app_same in Heq.
Qed.

Lemma check_comfyui_eq w st :
  let url := default "http://10.0.0.95:8188" (getenv w "COMFYUI_URL") in
  let req := GET (url ++ "/system_stats") 3 in
  check_comfyui w st =
  (Ok match (http w (sent st) req).1 with
      | Replied r =>
          if bool_decide (status_code r = 200%Z) then
            match body_json r with
            | Some (JObj _) => 0%Z
            | Some (JArr l) => if existsb (is_str "system") l then 1%Z else 0%Z
            | Some (JStr s) => if Str.substring_of "system" s then 1%Z else 0%Z
            | _ => 1%Z
            end
          else 1%Z
      | _ => 1%Z
      end,
   after w req st).
Proof.
  intros url req. unfold check_comfyui, try_except, mbind, M_bind.
  rewrite requests_send_eq. fold url req.
  destruct ((http w (sent st) req).1) as [r|msg|msg]; try reflexivity.
  case_bool_decide; [|reflexivity].
  unfold lift, response_json.
  destruct (body_json r) as [[| | | s | l | m]|]; simpl; try reflexivity.
  - by destruct (Str.substring_of "system" s).
  - by destruct (existsb (is_str "system") l).
  - case_bool_decide as Hin; [|reflexivity].
    by destruct (m !! "system"); [|destruct Hin].
Qed.

(** X14.  [health_check] never raises: it sends one request to
    [/system_stats] and returns a report whatever happens.  The report says
    "healthy" exactly when the engine answers with status 200, and it has
    an error text exactly when the call itself raised. *)
Theorem health_check_reports w st :
  let req := GET (COMFYUI_URL w ++ "/system_stats") 5 in
  let rep := (http w (sent st) req).1 in
  exists report,
    health_check w st = (Ok report, after w req st)
    /\ (health_status report = "healthy"
        <-> exists r, rep = Replied r /\ status_code r = 200%Z)
    /\ (health_status report = "healthy" \/ health_status report = "unhealthy")
    /\ (is_Some (health_error report) <-> forall r, rep <> Replied r).
Proof.
  intros req rep. rewrite health_check_eq. fold req rep.
  eexists. split; [reflexivity|].
  destruct rep as [r|msg|msg]; [case_bool_decide|..]; simpl.
  - split_and!; [| by left |].
    + split; [by exists r | done].
    + split; [by intros [? ?] | by intros H0; destruct (H0 r)].
  - split_and!; [| by right |].
    + split; [done | intros (r' & [= <-] & ?); done].
    + split; [by intros [? ?] | by intros H0; destruct (H0 r)].
  - split_and!; [| by right |].
    + split; [done | by intros (r' & ? & ?)].
    + split; [done | eauto].
  - split_and!; [| by right |].
    + split; [done | by intros (r' & ? & ?)].
    + split; [done | eauto].
Qed.

(** X15.  [proxy_image] sends one request to the engine's view endpoint
    and raises nothing but [HTTPException]s.  It returns the engine's body
    only for a reply with status 200; for any other status it raises with
    the engine's own status (a 404 stays a 404), and when the call itself
    raises it answers 503. *)
Theorem proxy_image_outcomes w content_type filename type subfolder st :
  let req := GET (proxy_target w filename type subfolder) 30 in
  let rep := (http w (sent st) req).1 in
  exists res,
    proxy_image w content_type filename type subfolder st = (res, after w req st)
    /\ match res with
       | Ok streamed =>
           exists r, rep = Replied r /\ status_code r = 200%Z
                     /\ stream_body streamed = content r
                     /\ media_type streamed = default "image/png" (content_type r)
       | Raise e =>
           exists code detail,
             e = HTTPException code detail
             /\ ((exists r, rep = Replied r /\ code = status_code r /\ code <> 200%Z)
                 \/ (code = 503%Z /\ forall r, rep <> Replied r))
       | Stuck _ => False
       end.
Proof.
  intros req rep. rewrite proxy_image_eq. fold req rep.
  eexists. split; [reflexivity|].
  destruct rep as [r|msg|msg]; [case_bool_decide|..]; simpl.
  - by exists r.
  - do 2 eexists. split; [reflexivity|]. left. by exists r.
  - do 2 eexists. split; [reflexivity|]. by right.
  - do 2 eexists. split; [reflexivity|]. by right.
Qed.

(** X17.  The status script sends one request and exits with 0 or 1.  It
    exits with 0 only after a reply with status 200 and a JSON body, and
    it does so for every 200 reply whose body is a JSON object; a 200
    reply whose body is not JSON, or is a number, a boolean or null, makes
    it exit with 1. *)
Theorem check_comfyui_exit_code w st :
  let url := default "http://10.0.0.95:8188" (getenv w "COMFYUI_URL") in
  let req := GET (url ++ "/system_stats") 3 in
  let rep := (http w (sent st) req).1 in
  exists code,
    check_comfyui w st = (Ok code, after w req st)
    /\ (code = 0%Z \/ code = 1%Z)
    /\ (code = 0%Z ->
        exists r j, rep = Replied r /\ status_code r = 200%Z /\ body_json r = Some j)
    /\ (forall r m, rep = Replied r -> status_code r = 200%Z ->
                    body_json r = Some (JObj m) -> code = 0%Z)
    /\ (forall r, rep = Replied r ->
                  match body_json r with
                  | None | Some JNull | Some (JBool _) | Some (JNum _) => code = 1%Z
                  | _ => True
                  end).
Proof.
  intros url req rep. rewrite check_comfyui_eq. fold url req rep.
  eexists. split; [reflexivity|].
  destruct rep as [r|msg|msg];
    [|split_and!; [by right | discriminate | by intros ? ? ? | by intros ? ?]..].
  case_bool_decide as Hstatus.
  - split_and!.
    + repeat case_match; auto.
    + intros Hcode. exists r.
      destruct (body_json r) as [j|]; [by exists j | discriminate].
    + intros r' m [= <-] _ Hbody. by rewrite Hbody.
    + intros r' [= <-]. by destruct (body_json r) as [[]|].
  - split_and!; [by right | discriminate | |].
    + by intros r' m [= <-] ?.
    + intros r' [= <-]. by destruct (body_json r) as [[]|].
Qed.

(** ** Exceptions outside the polling loop *)

(** X18.  Only the polling loop swallows exceptions of [requests].  A
    timeout or another exception during the upload of the image or during
    the submission ends the request with 500 "生成失败: <text>", right
    after the call that raised. *)
Theorem exceptions_before_polling_are_fatal fuel w seed msg :
  (forall workflow image_data image_filename st png,
      workflow_file w = Some (Some workflow) ->
      image_data <> [] ->
      pil_png w image_data = inr png ->
      let req := upload_request w (upload_filename (clock st) image_filename) png in
      raised (http w (sent st) req).1 = Some msg ->
      generate_paper_cutting fuel w image_data image_filename seed st
      = (Raise (HTTPException 500 ("生成失败: " ++ msg)), after w req st))
  /\ (forall ingress st workflow name st0 doc,
        ingress st = (Ok (workflow, name), st0) ->
        configure_workflow w workflow name seed = Ok doc ->
        raised (http w (sent st0) (prompt_request w doc)).1 = Some msg ->
        handle fuel w ingress seed st
        = (Raise (HTTPException 500 ("生成失败: " ++ msg)),
           after w (prompt_request w doc) st0)).
Proof.
  split.
  - intros workflow image_data image_filename st png Hfile Hne Hpil req Hraised.
    unfold generate_paper_cutting.
    assert (exists e, str_exn w e = msg
                      /\ (forall code detail, e <> HTTPException code detail)
                      /\ ingress_binary w image_data image_filename st
                         = (Raise e, after w req st)) as (e & <- & Hnot & Hin).
    { rewrite (ingress_binary_upload _ _ _ _ _ Hfile Hne).
      unfold mbind, M_bind. rewrite (upload_binary_eq _ _ _ _ _ Hpil). fold req.
      destruct ((http w (sent st) req).1) as [r|m|m]; simplify_eq/=;
        eexists; split_and!; try reflexivity; done. }
    rewrite (handle_ingress_raises _ _ _ _ _ _ _ Hin).
    destruct e as [code detail| | |]; try reflexivity.
    by destruct (Hnot code detail).
  - intros ingress st workflow name st0 doc Hin Hconf Hraised.
    rewrite (handle_submits _ _ _ _ _ _ _ _ _ Hin Hconf).
    assert (exists e, str_exn w e = msg
                      /\ (forall code detail, e <> HTTPException code detail)
                      /\ submit_workflow w doc st0
                         = (Raise e, after w (prompt_request w doc) st0))
      as (e & <- & Hnot & Hsub).
    { unfold submit_workflow, mbind, M_bind. rewrite requests_send_eq.
      destruct ((http w (sent st0) (prompt_request w doc)).1) as [r|m|m];
        simplify_eq/=; eexists; split_and!; try reflexivity; done. }
    rewrite (outer_except_other w _ st0 e (after w (prompt_request w doc) st0));
      [reflexivity | | exact Hnot].
    by rewrite (bind_Raise _ _ _ _ _ Hsub).
Qed.

(** ** The 408 *)

Lemma poll_loop_408_inv fuel w pid start_time :
  forall st detail st',
    poll_loop fuel w pid start_time st = (Raise (HTTPException 408 detail), st') ->
    (max_wait <= clock st' - start_time)%N /\ detail = "生成超时".
Proof.
  induction fuel as [|fuel IH]; intros st detail st'; [discriminate|].
  rewrite poll_loop_step. case_bool_decide as Hbudget.
  - destruct (poll_attempt w pid st) as [[[resp|]|e|s] st1];
      try discriminate; apply IH.
  - intros [= <- <-]. split; [lia | done].
Qed.

(** X19.  In a world whose job ids and published addresses are strings, a
    408 is never premature and has one cause: when a handler answers 408, the submission had succeeded and at least 300 time units
    have passed since it returned; the detail is "生成超时". *)
Theorem timeout_only_after_budget fuel w ingress seed st detail st' :
  string_job_ids w ->
  string_addresses w ->
  ensures (fun code => code = 400%Z) (fun _ => True) ingress ->
  handle fuel w ingress seed st = (Raise (HTTPException 408 detail), st') ->
  exists workflow name st0 doc pid st1,
    ingress st = (Ok (workflow, name), st0)
    /\ configure_workflow w workflow name seed = Ok doc
    /\ submit_workflow w doc st0 = (Ok pid, st1)
    /\ (max_wait <= clock st' - clock st1)%N
    /\ detail = "生成超时".
Proof.
  intros _ _ Hens.
  unfold handle, outer_except, try_except, generate_tail, mbind, M_bind, lift.
  destruct (ingress st) as [[[workflow name]|e|s] st0] eqn:Hin; simpl.
  - destruct (configure_workflow w workflow name seed) as [doc|e|s] eqn:Hconf.
    + destruct (submit_workflow w doc st0) as [[pid|e|s] st1] eqn:Hsub.
      * unfold time_time.
        destruct (poll_loop fuel w pid (clock st1) st1) as [[resp|e|s] st2] eqn:Hloop;
          try discriminate.
        destruct e as [code detail'| | |]; try discriminate.
        intros [= -> -> <-].
        destruct (poll_loop_408_inv _ _ _ _ _ _ _ Hloop) as [? ?].
        by exists workflow, name, st0, doc, pid, st1.
      * pose proof (submit_workflow_ensures w doc _ _ _ Hsub) as Hcode.
        destruct e; try discriminate. simpl in Hcode. intros [= ? ? ?]. lia.
      * discriminate.
    + pose proof (configure_workflow_pure w workflow name seed) as Hp.
      destruct e as [code detail'| | |]; try discriminate.
      by destruct (Hp code detail').
    + discriminate.
  - pose proof (Hens _ _ _ Hin) as Hcode.
    destruct e; try discriminate. simpl in Hcode. intros [= ? ? ?]. lia.
  - discriminate.
Qed.

(** X20.  A download that fails does not end the request: an iteration
    that finds an image entry and gets no 200 from the view endpoint
    (another status, or an exception of [requests]) sleeps and polls
    again, like an iteration that found nothing. *)
Theorem failed_download_polls_again w pid start_time fuel st j img rest :
  let filename := entry_field img "filename" JNull in
  let subfolder := entry_field img "subfolder" (JStr "") in
  let folder_type := entry_field img "type" (JStr "output") in
  let st1 := after w (history_request w pid) st in
  let st2 := after w (view_request w filename subfolder folder_type) st1 in
  (clock st - start_time < max_wait)%N ->
  poll_document (http w (sent st) (history_request w pid)).1 = Some j ->
  image_list pid j = Some (JObj img :: rest) ->
  downloaded (http w (sent st1) (view_request w filename subfolder folder_type)).1
    = None ->
  resume_polling (S fuel) w pid start_time st =
  resume_polling fuel w pid start_time (slept 3 st2).
Proof.
  intros filename subfolder folder_type st1 st2 Hbudget Hdoc Himg Hdl.
  unfold resume_polling, outer_except, try_except.
  by rewrite (download_failure_absorbed w pid start_time fuel st j img rest
                Hbudget Hdoc Himg Hdl).
Qed.

(** ** Handlers in worlds of string ids and addresses *)

Lemma poll_attempt_unstuck w pid st r st' :
  string_addresses w ->
  poll_attempt w pid st = (r, st') ->
  forall s, r <> Stuck s.
Proof.
  intros Haddr Hrun s ->.
  destruct (poll_attempt_cases _ _ _ _ _ Hrun)
    as [[_ [? | [e ?]]] | [img [(_ & _ & e & ?) |
          (image_data & res & _ & Hpub & _ & [(resp & _ & ?) | [-> _]])]]];
    try discriminate.
  by destruct (publish_or_proxy_unstuck _ _ _ _ _ _ _ _ Haddr Hpub) as [resp ?].
Qed.

Lemma poll_loop_stuck_inv fuel w pid start_time :
  string_addresses w ->
  forall st s st',
    poll_loop fuel w pid start_time st = (Stuck s, st') -> s = OutOfFuel.
Proof.
  intros Haddr. induction fuel as [|fuel IH]; intros st s st'.
  - by intros [= <- <-].
  - rewrite poll_loop_step. case_bool_decide; [|discriminate].
    destruct (poll_attempt w pid st) as [res st1] eqn:E.
    pose proof (poll_attempt_unstuck _ _ _ _ _ Haddr E) as Hne.
    destruct res as [[resp|]|e|s0]; try discriminate; try apply IH.
    by destruct (Hne s0).
Qed.

Lemma upload_binary_to_comfyui_unstuck w image_data original_filename st s st' :
  upload_binary_to_comfyui w image_data original_filename st <> (Stuck s, st').
Proof.
  destruct (pil_png w image_data) as [msg|png] eqn:Hpil.
  - by rewrite (upload_binary_unreadable _ _ _ _ _ Hpil).
  - rewrite (upload_binary_eq _ _ _ _ _ Hpil).
    destruct (http w (sent st) _).1 as [r|msg|msg]; try discriminate.
    case_bool_decide; [|discriminate].
    unfold response_json. destruct (body_json r) as [[| | | | | m]|]; discriminate.
Qed.

Lemma ingress_binary_unstuck w image_data image_filename st s st' :
  ingress_binary w image_data image_filename st <> (Stuck s, st').
Proof.
  unfold ingress_binary, mbind, M_bind. rewrite load_workflow_eq.
  destruct (workflow_file w) as [[j|]|]; try discriminate.
  case_bool_decide; [discriminate|].
  destruct (upload_binary_to_comfyui w image_data image_filename st)
    as [[name|e|s0] st1] eqn:E; try discriminate.
  by destruct (upload_binary_to_comfyui_unstuck w image_data image_filename st s0 st1).
Qed.

Lemma ingress_base64_unstuck w request st s st' :
  ingress_base64 w request st <> (Stuck s, st').
Proof.
  unfold ingress_base64, mbind, M_bind. rewrite load_workflow_eq.
  destruct (workflow_file w) as [[j|]|]; try discriminate.
  case_match; [discriminate|].
  unfold upload_base64_to_comfyui, decode_and_upload.
  destruct (b64decode w _) as [msg|image_data]; [discriminate|].
  destruct (upload_binary_to_comfyui w image_data None st)
    as [[name|e|s0] st1] eqn:E; try discriminate.
  by destruct (upload_binary_to_comfyui_unstuck w image_data None st s0 st1).
Qed.

(** In such a world a handler with fuel for the whole budget is never
    stuck. *)
Lemma handle_unstuck fuel w ingress seed st r st' :
  (100 < fuel)%nat ->
  string_job_ids w ->
  string_addresses w ->
  within quietly ingress ->
  (forall s st0, ingress st <> (Stuck s, st0)) ->
  handle fuel w ingress seed st = (r, st') ->
  forall s, r <> Stuck s.
Proof.
  intros Hfuel Hids Haddr Hquiet Hin Hrun s ->.
  pose proof (handle_answers fuel w ingress seed st _ _ Hfuel Hquiet Hrun) as Hne.
  assert (s = OutOfFuel) as ->; [|done].
  revert Hrun.
  unfold handle, outer_except, try_except, generate_tail, mbind, M_bind, lift.
  destruct (ingress st) as [[[workflow name]|e|s0] st0] eqn:Ein; simpl.
  - destruct (configure_workflow w workflow name seed) as [doc|e|s0] eqn:Hconf.
    + destruct (submit_workflow w doc st0) as [[pid|e|s0] st1] eqn:Hsub.
      * unfold time_time.
        destruct (poll_loop fuel w pid (clock st1) st1) as [[resp|e|s0] st2] eqn:Hloop;
          [discriminate | destruct e; discriminate |].
        intros [= <- <-]. by apply (poll_loop_stuck_inv _ _ _ _ Haddr _ _ _ Hloop).
      * destruct e; discriminate.
      * by destruct (submit_workflow_unstuck _ _ _ _ _ Hids Hsub s0).
    + destruct e; discriminate.
    + by destruct (configure_workflow_total w workflow name seed s0).
  - destruct e; discriminate.
  - by destruct (Hin s0 st0).
Qed.

(** X9.  In a world whose job ids and published addresses are strings, a
    generate handler answers in one of two ways, whatever else the engine,
    the storage service and the caller do: a response with success = true,
    an image address, the (non-empty) job id and no error text, or an
    [HTTPException] with status 400, 408 or 500.  The [error] field of the
    response is never filled in. *)
Theorem handlers_answer_success_or_http_error fuel w st :
  (100 < fuel)%nat ->
  string_job_ids w ->
  string_addresses w ->
  (forall image_data image_filename seed,
      handler_answer (generate_paper_cutting fuel w image_data image_filename seed st).1)
  /\ (forall request,
        handler_answer (generate_paper_cutting_base64 fuel w request st).1).
Proof.
  intros Hfuel Hids Haddr.
  assert (forall ingress seed,
            ensures (fun code => code = 400%Z) (fun _ => True) ingress ->
            within quietly ingress ->
            (forall s st0, ingress st <> (Stuck s, st0)) ->
            handler_answer (handle fuel w ingress seed st).1) as Hany.
  { intros ingress seed Hens Hquiet Hin.
    pose proof (handle_answer_shape fuel w ingress seed st Hens) as Hshape.
    destruct (handle fuel w ingress seed st) as [r st'] eqn:Hrun. simpl in *.
    destruct r as [resp|e|s]; try done.
    by destruct (handle_unstuck _ _ _ _ _ _ _ Hfuel Hids Haddr Hquiet Hin Hrun s). }
  split.
  - intros image_data image_filename seed. apply Hany.
    + apply ingress_binary_ensures.
    + apply ingress_binary_quiet.
    + intros s st0. apply ingress_binary_unstuck.
  - intros request. apply Hany.
    + apply ingress_base64_ensures.
    + apply ingress_base64_quiet.
    + intros s st0. apply ingress_base64_unstuck.
Qed.

(** ** The scripted worlds issue string job ids and addresses *)

Lemma script_world_job_ids bits pid history view storage dt :
  string_job_ids (Script.world bits (Script.accepted pid) history view storage dt).
Proof.
  intros log doc r m Hr _ Hbody. cbn in Hr. injection Hr as <-.
  cbn in Hbody. injection Hbody as <-. vm_compute. reflexivity.
Qed.

Lemma script_world_addresses bits submission history view storage dt :
  (forall r (m : gmap string json),
      storage = Replied r -> status_code r = 200%Z -> body_json r = Some (JObj m) ->
      str_or_falsy (default JNull (m !! "value")) = true) ->
  string_addresses (Script.world bits submission history view storage dt).
Proof.
  intros Hstorage log image_data filename r m Hr Hcode Hbody.
  apply (Hstorage r m); [|done..].
  unfold storage_request in Hr. cbn in Hr.
  by replace (String.eqb _ _) with false in Hr by (vm_compute; reflexivity).
Qed.

Lemma cdn_address_is_string r (m : gmap string json) :
  Script.cdn = Replied r -> status_code r = 200%Z -> body_json r = Some (JObj m) ->
  str_or_falsy (default JNull (m !! "value")) = true.
Proof.
  intros [= <-] _ [= <-]. vm_compute. reflexivity.
Qed.

Lemma status_reply_has_no_address code body r (m : gmap string json) :
  Script.status code body = Replied r -> status_code r = 200%Z ->
  body_json r = Some (JObj m) ->
  str_or_falsy (default JNull (m !! "value")) = true.
Proof.
  intros [= <-] _ [=].
Qed.

(** ** The further theorems at work on the scripted worlds *)

Lemma upload_filename_cases_witness :
  upload_filename 1000 (Some "photo.png") = "photo.png"
  /\ upload_filename 1000 (Some "holiday.photo.JPG") = "holiday.photo.png"
  /\ upload_filename 1000 (Some "photo") = "photo.png".
Proof.
  destruct (upload_filename_cases 1000) as (Hkeep & Hext & Hnodot & _ & _).
  split_and!.
  - apply Hkeep. vm_compute. reflexivity.
  - apply (Hext "holiday.photo" "JPG"); [reflexivity | discriminate].
  - apply Hnodot; [discriminate | reflexivity].
Defined.

Lemma missing_workflow_is_500_witness :
  generate_paper_cutting 101 Cases.w_no_workflow [] None None Script.start
  = (Raise (HTTPException 500
       "生成失败: 未找到工作流文件 02_qwen_Image_edit_subgraphed.json"),
     Script.start).
Proof.
  exact (proj1 (missing_workflow_is_500 101 Cases.w_no_workflow Script.start eq_refl)
           [] None None).
Defined.

Lemma empty_input_is_400_witness :
  generate_paper_cutting_base64 101 Script.w_published
    {| input_image_base64 := ""; seed := Some 7%Z |} Script.start
  = (Raise (HTTPException 400 "缺少输入图片"), Script.start).
Proof.
  exact (proj2 (empty_input_is_400 101 Script.w_published Script.workflow0
                  Script.start eq_refl) (Some 7%Z)).
Defined.

Lemma undecodable_image_is_500_witness :
  generate_paper_cutting 101 Cases.w_blind Script.photo (Some "photo.jpg") None
    Script.start
  = (Raise (HTTPException 500 "生成失败: cannot identify image file"), Script.start).
Proof.
  apply (proj1 (undecodable_image_is_500 101 Cases.w_blind Script.workflow0
                  Script.start "cannot identify image file" eq_refl)).
  - discriminate.
  - reflexivity.
Defined.

Lemma rejected_upload_is_500_witness :
  (generate_paper_cutting 101 Cases.w_upload_rejected Script.photo
     (Some "photo.jpg") None Script.start).1
  = Raise (HTTPException 500 "生成失败: 上传失败: 507 - disk full").
Proof.
  rewrite (rejected_upload_is_500 101 Cases.w_upload_rejected Script.workflow0
             Script.photo (Some "photo.jpg") None Script.start Script.photo
             {| status_code := 507; text := "disk full"; content := [];
                body_json := None |}).
  - vm_compute. reflexivity.
  - reflexivity.
  - discriminate.
  - reflexivity.
  - vm_compute. reflexivity.
  - discriminate.
Defined.

Lemma configuration_changes_two_fields_witness :
  exists doc,
    configure_workflow Script.w_published Script.workflow0 (JStr "in.png")
      (Some 42%Z) = Ok doc
    /\ lookup_path doc ["115:3"; "inputs"; "steps"] = Some (JNum 4)
    /\ lookup_path doc ["78"; "inputs"; "image"] = Some (JStr "in.png")
    /\ lookup_path doc ["115:3"; "inputs"; "seed"] = Some (JNum 42).
Proof.
  eexists. split; [vm_compute; reflexivity|].
  edestruct (configuration_changes_two_fields Script.w_published Cases.nodes0
               (JStr "in.png") (Some 42%Z)) as (Hkeep & Himage & Hseed).
  { vm_compute. reflexivity. }
  split_and!.
  - rewrite Hkeep; [vm_compute; reflexivity | reflexivity | reflexivity].
  - apply Himage. vm_compute. eauto.
  - apply Hseed. vm_compute. eauto.
Defined.

Lemma staged_name_and_seed_are_submitted_witness :
  let final := (generate_paper_cutting 101 Script.w_published Script.photo
                  (Some "photo.jpg") (Some 42%Z) Script.start).2 in
  submitted_image final = Some (JStr "in.png")
  /\ submitted_seed final = Some (JNum 42).
Proof.
  edestruct (staged_name_and_seed_are_submitted 101 Script.w_published Cases.nodes0
               Script.photo (Some "photo.jpg") (Some 42%Z) Script.start Script.photo
               {| status_code := 200; text := "{...}"; content := [];
                  body_json := Some (JObj Cases.upload_body) |}
               Cases.upload_body)
    as (_ & Himage & Hseed).
  - lia.
  - reflexivity.
  - discriminate.
  - reflexivity.
  - vm_compute. reflexivity.
  - reflexivity.
  - reflexivity.
  - vm_compute. reflexivity.
  - split.
    + apply Himage. vm_compute. eauto.
    + destruct Hseed as (z & Hz & Hs); [vm_compute; eauto|].
      rewrite Hz. f_equal. f_equal. by apply Hs.
Defined.

Lemma handlers_answer_success_or_http_error_witness :
  handler_answer (generate_paper_cutting 101 Script.w_published Script.photo
                    (Some "photo.jpg") (Some 42%Z) Script.start).1
  /\ handler_answer (generate_paper_cutting_base64 101 Script.w_storage_down
                       (Script.base64_request None) Script.start).1.
Proof.
  assert (100 < 101)%nat as Hfuel by lia.
  pose proof (handlers_answer_success_or_http_error 101 Script.w_published
                Script.start Hfuel
                (script_world_job_ids _ _ _ _ _ _)
                (script_world_addresses _ _ _ _ _ _ cdn_address_is_string))
    as [Hupload _].
  pose proof (handlers_answer_success_or_http_error 101 Script.w_storage_down
                Script.start Hfuel
                (script_world_job_ids _ _ _ _ _ _)
                (script_world_addresses _ _ _ _ _ _
                   (status_reply_has_no_address _ _)))
    as [_ Hbase64].
  split.
  - exact (Hupload Script.photo (Some "photo.jpg") (Some 42%Z)).
  - exact (Hbase64 (Script.base64_request None)).
Defined.

Lemma handlers_send_at_most_203_witness :
  (length (sent (generate_paper_cutting 101 Script.w_flaky Script.photo
                   (Some "photo.jpg") (Some 42%Z) Script.start).2)
   <= length (sent Script.start) + 203)%nat
  /\ (length (sent (generate_paper_cutting_base64 101 Script.w_download_fails
                      (Script.base64_request None) Script.start).2)
      <= length (sent Script.start) + 203)%nat.
Proof.
  pose proof (handlers_send_at_most_203 101 Script.w_flaky Script.start
                (script_world_job_ids _ _ _ _ _ _)
                (script_world_addresses _ _ _ _ _ _ cdn_address_is_string))
    as [Hupload _].
  pose proof (handlers_send_at_most_203 101 Script.w_download_fails Script.start
                (script_world_job_ids _ _ _ _ _ _)
                (script_world_addresses _ _ _ _ _ _ cdn_address_is_string))
    as [_ Hbase64].
  split.
  - exact (Hupload Script.photo (Some "photo.jpg") (Some 42%Z)).
  - exact (Hbase64 (Script.base64_request None)).
Defined.

Lemma response_carries_engine_job_id_witness :
  exists resp st',
    generate_paper_cutting 101 Script.w_published Script.photo (Some "photo.jpg")
      (Some 42%Z) Script.start = (Ok resp, st')
    /\ prompt_id resp = Some "abc".
Proof.
  eexists _, _. split; [vm_compute; reflexivity|].
  edestruct (response_carries_engine_job_id 101 Script.w_published
               (ingress_binary Script.w_published Script.photo (Some "photo.jpg"))
               (Some 42%Z) Script.start)
    as (workflow & name & st0 & doc & r & pid & _ & _ & _ & _ & _ & _ & Hpid).
  { apply script_world_job_ids. }
  { apply script_world_addresses, cdn_address_is_string. }
  { vm_compute. reflexivity. }
  reflexivity.
Defined.

Lemma response_is_published_download_witness :
  exists resp st' storage log,
    generate_paper_cutting 101 Script.w_storage_down Script.photo (Some "photo.jpg")
      (Some 42%Z) Script.start = (Ok resp, st')
    /\ sent st' = storage :: log
    /\ storage = storage_request Script.w_storage_down
                   [Byte.x89; Byte.x50; Byte.x4e; Byte.x47] (JStr "out.png").
Proof.
  edestruct (response_is_published_download 101 Script.w_storage_down
               (ingress_binary Script.w_storage_down Script.photo (Some "photo.jpg"))
               (Some 42%Z) Script.start)
    as (pid & log & img & image_data & Hsent & _ & _).
  { apply script_world_job_ids. }
  { apply script_world_addresses, status_reply_has_no_address. }
  { vm_compute. reflexivity. }
  eexists _, _, _, _. split; [vm_compute; reflexivity|].
  split; [vm_compute; reflexivity | reflexivity].
Defined.

Lemma base64_handler_is_upload_handler_witness :
  generate_paper_cutting_base64 101 Script.w_published
    (Script.base64_request (Some 42%Z)) Script.start
  = generate_paper_cutting 101 Script.w_published Cases.png_header None
      (Some 42%Z) Script.start.
Proof.
  apply (base64_handler_is_upload_handler 101 Script.w_published
           (Script.base64_request (Some 42%Z)) Cases.png_header Script.start).
  - discriminate.
  - reflexivity.
  - discriminate.
Defined.

Lemma proxy_link_drops_subfolder_witness :
  proxy_target Script.w_published "out.png" "output" ""
  = view_url Script.w_published (JStr "out.png") (JStr "") (JStr "output")
  /\ proxy_target Script.w_published "out.png" "output" ""
     <> view_url Script.w_published (JStr "out.png") (JStr "2024") (JStr "output").
Proof.
  split.
  - by apply (proxy_link_drops_subfolder Script.w_published "out.png" "output" (JStr "")).
  - by apply (proxy_link_drops_subfolder Script.w_published "out.png" "output"
                (JStr "2024")).
Defined.

Lemma exceptions_before_polling_are_fatal_witness :
  (generate_paper_cutting 101 Cases.w_upload_timeout Script.photo (Some "photo.jpg")
     None Script.start).1
  = Raise (HTTPException 500 "生成失败: read timed out")
  /\ (generate_paper_cutting 101 Cases.w_submit_timeout Script.photo
        (Some "photo.jpg") None Script.start).1
     = Raise (HTTPException 500 "生成失败: read timed out").
Proof.
  split.
  - rewrite (proj1 (exceptions_before_polling_are_fatal 101 Cases.w_upload_timeout
                      None "read timed out")
               Script.workflow0 Script.photo (Some "photo.jpg") Script.start
               Script.photo); try reflexivity. discriminate.
  - unfold generate_paper_cutting.
    erewrite (proj2 (exceptions_before_polling_are_fatal 101 Cases.w_submit_timeout
                       None "read timed out")); [reflexivity | ..].
    + vm_compute. reflexivity.
    + vm_compute. reflexivity.
    + vm_compute. reflexivity.
Defined.

Lemma timeout_only_after_budget_witness :
  exists st',
    generate_paper_cutting 101 Script.w_flaky Script.photo (Some "photo.jpg")
      (Some 42%Z) Script.start = (Raise (HTTPException 408 "生成超时"), st')
    /\ (1002 + 300 <= clock st')%N.
Proof.
  eexists. split; [vm_compute; reflexivity|].
  edestruct (timeout_only_after_budget 101 Script.w_flaky
               (ingress_binary Script.w_flaky Script.photo (Some "photo.jpg"))
               (Some 42%Z) Script.start)
    as (workflow & name & st0 & doc & pid & st1 & _ & _ & _ & _ & _).
  - apply script_world_job_ids.
  - apply script_world_addresses, cdn_address_is_string.
  - apply ingress_binary_ensures.
  - vm_compute. reflexivity.
  - vm_compute. discriminate.
Defined.

Lemma failed_download_polls_again_witness :
  resume_polling 2 Script.w_download_fails "abc" 1000 Script.start
  = resume_polling 1 Script.w_download_fails "abc" 1000
      {| clock := 1005;
         sent := [GET "http://10.0.0.11:8188/view?filename=out.png&type=output" 30;
                  GET "http://10.0.0.11:8188/history/abc" 30] |}.
Proof.
  exact (failed_download_polls_again Script.w_download_fails "abc" 1000 1
           Script.start (Script.finished "abc" Script.two_images)
           Script.first_entry [Script.image_entry "second.png" "sub" "temp"]
           eq_refl eq_refl eq_refl eq_refl).
Defined.
